(** * nvidia-pstated: the per-device control loop of [src/main.c]

    A shallow embedding of the daemon's control code: the device record
    [gpuState], the three control operations [get_supported_clocks],
    [set_clocks] and [enter_pstate], and the phases of [run] (handle
    sorting, id validation, the monitoring loop and the exit phase).

    The vendor libraries (NVAPI, NVML) are outside the program.  They are
    modelled by a [Driver]: one reply function per library entry point,
    which may depend on the whole history of calls issued so far, so that
    any deterministic hardware behaviour over time can be described.  Every
    call the program issues is appended to the log [calls].

    The module [Nvapi] embeds [src/nvapi.c], the run-time loader of the
    NVAPI library, in the same way over a [System], and [cleanup] embeds the
    end of [run]. *)

From stdpp Require Import base option list.
From Stdlib Require Import ZArith Lia.
From Stdlib Require String Ascii.

Local Open Scope Z_scope.

(** ** Machine integers *)

(** [unsigned int] is 32 bits wide; arithmetic on it and conversions to it
    wrap around. *)
Definition wrap32 (x : Z) : Z := x mod 2 ^ 32.

(** ** Constants of [main.c] *)

Definition ITERATIONS_BEFORE_SWITCH : Z := 30.
Definition PERFORMANCE_STATE_HIGH : Z := 16.
Definition PERFORMANCE_STATE_LOW : Z := 8.
Definition SLEEP_INTERVAL : Z := 100.
Definition TEMPERATURE_THRESHOLD : Z := 80.
Definition CLOCK_FREQ_MEM_HIGH : Z := 0.
Definition CLOCK_FREQ_GPU_HIGH : Z := 0.
Definition CLOCK_FREQ_MEM_LOW : Z := 0.
Definition CLOCK_FREQ_GPU_LOW : Z := 0.
Definition ENABLE_CLOCK_FALLBACK : bool := true.

(** The capacity of the device arrays; the value is the one of the vendor
    header [nvapi.h]. *)
Definition NVAPI_MAX_PHYSICAL_GPUS : nat := 64.

(** Status codes of the two libraries: zero is success. *)
Definition NvAPI_Status := Z.
Definition NVAPI_OK : NvAPI_Status := 0.
Definition nvmlReturn_t := Z.
Definition NVML_SUCCESS : nvmlReturn_t := 0.

(** Opaque device handles, one kind per library. *)
Definition NvPhysicalGpuHandle := Z.
Definition nvmlDevice_t := Z.

(** ** The device record *)

Record gpuState := mkGpuState {
  iterations : Z;
  pstateId : Z;
  managed : bool;
  usingClockControl : bool;
  minMemClock : Z;
  minGpuClock : Z;
  currentMemClock : Z;
  currentGpuClock : Z
}.

(** Static storage is zero-initialised. *)
Definition zero_state : gpuState :=
  mkGpuState 0 0 false false 0 0 0 0.

Definition set_iterations (v : Z) (s : gpuState) : gpuState :=
  mkGpuState v (pstateId s) (managed s) (usingClockControl s)
    (minMemClock s) (minGpuClock s) (currentMemClock s) (currentGpuClock s).
Definition set_pstateId (v : Z) (s : gpuState) : gpuState :=
  mkGpuState (iterations s) v (managed s) (usingClockControl s)
    (minMemClock s) (minGpuClock s) (currentMemClock s) (currentGpuClock s).
Definition set_managed (v : bool) (s : gpuState) : gpuState :=
  mkGpuState (iterations s) (pstateId s) v (usingClockControl s)
    (minMemClock s) (minGpuClock s) (currentMemClock s) (currentGpuClock s).
Definition set_usingClockControl (v : bool) (s : gpuState) : gpuState :=
  mkGpuState (iterations s) (pstateId s) (managed s) v
    (minMemClock s) (minGpuClock s) (currentMemClock s) (currentGpuClock s).
Definition set_minMemClock (v : Z) (s : gpuState) : gpuState :=
  mkGpuState (iterations s) (pstateId s) (managed s) (usingClockControl s)
    v (minGpuClock s) (currentMemClock s) (currentGpuClock s).
Definition set_minGpuClock (v : Z) (s : gpuState) : gpuState :=
  mkGpuState (iterations s) (pstateId s) (managed s) (usingClockControl s)
    (minMemClock s) v (currentMemClock s) (currentGpuClock s).
Definition set_currentMemClock (v : Z) (s : gpuState) : gpuState :=
  mkGpuState (iterations s) (pstateId s) (managed s) (usingClockControl s)
    (minMemClock s) (minGpuClock s) v (currentGpuClock s).
Definition set_currentGpuClock (v : Z) (s : gpuState) : gpuState :=
  mkGpuState (iterations s) (pstateId s) (managed s) (usingClockControl s)
    (minMemClock s) (minGpuClock s) (currentMemClock s) v.

(** ** Library calls and the driver *)

(** The library entry points the control code reaches, with the arguments
    passed.  The log holds the calls that read or drive a device.  The two
    entry points that only turn a status into the text of a message,
    [nvmlErrorString] and [NvAPI_GetErrorMessage], are called on some
    failure paths just before the message is printed; like the printing
    itself they are not part of the log. *)
Inductive hwCall :=
| CallSetForcePstate (h : NvPhysicalGpuHandle) (pstate flags : Z)
| CallGetBusId (h : NvPhysicalGpuHandle)
| CallGetPciInfo (d : nvmlDevice_t)
| CallGetName (d : nvmlDevice_t)
| CallGetSupportedMemoryClocks (d : nvmlDevice_t)
| CallGetSupportedGraphicsClocks (d : nvmlDevice_t) (memClock : Z)
| CallResetApplicationsClocks (d : nvmlDevice_t)
| CallSetApplicationsClocks (d : nvmlDevice_t) (memClock gpuClock : Z)
| CallGetTemperature (d : nvmlDevice_t)
| CallGetUtilizationRates (d : nvmlDevice_t).

(** Recognises the call [NvAPI_GPU_SetForcePstate] in the log. *)
Definition is_SetForcePstate (c : hwCall) : bool :=
  match c with CallSetForcePstate _ _ _ => true | _ => false end.

Definition is_GetUtilizationRates (c : hwCall) : bool :=
  match c with CallGetUtilizationRates _ => true | _ => false end.

(** The calls that act on the level or the clocks of a device, as
    opposed to the sensor and identification reads. *)
Definition is_control (c : hwCall) : bool :=
  match c with
  | CallSetForcePstate _ _ _
  | CallGetSupportedMemoryClocks _
  | CallGetSupportedGraphicsClocks _ _
  | CallResetApplicationsClocks _
  | CallSetApplicationsClocks _ _ _ => true
  | _ => false
  end.

(** The number of calls of one kind in a stretch of the log. *)
Definition count_calls (kind : hwCall → bool) (l : list hwCall) : nat :=
  length (filter (λ c, kind c = true) l).

(** [nvmlUtilization_t]. *)
Record nvmlUtilization_t := mkUtilization { gpu : Z; memory : Z }.

(** What the libraries answer.  The first argument of every field is the
    list of calls issued before this one.  A clock query answers with the
    entries the library wrote into the buffer; their number is the [count]
    it reports. *)
Record Driver := mkDriver {
  drv_SetForcePstate :
    list hwCall → NvPhysicalGpuHandle → Z → Z → NvAPI_Status;
  drv_GetBusId : list hwCall → NvPhysicalGpuHandle → NvAPI_Status * Z;
  drv_GetPciInfo : list hwCall → nvmlDevice_t → nvmlReturn_t * Z;
  drv_GetName : list hwCall → nvmlDevice_t → nvmlReturn_t;
  drv_GetSupportedMemoryClocks :
    list hwCall → nvmlDevice_t → nvmlReturn_t * list Z;
  drv_GetSupportedGraphicsClocks :
    list hwCall → nvmlDevice_t → Z → nvmlReturn_t * list Z;
  drv_ResetApplicationsClocks : list hwCall → nvmlDevice_t → nvmlReturn_t;
  drv_SetApplicationsClocks :
    list hwCall → nvmlDevice_t → Z → Z → nvmlReturn_t;
  drv_GetTemperature : list hwCall → nvmlDevice_t → nvmlReturn_t * Z;
  drv_GetUtilizationRates :
    list hwCall → nvmlDevice_t → nvmlReturn_t * nvmlUtilization_t
}.

(** ** Global state of the daemon *)

(** An entry of [nvapiDevices] is [None] while its content is indeterminate
    (copied from a slot of an uninitialised local array). *)
Record Globals := mkGlobals {
  nvapiDevices : list (option NvPhysicalGpuHandle);
  nvmlDevices : list nvmlDevice_t;
  deviceCount : nat;
  gpuStates : list gpuState;
  enableClockFallback : bool;
  calls : list hwCall
}.

Definition with_gpuStates (g : list gpuState) (σ : Globals) : Globals :=
  mkGlobals (nvapiDevices σ) (nvmlDevices σ) (deviceCount σ) g
    (enableClockFallback σ) (calls σ).
Definition with_calls (c : list hwCall) (σ : Globals) : Globals :=
  mkGlobals (nvapiDevices σ) (nvmlDevices σ) (deviceCount σ) (gpuStates σ)
    (enableClockFallback σ) c.
Definition with_nvapiDevices (l : list (option NvPhysicalGpuHandle))
    (σ : Globals) : Globals :=
  mkGlobals l (nvmlDevices σ) (deviceCount σ) (gpuStates σ)
    (enableClockFallback σ) (calls σ).

(** The globals after an operation that left [st] in the record of device
    [i] and issued the calls [new]. *)
Definition update_device (i : nat) (st : gpuState) (new : list hwCall)
    (σ : Globals) : Globals :=
  mkGlobals (nvapiDevices σ) (nvmlDevices σ) (deviceCount σ)
    (<[i := st]> (gpuStates σ)) (enableClockFallback σ) (calls σ ++ new).

(** ** The monad of the control code

    A computation reads and writes the globals.  [None] stands for an array
    access outside the array or the use of an indeterminate handle
    (undefined in C). *)
Definition M (A : Type) : Type := Globals → option (A * Globals).

#[global] Instance M_ret : MRet M := λ A a σ, Some (a, σ).

#[global] Instance M_bind : MBind M := λ A B k m σ,
  match m σ with
  | Some (a, σ') => k a σ'
  | None => None
  end.

(** [&gpuStates[i]], read. *)
Definition get_state (i : nat) : M gpuState :=
  λ σ, match gpuStates σ !! i with
       | Some s => Some (s, σ)
       | None => None
       end.

(** A store through [state->field = v]. *)
Definition modify_state (i : nat) (f : gpuState → gpuState) : M unit :=
  λ σ, match gpuStates σ !! i with
       | Some s => Some (tt, with_gpuStates (<[i := f s]> (gpuStates σ)) σ)
       | None => None
       end.

Definition get_nvmlDevice (i : nat) : M nvmlDevice_t :=
  λ σ, match nvmlDevices σ !! i with
       | Some d => Some (d, σ)
       | None => None
       end.

Definition get_nvapiDevice (i : nat) : M NvPhysicalGpuHandle :=
  λ σ, match nvapiDevices σ !! i with
       | Some (Some h) => Some (h, σ)
       | _ => None
       end.

Definition get_enableClockFallback : M bool :=
  λ σ, Some (enableClockFallback σ, σ).

Definition get_deviceCount : M nat :=
  λ σ, Some (deviceCount σ, σ).

Definition get_nvapiDevices : M (list (option NvPhysicalGpuHandle)) :=
  λ σ, Some (nvapiDevices σ, σ).

Definition put_nvapiDevices (l : list (option NvPhysicalGpuHandle)) : M unit :=
  λ σ, Some (tt, with_nvapiDevices l σ).

(** A library call: the reply is computed from the calls made so far, and
    the call is logged. *)
Definition invoke {R} (c : hwCall) (reply : list hwCall → R) : M R :=
  λ σ, Some (reply (calls σ), with_calls (calls σ ++ [c]) σ).

Section Control.
Variable drv : Driver.

Definition NvAPI_GPU_SetForcePstate (h : NvPhysicalGpuHandle) (p f : Z)
    : M NvAPI_Status :=
  invoke (CallSetForcePstate h p f) (λ hist, drv_SetForcePstate drv hist h p f).
Definition NvAPI_GPU_GetBusId (h : NvPhysicalGpuHandle) : M (NvAPI_Status * Z) :=
  invoke (CallGetBusId h) (λ hist, drv_GetBusId drv hist h).
Definition nvmlDeviceGetPciInfo (d : nvmlDevice_t) : M (nvmlReturn_t * Z) :=
  invoke (CallGetPciInfo d) (λ hist, drv_GetPciInfo drv hist d).
Definition nvmlDeviceGetName (d : nvmlDevice_t) : M nvmlReturn_t :=
  invoke (CallGetName d) (λ hist, drv_GetName drv hist d).
Definition nvmlDeviceGetSupportedMemoryClocks (d : nvmlDevice_t)
    : M (nvmlReturn_t * list Z) :=
  invoke (CallGetSupportedMemoryClocks d)
    (λ hist, drv_GetSupportedMemoryClocks drv hist d).
Definition nvmlDeviceGetSupportedGraphicsClocks (d : nvmlDevice_t) (mem : Z)
    : M (nvmlReturn_t * list Z) :=
  invoke (CallGetSupportedGraphicsClocks d mem)
    (λ hist, drv_GetSupportedGraphicsClocks drv hist d mem).
Definition nvmlDeviceResetApplicationsClocks (d : nvmlDevice_t)
    : M nvmlReturn_t :=
  invoke (CallResetApplicationsClocks d)
    (λ hist, drv_ResetApplicationsClocks drv hist d).
Definition nvmlDeviceSetApplicationsClocks (d : nvmlDevice_t) (mem g : Z)
    : M nvmlReturn_t :=
  invoke (CallSetApplicationsClocks d mem g)
    (λ hist, drv_SetApplicationsClocks drv hist d mem g).
Definition nvmlDeviceGetTemperature (d : nvmlDevice_t)
    : M (nvmlReturn_t * Z) :=
  invoke (CallGetTemperature d) (λ hist, drv_GetTemperature drv hist d).
Definition nvmlDeviceGetUtilizationRates (d : nvmlDevice_t)
    : M (nvmlReturn_t * nvmlUtilization_t) :=
  invoke (CallGetUtilizationRates d)
    (λ hist, drv_GetUtilizationRates drv hist d).

(** The scan for the lowest entry of a clock buffer: [first] is entry 0,
    [rest] the entries [1 .. count-1]. *)
Definition lowest_clock (first : Z) (rest : list Z) : Z :=
  fold_left (λ lowest c, if c <? lowest then c else lowest) rest first.

(** [get_supported_clocks], main.c:109. *)
Definition get_supported_clocks (i : nat) : M bool :=
  state ← get_state i;
  if negb (managed state) then mret true else
  d ← get_nvmlDevice i;
  '(result, tempMemClocks) ← nvmlDeviceGetSupportedMemoryClocks d;
  if negb (result =? NVML_SUCCESS) then mret false else
  match tempMemClocks with
  | [] => mret false
  | first :: rest =>
    let lowestMemClock := lowest_clock first rest in
    modify_state i (set_minMemClock lowestMemClock);;
    '(result, tempGpuClocks) ←
       nvmlDeviceGetSupportedGraphicsClocks d lowestMemClock;
    if negb (result =? NVML_SUCCESS) then mret false else
    match tempGpuClocks with
    | [] => mret false
    | first :: rest =>
      let lowestGpuClock := lowest_clock first rest in
      modify_state i (set_minGpuClock lowestGpuClock);;
      mret true
    end
  end.

(** The clocks [set_clocks] settles on.  The four frequencies are
    [unsigned long]; [memClock] and [gpuClock] are [unsigned int]. *)
Definition chosen_memClock (highPerformance : bool)
    (memFreqHigh memFreqLow : Z) (state : gpuState) : Z :=
  wrap32 (if highPerformance then memFreqHigh
          else if memFreqLow >? 0 then memFreqLow else minMemClock state).
Definition chosen_gpuClock (highPerformance : bool)
    (gpuFreqHigh gpuFreqLow : Z) (state : gpuState) : Z :=
  wrap32 (if highPerformance then gpuFreqHigh
          else if gpuFreqLow >? 0 then gpuFreqLow else minGpuClock state).

(** The test for the reset to automatic clocks. *)
Definition resets_to_auto (highPerformance : bool)
    (memFreqHigh gpuFreqHigh : Z) : bool :=
  highPerformance && (memFreqHigh =? 0) && (gpuFreqHigh =? 0).

(** [set_clocks], main.c:182. *)
Definition set_clocks (i : nat) (highPerformance : bool)
    (memFreqHigh gpuFreqHigh memFreqLow gpuFreqLow : Z) : M bool :=
  state ← get_state i;
  if negb (managed state) then mret true else
  d ← get_nvmlDevice i;
  if resets_to_auto highPerformance memFreqHigh gpuFreqHigh then
    result ← nvmlDeviceResetApplicationsClocks d;
    if negb (result =? NVML_SUCCESS) then mret false else
    modify_state i (set_currentMemClock 0);;
    modify_state i (set_currentGpuClock 0);;
    mret true
  else
    let memClock :=
      chosen_memClock highPerformance memFreqHigh memFreqLow state in
    let gpuClock :=
      chosen_gpuClock highPerformance gpuFreqHigh gpuFreqLow state in
    result ← nvmlDeviceSetApplicationsClocks d memClock gpuClock;
    if negb (result =? NVML_SUCCESS) then mret false else
    modify_state i (set_currentMemClock memClock);;
    modify_state i (set_currentGpuClock gpuClock);;
    mret true.

(** What [set_clocks] asks of the library for a managed device in state
    [state], what the library answers after the calls [hist], and the record
    [set_clocks] leaves on success. *)
Definition clock_call (d : nvmlDevice_t) (highPerformance : bool)
    (memFreqHigh gpuFreqHigh memFreqLow gpuFreqLow : Z) (state : gpuState)
    : hwCall :=
  if resets_to_auto highPerformance memFreqHigh gpuFreqHigh
  then CallResetApplicationsClocks d
  else CallSetApplicationsClocks d
         (chosen_memClock highPerformance memFreqHigh memFreqLow state)
         (chosen_gpuClock highPerformance gpuFreqHigh gpuFreqLow state).
Definition clock_reply (hist : list hwCall) (d : nvmlDevice_t)
    (highPerformance : bool)
    (memFreqHigh gpuFreqHigh memFreqLow gpuFreqLow : Z) (state : gpuState)
    : nvmlReturn_t :=
  if resets_to_auto highPerformance memFreqHigh gpuFreqHigh
  then drv_ResetApplicationsClocks drv hist d
  else drv_SetApplicationsClocks drv hist d
         (chosen_memClock highPerformance memFreqHigh memFreqLow state)
         (chosen_gpuClock highPerformance gpuFreqHigh gpuFreqLow state).
Definition clocked (highPerformance : bool)
    (memFreqHigh gpuFreqHigh memFreqLow gpuFreqLow : Z) (state : gpuState)
    : gpuState :=
  if resets_to_auto highPerformance memFreqHigh gpuFreqHigh
  then set_currentGpuClock 0 (set_currentMemClock 0 state)
  else set_currentGpuClock
         (chosen_gpuClock highPerformance gpuFreqHigh gpuFreqLow state)
         (set_currentMemClock
            (chosen_memClock highPerformance memFreqHigh memFreqLow state)
            state).

(** [enter_pstate], main.c:235.  [pstateId] is an [unsigned int]
    parameter: callers passing an [unsigned long] convert it with
    [wrap32]. *)
Definition enter_pstate (i : nat) (pstateId : Z)
    (memFreqHigh gpuFreqHigh memFreqLow gpuFreqLow : Z) : M bool :=
  state ← get_state i;
  if negb (managed state) then mret true else
  if usingClockControl state then
    let isHighPerformance := pstateId =? PERFORMANCE_STATE_HIGH in
    ok ← set_clocks i isHighPerformance
            memFreqHigh gpuFreqHigh memFreqLow gpuFreqLow;
    if negb ok then mret false else
    modify_state i (set_iterations 0);;
    modify_state i (set_pstateId pstateId);;
    mret true
  else
    h ← get_nvapiDevice i;
    status ← NvAPI_GPU_SetForcePstate h pstateId 0;
    let finish : M bool :=
      modify_state i (set_iterations 0);;
      modify_state i (set_pstateId pstateId);;
      mret true in
    if negb (status =? NVAPI_OK) then
      fallback ← get_enableClockFallback;
      if (fallback : bool) then
        ok ← get_supported_clocks i;
        if negb ok then mret false else
        modify_state i (set_usingClockControl true);;
        let isHighPerformance := pstateId =? PERFORMANCE_STATE_HIGH in
        ok ← set_clocks i isHighPerformance
                memFreqHigh gpuFreqHigh memFreqLow gpuFreqLow;
        if negb ok then mret false else
        finish
      else mret false
    else finish.

(** ** The phases of [run]

    Option parsing and the loading and initialisation of the libraries are
    outside this development: [run] is entered here with the parsed options
    and the handle arrays as the enumeration left them. *)

Record Options := mkOptions {
  ids : list Z;
  iterationsBeforeSwitch : Z;
  performanceStateHigh : Z;
  performanceStateLow : Z;
  sleepInterval : Z;
  temperatureThreshold : Z;
  clockFreqMemHigh : Z;
  clockFreqGpuHigh : Z;
  clockFreqMemLow : Z;
  clockFreqGpuLow : Z
}.

(** The defaults of the option block of [run]. *)
Definition default_options : Options :=
  mkOptions [] ITERATIONS_BEFORE_SWITCH PERFORMANCE_STATE_HIGH
    PERFORMANCE_STATE_LOW SLEEP_INTERVAL TEMPERATURE_THRESHOLD
    CLOCK_FREQ_MEM_HIGH CLOCK_FREQ_GPU_HIGH CLOCK_FREQ_MEM_LOW
    CLOCK_FREQ_GPU_LOW.

(** A [for] loop over the indices [l] whose body may jump to [errored]:
    the body answers [false] for the jump, and the loop stops there. *)
Fixpoint for_each (l : list nat) (body : nat → M bool) : M bool :=
  match l with
  | [] => mret true
  | i :: l' =>
    ok ← body i;
    if (ok : bool) then for_each l' body else mret false
  end.

Definition for_devices (body : nat → M bool) : M bool :=
  n ← get_deviceCount;
  for_each (seq 0 n) body.

Section Run.
Variable opts : Options.

(** *** Sorting the NVAPI handles, main.c:475 *)

(** Modelled from the spec: the macros [NVML_CALL] and [NVAPI_CALL] of
    [utils.h], which is not among the sources.  Every library call returns
    a status, and a status other than success is fatal: the macro jumps to
    the label it is given.  Below, the jump to [errored] is the answer
    [None] of step 1 and the answer [false] of a loop body. *)
Definition NVML_CALL_failed (result : nvmlReturn_t) : bool :=
  negb (result =? NVML_SUCCESS).
Definition NVAPI_CALL_failed (status : NvAPI_Status) : bool :=
  negb (status =? NVAPI_OK).

(** Step 1: the bus ids of both libraries, for the indices [l].  The
    answer holds [nvmlIdentifiers] and [nvapiIdentifiers]. *)
Fixpoint read_identifiers (l : list nat) : M (option (list Z * list Z)) :=
  match l with
  | [] => mret (Some ([], []))
  | i :: l' =>
    d ← get_nvmlDevice i;
    '(result, bus) ← nvmlDeviceGetPciInfo d;
    if NVML_CALL_failed result then mret None else
    h ← get_nvapiDevice i;
    '(status, nvapiBusId) ← NvAPI_GPU_GetBusId h;
    if NVAPI_CALL_failed status then mret None else
    rest ← read_identifiers l';
    mret (match rest with
          | Some (nvmlIdentifiers, nvapiIdentifiers) =>
            Some (bus :: nvmlIdentifiers, nvapiBusId :: nvapiIdentifiers)
          | None => None
          end)
  end.

(** The inner loop of step 2: the first index [j], counted from [j0], at
    which [nvapiIdentifiers] holds [x]. *)
Fixpoint find_match (x : Z) (nvapiIdentifiers : list Z) (j0 : nat)
    : option nat :=
  match nvapiIdentifiers with
  | [] => None
  | y :: ys => if x =? y then Some j0 else find_match x ys (S j0)
  end.

(** The inner loop for row [i] of the outer loop: the index in the NVAPI
    enumeration matched with index [i] of the NVML enumeration, if any. *)
Definition matched_index (nvmlIdentifiers nvapiIdentifiers : list Z)
    (i : nat) : option nat :=
  match nvmlIdentifiers !! i with
  | Some x => find_match x nvapiIdentifiers 0
  | None => None
  end.

(** One round of the outer loop of step 2: [sortedNvapiDevices[i]] is
    written when the inner loop finds a match, and left as it is
    otherwise. *)
Definition match_device (nvmlIdentifiers nvapiIdentifiers : list Z)
    (devices sorted : list (option NvPhysicalGpuHandle)) (i : nat)
    : list (option NvPhysicalGpuHandle) :=
  match matched_index nvmlIdentifiers nvapiIdentifiers i with
  | Some j => <[i := default None (devices !! j)]> sorted
  | None => sorted
  end.

(** Step 2 for [n] devices: the local array starts uninitialised. *)
Definition sortedNvapiDevices (n : nat)
    (nvmlIdentifiers nvapiIdentifiers : list Z)
    (devices : list (option NvPhysicalGpuHandle))
    : list (option NvPhysicalGpuHandle) :=
  fold_left (match_device nvmlIdentifiers nvapiIdentifiers devices)
    (seq 0 n) (replicate NVAPI_MAX_PHYSICAL_GPUS None).

(** The whole block; step 3 copies the local array over [nvapiDevices]. *)
Definition sort_nvapi_handles : M bool :=
  n ← get_deviceCount;
  identifiers ← read_identifiers (seq 0 n);
  match identifiers with
  | None => mret false
  | Some (nvmlIdentifiers, nvapiIdentifiers) =>
    devices ← get_nvapiDevices;
    put_nvapiDevices
      (sortedNvapiDevices n nvmlIdentifiers nvapiIdentifiers devices);;
    mret true
  end.

(** *** Choosing the managed devices, main.c:566 *)

(** The validity test of an id; [id] is an [unsigned long]. *)
Definition invalid_id (count : nat) (id : Z) : bool :=
  (id <? 0) || (id >? Z.of_nat count).

Fixpoint mark_ids (l : list Z) : M unit :=
  match l with
  | [] => mret tt
  | id :: l' =>
    n ← get_deviceCount;
    (if invalid_id n id then mret tt
     else modify_state (Z.to_nat id) (set_managed true));;
    mark_ids l'
  end.

Definition mark_managed : M unit :=
  match ids opts with
  | [] =>
    ok ← for_devices (λ i, modify_state i (set_managed true);; mret true);
    mret tt
  | _ => mark_ids (ids opts)
  end.

(** *** Listing the managed devices, main.c:599

    The answer is the number of managed devices, or [None] for the jump to
    [errored]. *)
Fixpoint list_managed (l : list nat) (managedGPUs : Z) : M (option Z) :=
  match l with
  | [] => mret (Some managedGPUs)
  | i :: l' =>
    state ← get_state i;
    if managed state then
      d ← get_nvmlDevice i;
      result ← nvmlDeviceGetName d;
      if NVML_CALL_failed result then mret None else
      fallback ← get_enableClockFallback;
      (if (fallback : bool) then
         ok ← get_supported_clocks i; mret tt
       else mret tt);;
      list_managed l' (wrap32 (managedGPUs + 1))
    else list_managed l' managedGPUs
  end.

Definition enter_low (i : nat) : M bool :=
  enter_pstate i (wrap32 (performanceStateLow opts))
    (clockFreqMemHigh opts) (clockFreqGpuHigh opts)
    (clockFreqMemLow opts) (clockFreqGpuLow opts).

Definition enter_high (i : nat) : M bool :=
  enter_pstate i (wrap32 (performanceStateHigh opts))
    (clockFreqMemHigh opts) (clockFreqGpuHigh opts)
    (clockFreqMemLow opts) (clockFreqGpuLow opts).

(** The [INIT] block. *)
Definition init : M bool :=
  mark_managed;;
  n ← get_deviceCount;
  managedGPUs ← list_managed (seq 0 n) 0;
  match managedGPUs with
  | None => mret false
  | Some n =>
    if n =? 0 then mret false else
    for_devices enter_low
  end.

(** *** The monitoring loop, main.c:652 *)

(** The body of the loop over the devices, for device [i]; [false] is the
    jump to [errored], [true] the end of the body or its [continue]. *)
Definition tick_device (i : nat) : M bool :=
  d ← get_nvmlDevice i;
  '(result, temperature) ← nvmlDeviceGetTemperature d;
  if NVML_CALL_failed result then mret false else
  if temperature >? temperatureThreshold opts then
    state ← get_state i;
    if negb (pstateId state =? performanceStateLow opts) then
      enter_low i
    else mret true
  else
    '(result, utilization) ← nvmlDeviceGetUtilizationRates d;
    if NVML_CALL_failed result then mret false else
    state ← get_state i;
    if negb (gpu utilization =? 0) then
      if negb (pstateId state =? performanceStateHigh opts) then
        enter_high i
      else
        modify_state i (set_iterations 0);;
        mret true
    else
      if negb (pstateId state =? performanceStateLow opts) then
        ok ← (if iterations state >? iterationsBeforeSwitch opts
              then enter_low i else mret true);
        if negb ok then mret false else
        modify_state i (λ s, set_iterations (wrap32 (iterations s + 1)) s);;
        mret true
      else mret true.

(** One pass over all devices. *)
Definition tick : M bool := for_devices tick_device.

(** The loop [while (shouldRun)], for a stop request observed after
    [n] passes. *)
Fixpoint main_loop (n : nat) : M bool :=
  match n with
  | O => mret true
  | S n' =>
    ok ← tick;
    if (ok : bool) then main_loop n' else mret false
  end.

(** *** The exit phase, main.c:719 *)

Definition exit_device (i : nat) : M bool :=
  state ← get_state i;
  if usingClockControl state then
    d ← get_nvmlDevice i;
    result ← nvmlDeviceResetApplicationsClocks d;
    mret true
  else
    enter_pstate i 16
      (clockFreqMemHigh opts) (clockFreqGpuHigh opts)
      (clockFreqMemLow opts) (clockFreqGpuLow opts).

Definition normal_exit : M bool := for_devices exit_device.

(** [run], from the sorting of the handles on; the answer is
    [errorOccurred]. *)
Definition run (n : nat) : M bool :=
  ok ← sort_nvapi_handles;
  if negb ok then mret true else
  ok ← init;
  if negb ok then mret true else
  ok ← main_loop n;
  if negb ok then mret true else
  ok ← normal_exit;
  mret (negb ok).

End Run.
End Control.

(** * Relations between states of the run *)

(** ** What an operation on device [i] may change

    [evolves i σ σ']: the handle arrays, the device count and the fallback
    switch are as before, the records of the other devices are as before,
    the record of device [i] keeps its [managed] flag and never loses its
    [usingClockControl] flag, and the log has grown by calls among which
    [NvAPI_GPU_SetForcePstate] occurs only for the handle of device [i],
    and only if that device was managed and not under clock control. *)
Record evolves (i : nat) (σ σ' : Globals) : Prop := mkEvolves {
  ev_nvapiDevices : nvapiDevices σ' = nvapiDevices σ;
  ev_nvmlDevices : nvmlDevices σ' = nvmlDevices σ;
  ev_deviceCount : deviceCount σ' = deviceCount σ;
  ev_fallback : enableClockFallback σ' = enableClockFallback σ;
  ev_length : length (gpuStates σ') = length (gpuStates σ);
  ev_frame : ∀ j, j ≠ i → gpuStates σ' !! j = gpuStates σ !! j;
  ev_state : ∀ st, gpuStates σ !! i = Some st →
    ∃ st', gpuStates σ' !! i = Some st' ∧ managed st' = managed st ∧
           (usingClockControl st = true → usingClockControl st' = true);
  ev_calls : ∃ new, calls σ' = calls σ ++ new ∧
    ∀ h p f, CallSetForcePstate h p f ∈ new →
      nvapiDevices σ !! i = Some (Some h) ∧
      ∃ st, gpuStates σ !! i = Some st ∧ managed st = true ∧
            usingClockControl st = false
}.

(** ** What an operation may log

    [appends P σ σ']: the log of [σ'] is the log of [σ] followed by calls
    that all satisfy [P]. *)
Definition appends (P : hwCall → Prop) (σ σ' : Globals) : Prop :=
  ∃ new, calls σ' = calls σ ++ new ∧ Forall P new.

(** [others_step i σ σ']: what operations on devices other than [i] may
    do, as seen from device [i]. *)
Record others_step (i : nat) (σ σ' : Globals) : Prop := mkOthersStep {
  os_nvapiDevices : nvapiDevices σ' = nvapiDevices σ;
  os_nvmlDevices : nvmlDevices σ' = nvmlDevices σ;
  os_deviceCount : deviceCount σ' = deviceCount σ;
  os_fallback : enableClockFallback σ' = enableClockFallback σ;
  os_state : gpuStates σ' !! i = gpuStates σ !! i;
  os_calls : ∃ new, calls σ' = calls σ ++ new
}.

(** [progresses σ σ']: what any stretch of the run after the [INIT] block
    may do: no record loses its [usingClockControl] flag or changes its
    [managed] flag, and [NvAPI_GPU_SetForcePstate] is called only with the
    handle of a managed device that was not under clock control at [σ]. *)
Record progresses (σ σ' : Globals) : Prop := mkProgresses {
  pg_nvapiDevices : nvapiDevices σ' = nvapiDevices σ;
  pg_nvmlDevices : nvmlDevices σ' = nvmlDevices σ;
  pg_deviceCount : deviceCount σ' = deviceCount σ;
  pg_fallback : enableClockFallback σ' = enableClockFallback σ;
  pg_length : length (gpuStates σ') = length (gpuStates σ);
  pg_state : ∀ i st, gpuStates σ !! i = Some st →
    ∃ st', gpuStates σ' !! i = Some st' ∧ managed st' = managed st ∧
           (usingClockControl st = true → usingClockControl st' = true);
  pg_calls : ∃ new, calls σ' = calls σ ++ new ∧
    ∀ h p f, CallSetForcePstate h p f ∈ new →
      ∃ j st, nvapiDevices σ !! j = Some (Some h) ∧
              gpuStates σ !! j = Some st ∧ managed st = true ∧
              usingClockControl st = false
}.

(** * Scenarios

    Concrete drivers and states on which the theorems below are exercised. *)

(** A library that answers every level request with [native], reports the
    temperature [temp] and the utilization [util], offers the memory clocks
    810, 405 and 5001 MHz and the core clocks 1500, 210 and 300 MHz, and
    accepts every clock request.  A handle stands for its bus id. *)
Definition fake_driver (native : NvAPI_Status) (temp util : Z) : Driver :=
  mkDriver (λ _ _ _ _, native) (λ _ h, (NVAPI_OK, h)) (λ _ d, (NVML_SUCCESS, d))
    (λ _ _, NVML_SUCCESS)
    (λ _ _, (NVML_SUCCESS, [810; 405; 5001]))
    (λ _ _ _, (NVML_SUCCESS, [1500; 210; 300]))
    (λ _ _, NVML_SUCCESS) (λ _ _ _ _, NVML_SUCCESS)
    (λ _ _, (NVML_SUCCESS, temp))
    (λ _ _, (NVML_SUCCESS, mkUtilization util 0)).

(** One device, NVAPI handle 100, NVML handle 200, with the record [st]. *)
Definition one_device (st : gpuState) : Globals :=
  mkGlobals [Some 100] [200] 1 [st] true [].

(** The globals after [n] passes of the monitoring loop with the default
    options, for one managed device at level 16 with a counter of zero that
    stays idle at 50 degrees. *)
Definition idle_device : gpuState := mkGpuState 0 16 true false 0 0 0 0.
Definition idle_run (n : nat) : Globals :=
  match main_loop (fake_driver NVAPI_OK 50 0) default_options n
          (one_device idle_device) with
  | Some (_, σ') => σ'
  | None => one_device idle_device
  end.

(** Scenario E: three devices; NVML reports the bus ids 3, 1, 2 and NVAPI
    the bus ids 1, 2, 3.  The NVAPI handle at index [j] is [j] itself, so
    that the sorted array shows the matched indices. *)
Definition scenario_E_driver : Driver :=
  mkDriver (λ _ _ _ _, NVAPI_OK) (λ _ h, (NVAPI_OK, h + 1))
    (λ _ d, (NVML_SUCCESS, d)) (λ _ _, NVML_SUCCESS)
    (λ _ _, (NVML_SUCCESS, [810; 405; 5001]))
    (λ _ _ _, (NVML_SUCCESS, [1500; 210; 300]))
    (λ _ _, NVML_SUCCESS) (λ _ _ _ _, NVML_SUCCESS)
    (λ _ _, (NVML_SUCCESS, 50))
    (λ _ _, (NVML_SUCCESS, mkUtilization 0 0)).
Definition scenario_E : Globals :=
  mkGlobals [Some 0; Some 1; Some 2] [3; 1; 2] 3
    (replicate NVAPI_MAX_PHYSICAL_GPUS zero_state) true [].

(** One device that NVML reports on bus 5 and NVAPI on bus 7. *)
Definition mismatched : Globals :=
  mkGlobals [Some 7] [5] 1
    (replicate NVAPI_MAX_PHYSICAL_GPUS (set_managed true zero_state)) true [].

(** A managed device at level 16 with a counter of five, for the thermal
    scenario A (threshold 80, temperature 85). *)
Definition hot_device : gpuState := mkGpuState 5 16 true false 0 0 0 0.

(** A managed device already under clock control. *)
Definition clocked_device : gpuState :=
  mkGpuState 0 8 true true 405 210 405 210.

(** A managed device at the low level, not under clock control. *)
Definition low_device : gpuState := mkGpuState 0 8 true false 0 0 0 0.

(** The default options with the high level set to 0. *)
Definition high_is_P0 : Options :=
  mkOptions [] ITERATIONS_BEFORE_SWITCH 0 PERFORMANCE_STATE_LOW
    SLEEP_INTERVAL TEMPERATURE_THRESHOLD 0 0 0 0.

(** The default options with the id list [1], and one enumerated device. *)
Definition id_one : Options :=
  mkOptions [1] ITERATIONS_BEFORE_SWITCH PERFORMANCE_STATE_HIGH
    PERFORMANCE_STATE_LOW SLEEP_INTERVAL TEMPERATURE_THRESHOLD 0 0 0 0.
Definition one_enumerated : Globals :=
  mkGlobals [Some 100] [200] 1
    (replicate NVAPI_MAX_PHYSICAL_GPUS zero_state) true [].

(** A library with fixed answers: the status [native] for level requests,
    the statuses [memq] and [gpuq] and the clocks [mems] and [gpus] for the
    two clock queries, the statuses [reset] and [set] for the two clock
    requests, and the sensor readings [temp] and [util]. *)
Definition scripted_driver (native memq gpuq reset set : Z)
    (mems gpus : list Z) (temp util : Z) : Driver :=
  mkDriver (λ _ _ _ _, native) (λ _ h, (NVAPI_OK, h))
    (λ _ d, (NVML_SUCCESS, d)) (λ _ _, NVML_SUCCESS)
    (λ _ _, (memq, mems)) (λ _ _ _, (gpuq, gpus))
    (λ _ _, reset) (λ _ _ _ _, set)
    (λ _ _, (NVML_SUCCESS, temp))
    (λ _ _, (NVML_SUCCESS, mkUtilization util 0)).

(** A library that refuses every request and fails every read. *)
Definition deaf_driver : Driver :=
  mkDriver (λ _ _ _ _, 1) (λ _ _, (1, 0)) (λ _ _, (1, 0)) (λ _ _, 1)
    (λ _ _, (1, [])) (λ _ _ _, (1, [])) (λ _ _, 1) (λ _ _ _ _, 1)
    (λ _ _, (1, 0)) (λ _ _, (1, mkUtilization 0 0)).

(** One device as in [one_device], with the clock fallback disabled. *)
Definition one_device_no_fallback (st : gpuState) : Globals :=
  mkGlobals [Some 100] [200] 1 [st] false [].

(** The default options with the largest threshold a 32-bit counter can be
    compared with. *)
Definition never_switch : Options :=
  mkOptions [] (2 ^ 32 - 1) PERFORMANCE_STATE_HIGH PERFORMANCE_STATE_LOW
    SLEEP_INTERVAL TEMPERATURE_THRESHOLD 0 0 0 0.

(** A read that the library answered with a failure, as the last entry of
    a log. *)
Definition ends_with_failed_read (drv : Driver) (log : list hwCall) : Prop :=
  ∃ hist c, log = hist ++ [c] ∧
    ((∃ d, c = CallGetPciInfo d ∧
           fst (drv_GetPciInfo drv hist d) ≠ NVML_SUCCESS) ∨
     (∃ h, c = CallGetBusId h ∧
           fst (drv_GetBusId drv hist h) ≠ NVAPI_OK)).

(** * The loader of the NVAPI library, [src/nvapi.c]

    [nvapi.c] loads the vendor's shared library at run time, resolves six
    of its entry points through [nvapi_QueryInterface] and offers them
    under their documented names.  The operating system's loader and the
    code behind the resolved pointers are outside the program: they are a
    [System], one reply function per kind of call, each of which may depend
    on the calls made so far.  Pointers are integers, [NULL] is zero. *)

Module Nvapi.
Import String.

(** Two more status codes; the values are the ones of the vendor header
    [nvapi.h]. *)
Definition NVAPI_LIBRARY_NOT_FOUND : NvAPI_Status := -2.
Definition NVAPI_API_NOT_INITIALIZED : NvAPI_Status := -4.

Definition NULL : Z := 0.

(** The two platforms the file has code for ([_WIN32], [__linux__]). *)
Inductive Platform := Win32 | Linux.

Definition newline : String.string :=
  String.String (Ascii.ascii_of_nat 10) String.EmptyString.

(** What the file asks of the system: [LoadLibrary]/[dlopen],
    [GetProcAddress]/[dlsym], a call of [nvapi_QueryInterface], a line on
    [stderr], a call through one of the six resolved pointers, and
    [FreeLibrary]/[dlclose]. *)
Inductive sysCall :=
| SysLoad (name : String.string)
| SysSymbol (library : Z) (name : String.string)
| SysQuery (fn : Z) (id : Z)
| SysStderr (msg : String.string)
| SysEnumPhysicalGPUs (fn : Z)
| SysGetBusId (fn : Z) (hPhysicalGpu : Z)
| SysSetForcePstate (fn : Z) (hPhysicalGpu pstateId fallbackState : Z)
| SysGetErrorMessage (fn : Z) (nr : NvAPI_Status)
| SysInitialize (fn : Z)
| SysUnload (fn : Z)
| SysFree (library : Z).

Definition is_SysLoad (c : sysCall) : bool :=
  match c with SysLoad _ => true | _ => false end.

Record System := mkSystem {
  sys_load : list sysCall → String.string → Z;
  sys_symbol : list sysCall → Z → String.string → Z;
  sys_query : list sysCall → Z → Z → Z;
  sys_EnumPhysicalGPUs :
    list sysCall → Z → NvAPI_Status * (list NvPhysicalGpuHandle * Z);
  sys_GetBusId : list sysCall → Z → NvPhysicalGpuHandle → NvAPI_Status * Z;
  sys_SetForcePstate :
    list sysCall → Z → NvPhysicalGpuHandle → Z → Z → NvAPI_Status;
  sys_GetErrorMessage :
    list sysCall → Z → NvAPI_Status → NvAPI_Status * String.string;
  sys_Initialize : list sysCall → Z → NvAPI_Status;
  sys_Unload : list sysCall → Z → NvAPI_Status
}.

(** The file's static variables, and the calls made so far. *)
Record Statics := mkStatics {
  lib : Z;
  _NvAPI_EnumPhysicalGPUs : Z;
  _NvAPI_GPU_GetBusId : Z;
  _NvAPI_GPU_SetForcePstate : Z;
  _NvAPI_GetErrorMessage : Z;
  _NvAPI_Initialize : Z;
  _NvAPI_Unload : Z;
  trace : list sysCall
}.

(** All statics of a C program start out as zero. *)
Definition initial_statics : Statics :=
  mkStatics NULL NULL NULL NULL NULL NULL NULL [].

Definition set_lib (v : Z) (s : Statics) : Statics :=
  mkStatics v (_NvAPI_EnumPhysicalGPUs s) (_NvAPI_GPU_GetBusId s)
    (_NvAPI_GPU_SetForcePstate s) (_NvAPI_GetErrorMessage s)
    (_NvAPI_Initialize s) (_NvAPI_Unload s) (trace s).
Definition set_EnumPhysicalGPUs (v : Z) (s : Statics) : Statics :=
  mkStatics (lib s) v (_NvAPI_GPU_GetBusId s)
    (_NvAPI_GPU_SetForcePstate s) (_NvAPI_GetErrorMessage s)
    (_NvAPI_Initialize s) (_NvAPI_Unload s) (trace s).
Definition set_GPU_GetBusId (v : Z) (s : Statics) : Statics :=
  mkStatics (lib s) (_NvAPI_EnumPhysicalGPUs s) v
    (_NvAPI_GPU_SetForcePstate s) (_NvAPI_GetErrorMessage s)
    (_NvAPI_Initialize s) (_NvAPI_Unload s) (trace s).
Definition set_GPU_SetForcePstate (v : Z) (s : Statics) : Statics :=
  mkStatics (lib s) (_NvAPI_EnumPhysicalGPUs s) (_NvAPI_GPU_GetBusId s)
    v (_NvAPI_GetErrorMessage s)
    (_NvAPI_Initialize s) (_NvAPI_Unload s) (trace s).
Definition set_GetErrorMessage (v : Z) (s : Statics) : Statics :=
  mkStatics (lib s) (_NvAPI_EnumPhysicalGPUs s) (_NvAPI_GPU_GetBusId s)
    (_NvAPI_GPU_SetForcePstate s) v
    (_NvAPI_Initialize s) (_NvAPI_Unload s) (trace s).
Definition set_Initialize (v : Z) (s : Statics) : Statics :=
  mkStatics (lib s) (_NvAPI_EnumPhysicalGPUs s) (_NvAPI_GPU_GetBusId s)
    (_NvAPI_GPU_SetForcePstate s) (_NvAPI_GetErrorMessage s)
    v (_NvAPI_Unload s) (trace s).
Definition set_Unload (v : Z) (s : Statics) : Statics :=
  mkStatics (lib s) (_NvAPI_EnumPhysicalGPUs s) (_NvAPI_GPU_GetBusId s)
    (_NvAPI_GPU_SetForcePstate s) (_NvAPI_GetErrorMessage s)
    (_NvAPI_Initialize s) v (trace s).
Definition record (c : sysCall) (s : Statics) : Statics :=
  mkStatics (lib s) (_NvAPI_EnumPhysicalGPUs s) (_NvAPI_GPU_GetBusId s)
    (_NvAPI_GPU_SetForcePstate s) (_NvAPI_GetErrorMessage s)
    (_NvAPI_Initialize s) (_NvAPI_Unload s) (trace s ++ [c]).

(** The six resolved pointers, in the order of their declaration. *)
Definition pointers (s : Statics) : list Z :=
  [_NvAPI_EnumPhysicalGPUs s; _NvAPI_GPU_GetBusId s;
   _NvAPI_GPU_SetForcePstate s; _NvAPI_GetErrorMessage s;
   _NvAPI_Initialize s; _NvAPI_Unload s].

(** The interface ids of the six entry points, nvapi.c:126. *)
Definition ID_EnumPhysicalGPUs : Z := 0xe5ac921f.
Definition ID_GPU_GetBusId : Z := 0x1be0b8e5.
Definition ID_GPU_SetForcePstate : Z := 0x025bfb10.
Definition ID_GetErrorMessage : Z := 0x6c2d048c.
Definition ID_Initialize : Z := 0x0150e828.
Definition ID_Unload : Z := 0xd22bdd7e.

(** The symbol looked up in the library, and the two lines the file may
    write to [stderr]. *)
Definition QUERY_INTERFACE : String.string := "nvapi_QueryInterface".
Definition LOAD_FAILED : String.string :=
  String.append "Unable to load NvAPI library" newline.
Definition LOOKUP_FAILED : String.string :=
  String.append "Unable to retrieve nvapi_QueryInterface function" newline.

(** The conversion of a 32-bit constant to [int], which is 32 bits wide
    and in two's complement on both platforms. *)
Definition to_int (x : Z) : Z := (x + 2 ^ 31) mod 2 ^ 32 - 2 ^ 31.

(** The names the library is looked for under, in this order,
    nvapi.c:79. *)
Definition library_names (plat : Platform) : String.string * String.string :=
  match plat with
  | Win32 => ("nvapi64.dll", "nvapi.dll")
  | Linux => ("libnvidia-api.so.1", "libnvidia-api.so")
  end%string.

Section Loader.
Variable sys : System.
Variable plat : Platform.

(** *** The guarded wrappers, nvapi.c:45

    Each begins with the macro [NVAPI_POINTER]: with a null pointer the
    answer is [NVAPI_API_NOT_INITIALIZED] and nothing is called.  The
    results a wrapper writes through its pointer arguments are the second
    component of the answer, absent when nothing was called. *)

Definition NvAPI_EnumPhysicalGPUs (s : Statics)
  : NvAPI_Status * option (list NvPhysicalGpuHandle * Z) * Statics :=
  if _NvAPI_EnumPhysicalGPUs s =? NULL
  then (NVAPI_API_NOT_INITIALIZED, None, s)
  else
    let '(status, out) :=
      sys_EnumPhysicalGPUs sys (trace s) (_NvAPI_EnumPhysicalGPUs s) in
    (status, Some out,
     record (SysEnumPhysicalGPUs (_NvAPI_EnumPhysicalGPUs s)) s).

Definition NvAPI_GPU_GetBusId (hPhysicalGpu : NvPhysicalGpuHandle)
  (s : Statics) : NvAPI_Status * option Z * Statics :=
  if _NvAPI_GPU_GetBusId s =? NULL
  then (NVAPI_API_NOT_INITIALIZED, None, s)
  else
    let '(status, busId) :=
      sys_GetBusId sys (trace s) (_NvAPI_GPU_GetBusId s) hPhysicalGpu in
    (status, Some busId,
     record (SysGetBusId (_NvAPI_GPU_GetBusId s) hPhysicalGpu) s).

Definition NvAPI_GPU_SetForcePstate (hPhysicalGpu : NvPhysicalGpuHandle)
  (pstateId fallbackState : Z) (s : Statics) : NvAPI_Status * Statics :=
  if _NvAPI_GPU_SetForcePstate s =? NULL
  then (NVAPI_API_NOT_INITIALIZED, s)
  else
    (sys_SetForcePstate sys (trace s) (_NvAPI_GPU_SetForcePstate s)
       hPhysicalGpu pstateId fallbackState,
     record (SysSetForcePstate (_NvAPI_GPU_SetForcePstate s)
               hPhysicalGpu pstateId fallbackState) s).

Definition NvAPI_GetErrorMessage (nr : NvAPI_Status) (s : Statics)
  : NvAPI_Status * option String.string * Statics :=
  if _NvAPI_GetErrorMessage s =? NULL
  then (NVAPI_API_NOT_INITIALIZED, None, s)
  else
    let '(status, szDesc) :=
      sys_GetErrorMessage sys (trace s) (_NvAPI_GetErrorMessage s) nr in
    (status, Some szDesc,
     record (SysGetErrorMessage (_NvAPI_GetErrorMessage s) nr) s).

(** *** [NvAPI_Initialize], nvapi.c:77 *)

(** [if (!lib) lib = dlopen(name, RTLD_LAZY);] *)
Definition load_if_missing (name : String.string) (s : Statics) : Statics :=
  if lib s =? NULL
  then set_lib (sys_load sys (trace s) name) (record (SysLoad name) s)
  else s.

(** [pointer = nvapi_QueryInterface(id);] the parameter is an [int], so
    that an id of [2^31] or more arrives as a negative number. *)
Definition resolve (nvapi_QueryInterface id : Z)
  (set : Z → Statics → Statics) (s : Statics) : Statics :=
  set (sys_query sys (trace s) nvapi_QueryInterface (to_int id))
      (record (SysQuery nvapi_QueryInterface (to_int id)) s).

Definition NvAPI_Initialize (s : Statics) : NvAPI_Status * Statics :=
  let s := load_if_missing (fst (library_names plat)) s in
  let s := load_if_missing (snd (library_names plat)) s in
  if lib s =? NULL then
    (NVAPI_LIBRARY_NOT_FOUND, record (SysStderr LOAD_FAILED) s)
  else
    let nvapi_QueryInterface :=
      sys_symbol sys (trace s) (lib s) QUERY_INTERFACE in
    let s := record (SysSymbol (lib s) QUERY_INTERFACE) s in
    if nvapi_QueryInterface =? NULL then
      (NVAPI_LIBRARY_NOT_FOUND, record (SysStderr LOOKUP_FAILED) s)
    else
      let s := resolve nvapi_QueryInterface ID_EnumPhysicalGPUs
                 set_EnumPhysicalGPUs s in
      let s := resolve nvapi_QueryInterface ID_GPU_GetBusId
                 set_GPU_GetBusId s in
      let s := resolve nvapi_QueryInterface ID_GPU_SetForcePstate
                 set_GPU_SetForcePstate s in
      let s := resolve nvapi_QueryInterface ID_GetErrorMessage
                 set_GetErrorMessage s in
      let s := resolve nvapi_QueryInterface ID_Initialize
                 set_Initialize s in
      let s := resolve nvapi_QueryInterface ID_Unload set_Unload s in
      if _NvAPI_Initialize s =? NULL
      then (NVAPI_API_NOT_INITIALIZED, s)
      else (sys_Initialize sys (trace s) (_NvAPI_Initialize s),
            record (SysInitialize (_NvAPI_Initialize s)) s).

(** *** [NvAPI_Unload], nvapi.c:140 *)

Definition NvAPI_Unload (s : Statics) : NvAPI_Status * Statics :=
  if _NvAPI_Unload s =? NULL then (NVAPI_API_NOT_INITIALIZED, s) else
  let ret := sys_Unload sys (trace s) (_NvAPI_Unload s) in
  let s := record (SysUnload (_NvAPI_Unload s)) s in
  if ret =? NVAPI_OK then
    if negb (lib s =? NULL) then
      let s := set_EnumPhysicalGPUs NULL s in
      let s := set_GPU_SetForcePstate NULL s in
      let s := set_GetErrorMessage NULL s in
      let s := set_Initialize NULL s in
      let s := set_Unload NULL s in
      (ret, record (SysFree (lib s)) s)
    else (ret, s)
  else (ret, s).

End Loader.

(** A system for the examples: every library name loads as handle [7],
    every symbol is at address [9], interface [id] resolves to [id + 1],
    and every call through a resolved pointer succeeds. *)
Definition plain_system : System :=
  mkSystem (λ _ _, 7) (λ _ _ _, 9) (λ _ _ id, id + 1)
    (λ _ _, (NVAPI_OK, ([], 0))) (λ _ _ h, (NVAPI_OK, h))
    (λ _ _ _ _ _, NVAPI_OK) (λ _ _ _, (NVAPI_OK, String.EmptyString))
    (λ _ _, NVAPI_OK) (λ _ _, NVAPI_OK).

(** The same on a machine without the library. *)
Definition bare_system : System :=
  mkSystem (λ _ _, NULL) (sys_symbol plain_system) (sys_query plain_system)
    (sys_EnumPhysicalGPUs plain_system) (sys_GetBusId plain_system)
    (sys_SetForcePstate plain_system) (sys_GetErrorMessage plain_system)
    (sys_Initialize plain_system) (sys_Unload plain_system).

(** The same with a library whose [NvAPI_Unload] fails. *)
Definition stuck_system : System :=
  mkSystem (sys_load plain_system) (sys_symbol plain_system)
    (sys_query plain_system)
    (sys_EnumPhysicalGPUs plain_system) (sys_GetBusId plain_system)
    (sys_SetForcePstate plain_system) (sys_GetErrorMessage plain_system)
    (sys_Initialize plain_system) (λ _ _, -1).

(** The same with a library that does not export
    [nvapi_QueryInterface]. *)
Definition stripped_system : System :=
  mkSystem (sys_load plain_system) (λ _ _ _, NULL)
    (sys_query plain_system)
    (sys_EnumPhysicalGPUs plain_system) (sys_GetBusId plain_system)
    (sys_SetForcePstate plain_system) (sys_GetErrorMessage plain_system)
    (sys_Initialize plain_system) (sys_Unload plain_system).

(** The statics after a successful [NvAPI_Initialize] on [plain_system]. *)
Definition loaded_statics : Statics :=
  snd (NvAPI_Initialize plain_system Linux initial_statics).

End Nvapi.

(** * The end of [run], main.c:748

    The labels [errored] and [cleanup] and the code up to the [return].
    The two libraries are asked once each to shut down; their answers may
    depend on the requests made so far. *)

Inductive teardownCall := CallUnload | CallShutdown.

Record Teardown := mkTeardown {
  td_Unload : list teardownCall → NvAPI_Status;
  td_Shutdown : list teardownCall → nvmlReturn_t
}.

(** The flags of main.c:74 that the code reads, and the requests made. *)
Record Flags := mkFlags {
  nvapiInitialized : bool;
  nvmlInitialized : bool;
  errorOccurred : bool;
  requests : list teardownCall
}.

Section Cleanup.
Variable td : Teardown.

(** The code jumps backwards (a failed call goes to [errored], which falls
    through to [cleanup]), so the embedding counts the passes over the
    label [cleanup]: [fuel] bounds them, and [None] means that the bound
    was reached.  [cleanup_terminates] shows that three passes are always
    enough.  The functions are the code from the label of their name to the
    [return]. *)
Fixpoint cleanup (fuel : nat) (f : Flags)
  : option (bool * list teardownCall) :=
  match fuel with
  | O => None
  | S fuel =>
    let errored (f : Flags) :=
      cleanup fuel (mkFlags (nvapiInitialized f) (nvmlInitialized f) true
                      (requests f)) in
    let nvml_deinit (f : Flags) :=
      if nvmlInitialized f then
        let result := td_Shutdown td (requests f) in
        let f := mkFlags (nvapiInitialized f) false (errorOccurred f)
                   (requests f ++ [CallShutdown]) in
        if NVML_CALL_failed result then errored f
        else Some (errorOccurred f, requests f)
      else Some (errorOccurred f, requests f) in
    if nvapiInitialized f then
      let status := td_Unload td (requests f) in
      let f := mkFlags false (nvmlInitialized f) (errorOccurred f)
                 (requests f ++ [CallUnload]) in
      if NVAPI_CALL_failed status then errored f else nvml_deinit f
    else nvml_deinit f
  end.

Definition errored (fuel : nat) (f : Flags)
  : option (bool * list teardownCall) :=
  cleanup fuel (mkFlags (nvapiInitialized f) (nvmlInitialized f) true
                  (requests f)).

End Cleanup.

(** * Reasoning about computations *)

(** ** Runs and their steps *)

Lemma bind_inv {A B} (m : M A) (k : A → M B) σ b σ' :
  (m ≫= k) σ = Some (b, σ') →
  ∃ a σ1, m σ = Some (a, σ1) ∧ k a σ1 = Some (b, σ').
Proof.
  unfold mbind, M_bind. destruct (m σ) as [[a σ1]|]; [eauto | discriminate].
Qed.

Lemma bind_eq {A B} (m : M A) (k : A → M B) σ a σ1 :
  m σ = Some (a, σ1) → (m ≫= k) σ = k a σ1.
Proof. unfold mbind, M_bind. intros ->. reflexivity. Qed.

Lemma ret_inv {A} (a b : A) σ σ' :
  (mret a : M A) σ = Some (b, σ') → b = a ∧ σ' = σ.
Proof. unfold mret, M_ret. intros [= -> ->]. auto. Qed.

Lemma get_state_inv i σ s σ' :
  get_state i σ = Some (s, σ') → σ' = σ ∧ gpuStates σ !! i = Some s.
Proof.
  unfold get_state. destruct (gpuStates σ !! i); intros [= -> ->]; auto.
Qed.

Lemma get_state_eq i σ s :
  gpuStates σ !! i = Some s → get_state i σ = Some (s, σ).
Proof. unfold get_state. intros ->. reflexivity. Qed.

Lemma modify_state_inv i f σ u σ' :
  modify_state i f σ = Some (u, σ') →
  ∃ s, gpuStates σ !! i = Some s ∧
       σ' = with_gpuStates (<[i := f s]> (gpuStates σ)) σ.
Proof.
  unfold modify_state. destruct (gpuStates σ !! i); intros [= <- <-]; eauto.
Qed.

Lemma modify_state_eq i f σ s :
  gpuStates σ !! i = Some s →
  modify_state i f σ = Some (tt, with_gpuStates (<[i := f s]> (gpuStates σ)) σ).
Proof. unfold modify_state. intros ->. reflexivity. Qed.

Lemma get_nvmlDevice_inv i σ d σ' :
  get_nvmlDevice i σ = Some (d, σ') → σ' = σ ∧ nvmlDevices σ !! i = Some d.
Proof.
  unfold get_nvmlDevice. destruct (nvmlDevices σ !! i); intros [= -> ->]; auto.
Qed.

Lemma get_nvmlDevice_eq i σ d :
  nvmlDevices σ !! i = Some d → get_nvmlDevice i σ = Some (d, σ).
Proof. unfold get_nvmlDevice. intros ->. reflexivity. Qed.

Lemma get_nvapiDevice_inv i σ h σ' :
  get_nvapiDevice i σ = Some (h, σ') →
  σ' = σ ∧ nvapiDevices σ !! i = Some (Some h).
Proof.
  unfold get_nvapiDevice.
  destruct (nvapiDevices σ !! i) as [[?|]|]; intros [= -> ->]; auto.
Qed.

Lemma get_nvapiDevice_eq i σ h :
  nvapiDevices σ !! i = Some (Some h) → get_nvapiDevice i σ = Some (h, σ).
Proof. unfold get_nvapiDevice. intros ->. reflexivity. Qed.

Lemma get_enableClockFallback_inv σ b σ' :
  get_enableClockFallback σ = Some (b, σ') →
  σ' = σ ∧ b = enableClockFallback σ.
Proof. unfold get_enableClockFallback. intros [= -> ->]. auto. Qed.

Lemma get_deviceCount_inv σ n σ' :
  get_deviceCount σ = Some (n, σ') → σ' = σ ∧ n = deviceCount σ.
Proof. unfold get_deviceCount. intros [= -> ->]. auto. Qed.

Lemma invoke_inv {R} c (reply : list hwCall → R) σ r σ' :
  invoke c reply σ = Some (r, σ') →
  r = reply (calls σ) ∧ σ' = with_calls (calls σ ++ [c]) σ.
Proof. unfold invoke. intros [= <- <-]. auto. Qed.

(** Unfolds a run [m σ = Some (a, σ')] into the runs of its steps. *)
Ltac minv_step :=
  match goal with
  | H : mbind _ _ _ = Some _ |- _ =>
    apply bind_inv in H; destruct H as (? & ? & ? & H)
  | H : mret _ _ = Some _ |- _ =>
    apply ret_inv in H; destruct H as [? ?]; subst
  | H : get_state _ _ = Some _ |- _ =>
    apply get_state_inv in H; destruct H as [? ?]; subst
  | H : modify_state _ _ _ = Some _ |- _ =>
    apply modify_state_inv in H; destruct H as (? & ? & ?); subst
  | H : get_nvmlDevice _ _ = Some _ |- _ =>
    apply get_nvmlDevice_inv in H; destruct H as [? ?]; subst
  | H : get_nvapiDevice _ _ = Some _ |- _ =>
    apply get_nvapiDevice_inv in H; destruct H as [? ?]; subst
  | H : get_enableClockFallback _ = Some _ |- _ =>
    apply get_enableClockFallback_inv in H; destruct H as [? ?]; subst
  | H : get_deviceCount _ = Some _ |- _ =>
    apply get_deviceCount_inv in H; destruct H as [? ?]; subst
  | H : invoke _ _ _ = Some _ |- _ =>
    apply invoke_inv in H; destruct H as [? ?]; subst
  | H : (let '(_, _) := ?p in _) _ = Some _ |- _ =>
    destruct p as [? ?] eqn:?
  | H : (if ?b then _ else _) _ = Some _ |- _ => destruct b eqn:?
  | H : (match ?x with _ => _ end) _ = Some _ |- _ => destruct x eqn:?
  | H : true = false |- _ => discriminate H
  | H : false = true |- _ => discriminate H
  end.
Ltac minv := repeat minv_step.

Lemma evolves_refl i σ : evolves i σ σ.
Proof.
  split; auto.
  - intros st H. exists st. auto.
  - exists []. split; [by rewrite app_nil_r |]. intros h p f H.
    by apply elem_of_nil in H.
Qed.

Lemma evolves_trans i σ1 σ2 σ3 :
  evolves i σ1 σ2 → evolves i σ2 σ3 → evolves i σ1 σ3.
Proof.
  intros [a1 b1 c1 d1 e1 f1 g1 (n1 & h1 & k1)] [a2 b2 c2 d2 e2 f2 g2 (n2 & h2 & k2)].
  split; try congruence.
  - intros j Hj. rewrite f2, f1; auto.
  - intros st Hst. destruct (g1 st Hst) as (st1 & Hst1 & Hm1 & Hu1).
    destruct (g2 st1 Hst1) as (st2 & Hst2 & Hm2 & Hu2).
    exists st2. repeat split; [done | congruence | auto].
  - exists (n1 ++ n2). split; [rewrite h2, h1; by rewrite app_assoc |].
    intros h p f [Hin|Hin]%elem_of_app; [by eapply k1 |].
    destruct (k2 h p f Hin) as (Hh & st2 & Hst2 & Hm2 & Hu2).
    split; [congruence |].
    assert (is_Some (gpuStates σ1 !! i)) as [st Hst].
    { apply lookup_lt_is_Some. rewrite <- e1. eapply lookup_lt_Some, Hst2. }
    destruct (g1 st Hst) as (st1 & Hst1 & Hm1 & Hu1).
    assert (st1 = st2) as -> by congruence.
    exists st. repeat split; [done | congruence |].
    destruct (usingClockControl st); [| done].
    rewrite Hu1 in Hu2; [done | done].
Qed.

(** A store to a field other than the two flags. *)
Lemma evolves_modify i f σ s :
  gpuStates σ !! i = Some s →
  managed (f s) = managed s →
  (usingClockControl s = true → usingClockControl (f s) = true) →
  evolves i σ (with_gpuStates (<[i := f s]> (gpuStates σ)) σ).
Proof.
  intros Hs Hm Hu. split; simpl; auto.
  - apply length_insert.
  - intros j Hj. by apply list_lookup_insert_ne.
  - intros st Hst. assert (st = s) as -> by congruence.
    exists (f s). split; [| auto].
    apply list_lookup_insert_eq. eapply lookup_lt_Some, Hs.
  - exists []. split; [by rewrite app_nil_r |]. intros h p f' H.
    by apply elem_of_nil in H.
Qed.

(** A library call other than [NvAPI_GPU_SetForcePstate]. *)
Lemma evolves_invoke i c σ :
  is_SetForcePstate c = false →
  evolves i σ (with_calls (calls σ ++ [c]) σ).
Proof.
  intros Hc. split; simpl; auto.
  - intros st Hst. exists st. auto.
  - exists [c]. split; [done |]. intros h p f H.
    apply list_elem_of_singleton in H. subst c. discriminate Hc.
Qed.

(** Proves [evolves i σ σ'] when [σ'] is [σ] under a stack of stores to
    device [i] and logged calls. *)
Ltac evolves_tac :=
  repeat first
    [ apply evolves_refl
    | eassumption
    | eapply evolves_trans;
      [| first [ eassumption
               | eapply evolves_modify; [eassumption | reflexivity | auto]
               | eapply evolves_invoke; reflexivity ] ] ].

Lemma evolves_native i h p f σ st :
  nvapiDevices σ !! i = Some (Some h) →
  gpuStates σ !! i = Some st →
  managed st = true →
  usingClockControl st = false →
  evolves i σ (with_calls (calls σ ++ [CallSetForcePstate h p f]) σ).
Proof.
  intros Hh Hst Hm Hu. split; simpl; auto.
  - intros st0 Hst0. exists st0. auto.
  - exists [CallSetForcePstate h p f]. split; [done |]. intros h' p' f' H.
    apply list_elem_of_singleton in H. injection H as -> -> ->. eauto.
Qed.

Lemma count_calls_none (P : hwCall → Prop) kind l :
  (∀ c, P c → kind c = false) → Forall P l → count_calls kind l = 0%nat.
Proof.
  intros HP F. unfold count_calls. induction F as [|c l Hc F IH]; [done |].
  rewrite filter_cons. case_decide as Hk; [| done].
  rewrite (HP _ Hc) in Hk. done.
Qed.

Ltac appends_tac :=
  unfold appends in *;
  repeat match goal with
  | H : ∃ _, _ ∧ Forall _ _ |- _ => destruct H as (? & ? & ?)
  end;
  simpl in *;
  repeat match goal with H : calls _ = _ |- _ => rewrite H end;
  first
    [ exists []; split; [by rewrite app_nil_r | constructor]
    | rewrite <- ?app_assoc; try setoid_rewrite <- app_assoc;
      eexists; split; [reflexivity |];
      repeat first
        [ assumption
        | progress simpl
        | apply Forall_nil_2
        | apply Forall_cons_2; [reflexivity |]
        | apply Forall_app_2 ] ].

(** Unfolds the steps of a computation applied to a state. *)
Ltac mred :=
  unfold mbind, mret, M_bind, M_ret, get_state, modify_state, get_nvmlDevice,
    get_nvapiDevice, get_enableClockFallback, get_deviceCount, invoke; simpl.

(** Reads back a record just stored. *)
Ltac lookup_tac :=
  simpl in *;
  repeat match goal with
  | H : <[?i:=?x]> ?l !! ?i = Some ?y |- _ =>
    rewrite list_lookup_insert_eq in H
      by (rewrite ?length_insert; eapply lookup_lt_Some; eassumption);
    injection H as <-
  end.

Ltac stored_tac :=
  apply list_lookup_insert_eq; rewrite ?length_insert;
  eapply lookup_lt_Some; eassumption.

(** The scan for the lowest clock answers a lower bound of the buffer
    that is one of its entries. *)
Lemma lowest_clock_le_first rest : ∀ first,
  lowest_clock first rest ≤ first.
Proof.
  unfold lowest_clock.
  induction rest as [|y rest IH]; intros first; simpl; [lia |].
  etrans; [apply IH |]. destruct (y <? first) eqn:H; lia.
Qed.

Lemma lowest_clock_le rest : ∀ first x,
  x ∈ first :: rest → lowest_clock first rest ≤ x.
Proof.
  induction rest as [|y rest IH]; intros first x Hx.
  - apply list_elem_of_singleton in Hx. subst x. apply lowest_clock_le_first.
  - change (lowest_clock first (y :: rest))
      with (lowest_clock (if y <? first then y else first) rest).
    apply elem_of_cons in Hx as [->|Hx].
    + etrans; [apply lowest_clock_le_first |].
      destruct (y <? first) eqn:H; lia.
    + apply elem_of_cons in Hx as [->|Hx].
      * etrans; [apply lowest_clock_le_first |].
        destruct (y <? first) eqn:H; lia.
      * apply IH. by right.
Qed.

Lemma lowest_clock_elem rest : ∀ first,
  lowest_clock first rest ∈ first :: rest.
Proof.
  unfold lowest_clock.
  induction rest as [|y rest IH]; intros first; simpl; [by left |].
  destruct (y <? first).
  - right. apply IH.
  - specialize (IH first). apply elem_of_cons in IH as [->|IH].
    + by left.
    + right. by right.
Qed.

Section OperationLemmas.
Variable drv : Driver.

Lemma get_supported_clocks_evolves i σ r σ' :
  get_supported_clocks drv i σ = Some (r, σ') → evolves i σ σ'.
Proof.
  unfold get_supported_clocks, nvmlDeviceGetSupportedMemoryClocks,
    nvmlDeviceGetSupportedGraphicsClocks.
  intros H. minv; evolves_tac.
Qed.

Lemma set_clocks_evolves i hp a b c d σ r σ' :
  set_clocks drv i hp a b c d σ = Some (r, σ') → evolves i σ σ'.
Proof.
  unfold set_clocks, nvmlDeviceResetApplicationsClocks,
    nvmlDeviceSetApplicationsClocks.
  intros H. minv; evolves_tac.
Qed.

Lemma enter_pstate_evolves i p a b c d σ r σ' :
  enter_pstate drv i p a b c d σ = Some (r, σ') → evolves i σ σ'.
Proof.
  unfold enter_pstate, NvAPI_GPU_SetForcePstate.
  intros H. minv;
    repeat match goal with
    | H : set_clocks _ _ _ _ _ _ _ _ = Some _ |- _ =>
      apply set_clocks_evolves in H
    | H : get_supported_clocks _ _ _ = Some _ |- _ =>
      apply get_supported_clocks_evolves in H
    | H : negb (managed _) = false |- _ => apply negb_false_iff in H
    end;
    evolves_tac;
    match goal with
    | Hh : nvapiDevices ?σ !! ?i = Some (Some ?h),
      Hs : gpuStates ?σ !! ?i = Some ?x,
      Hm : managed ?x = true,
      Hu : usingClockControl ?x = false |- evolves ?i ?σ _ =>
      exact (evolves_native _ _ _ _ _ _ Hh Hs Hm Hu)
    end.
Qed.

Lemma update_device_lookup i st new σ :
  (i < length (gpuStates σ))%nat →
  gpuStates (update_device i st new σ) !! i = Some st.
Proof. intros H. simpl. by apply list_lookup_insert_eq. Qed.

Lemma set_clocks_run i hp a b c e σ st d :
  gpuStates σ !! i = Some st →
  managed st = true →
  nvmlDevices σ !! i = Some d →
  let ok := clock_reply drv (calls σ) d hp a b c e st =? NVML_SUCCESS in
  set_clocks drv i hp a b c e σ =
  Some (ok,
        if ok
        then update_device i (clocked hp a b c e st)
               [clock_call d hp a b c e st] σ
        else with_calls (calls σ ++ [clock_call d hp a b c e st]) σ).
Proof.
  intros Hst Hm Hd ok. subst ok.
  assert (i < length (gpuStates σ))%nat as Hi by (eapply lookup_lt_Some, Hst).
  unfold set_clocks, clock_reply, clock_call, clocked,
    nvmlDeviceResetApplicationsClocks, nvmlDeviceSetApplicationsClocks.
  mred. rewrite Hst. simpl. rewrite Hm. simpl. rewrite Hd. simpl.
  destruct (resets_to_auto hp a b); simpl.
  - destruct (_ =? NVML_SUCCESS); simpl; [| done].
    rewrite Hst. simpl. rewrite list_lookup_insert_eq by done. simpl.
    by rewrite list_insert_insert_eq.
  - destruct (_ =? NVML_SUCCESS); simpl; [| done].
    rewrite Hst. simpl. rewrite list_lookup_insert_eq by done. simpl.
    by rewrite list_insert_insert_eq.
Qed.

Lemma get_supported_clocks_run i σ st d m ms g gs :
  gpuStates σ !! i = Some st →
  managed st = true →
  nvmlDevices σ !! i = Some d →
  drv_GetSupportedMemoryClocks drv (calls σ) d = (NVML_SUCCESS, m :: ms) →
  drv_GetSupportedGraphicsClocks drv
    (calls σ ++ [CallGetSupportedMemoryClocks d]) d (lowest_clock m ms) =
    (NVML_SUCCESS, g :: gs) →
  get_supported_clocks drv i σ =
  Some (true,
        update_device i
          (set_minGpuClock (lowest_clock g gs)
             (set_minMemClock (lowest_clock m ms) st))
          [CallGetSupportedMemoryClocks d;
           CallGetSupportedGraphicsClocks d (lowest_clock m ms)] σ).
Proof.
  intros Hst Hm Hd Hmem Hgpu.
  assert (i < length (gpuStates σ))%nat as Hi by (eapply lookup_lt_Some, Hst).
  unfold get_supported_clocks, nvmlDeviceGetSupportedMemoryClocks,
    nvmlDeviceGetSupportedGraphicsClocks.
  mred. rewrite Hst. simpl. rewrite Hm. simpl. rewrite Hd. simpl.
  rewrite Hmem. simpl. rewrite Hst. simpl. rewrite Hgpu. simpl.
  rewrite list_lookup_insert_eq by done. simpl.
  unfold update_device.
  by rewrite list_insert_insert_eq, <- app_assoc.
Qed.

(** The three operations always answer when the index is inside the
    arrays. *)
Lemma set_clocks_total i hp a b c e σ :
  is_Some (gpuStates σ !! i) → is_Some (nvmlDevices σ !! i) →
  ∃ r σ', set_clocks drv i hp a b c e σ = Some (r, σ').
Proof.
  intros [st Hst] [d Hd]. destruct (managed st) eqn:Hm.
  - rewrite (set_clocks_run _ _ _ _ _ _ _ _ _ Hst Hm Hd).
    destruct (_ =? _); eauto.
  - unfold set_clocks. mred. rewrite Hst. simpl. rewrite Hm. simpl. eauto.
Qed.

Lemma get_supported_clocks_total i σ :
  is_Some (gpuStates σ !! i) → is_Some (nvmlDevices σ !! i) →
  ∃ r σ', get_supported_clocks drv i σ = Some (r, σ').
Proof.
  intros [st Hst] [d Hd].
  assert (i < length (gpuStates σ))%nat as Hi by (eapply lookup_lt_Some, Hst).
  unfold get_supported_clocks, nvmlDeviceGetSupportedMemoryClocks,
    nvmlDeviceGetSupportedGraphicsClocks.
  mred. rewrite Hst. simpl. destruct (managed st); simpl; [| eauto].
  rewrite Hd. simpl.
  destruct (drv_GetSupportedMemoryClocks _ _ _) as [r1 [|m ms]]; simpl;
    destruct (r1 =? NVML_SUCCESS); simpl; eauto.
  rewrite Hst. simpl.
  destruct (drv_GetSupportedGraphicsClocks _ _ _ _) as [r2 [|g gs]]; simpl;
    destruct (r2 =? NVML_SUCCESS); simpl; eauto.
  rewrite list_lookup_insert_eq by done. simpl. eauto.
Qed.

Lemma get_supported_clocks_appends i σ r σ' :
  get_supported_clocks drv i σ = Some (r, σ') →
  appends (λ c, is_control c = true) σ σ'.
Proof.
  unfold get_supported_clocks, nvmlDeviceGetSupportedMemoryClocks,
    nvmlDeviceGetSupportedGraphicsClocks.
  intros H. minv; appends_tac.
Qed.

Lemma set_clocks_appends i hp a b c e σ r σ' :
  set_clocks drv i hp a b c e σ = Some (r, σ') →
  appends (λ c, is_control c = true) σ σ'.
Proof.
  unfold set_clocks, nvmlDeviceResetApplicationsClocks,
    nvmlDeviceSetApplicationsClocks.
  intros H. minv; appends_tac.
Qed.

Lemma enter_pstate_appends i p a b c e σ r σ' :
  enter_pstate drv i p a b c e σ = Some (r, σ') →
  appends (λ c, is_control c = true) σ σ'.
Proof.
  unfold enter_pstate, NvAPI_GPU_SetForcePstate.
  intros H. minv;
    repeat match goal with
    | H : set_clocks _ _ _ _ _ _ _ _ = Some _ |- _ =>
      apply set_clocks_appends in H
    | H : get_supported_clocks _ _ _ = Some _ |- _ =>
      apply get_supported_clocks_appends in H
    end;
    appends_tac.
Qed.

Lemma enter_pstate_unmanaged i p a b c e σ st :
  gpuStates σ !! i = Some st → managed st = false →
  enter_pstate drv i p a b c e σ = Some (true, σ).
Proof.
  intros Hst Hm. unfold enter_pstate. mred. rewrite Hst. simpl.
  by rewrite Hm.
Qed.

Lemma enter_pstate_override_run i p a b c e σ st d :
  gpuStates σ !! i = Some st →
  managed st = true →
  usingClockControl st = true →
  nvmlDevices σ !! i = Some d →
  let hp := p =? PERFORMANCE_STATE_HIGH in
  let ok := clock_reply drv (calls σ) d hp a b c e st =? NVML_SUCCESS in
  enter_pstate drv i p a b c e σ =
  Some (ok,
        if ok
        then update_device i
               (set_pstateId p (set_iterations 0 (clocked hp a b c e st)))
               [clock_call d hp a b c e st] σ
        else with_calls (calls σ ++ [clock_call d hp a b c e st]) σ).
Proof.
  intros Hst Hm Hu Hd hp ok. subst ok.
  assert (i < length (gpuStates σ))%nat as Hi by (eapply lookup_lt_Some, Hst).
  unfold enter_pstate.
  rewrite (bind_eq _ _ _ _ _ (get_state_eq _ _ _ Hst)).
  rewrite Hm, Hu. simpl.
  rewrite (bind_eq _ _ _ _ _ (set_clocks_run _ _ _ _ _ _ _ _ _ Hst Hm Hd)).
  fold hp. destruct (_ =? NVML_SUCCESS); simpl; [| done].
  mred. rewrite list_lookup_insert_eq by done. simpl.
  rewrite list_lookup_insert_eq by (by rewrite length_insert). simpl.
  unfold update_device. simpl. by rewrite !list_insert_insert_eq.
Qed.

Lemma enter_pstate_native_run i p a b c e σ st h :
  gpuStates σ !! i = Some st →
  managed st = true →
  usingClockControl st = false →
  nvapiDevices σ !! i = Some (Some h) →
  drv_SetForcePstate drv (calls σ) h p 0 = NVAPI_OK →
  enter_pstate drv i p a b c e σ =
  Some (true, update_device i (set_pstateId p (set_iterations 0 st))
                [CallSetForcePstate h p 0] σ).
Proof.
  intros Hst Hm Hu Hh Hok.
  assert (i < length (gpuStates σ))%nat as Hi by (eapply lookup_lt_Some, Hst).
  unfold enter_pstate, NvAPI_GPU_SetForcePstate. mred.
  rewrite Hst. simpl. rewrite Hm, Hu. simpl. rewrite Hh. simpl.
  rewrite Hok. simpl. rewrite Hst. simpl.
  rewrite list_lookup_insert_eq by done. simpl.
  unfold update_device. by rewrite list_insert_insert_eq.
Qed.



Lemma enter_pstate_total i p a b c e σ :
  is_Some (gpuStates σ !! i) → is_Some (nvmlDevices σ !! i) →
  (∃ h, nvapiDevices σ !! i = Some (Some h)) →
  ∃ r σ', enter_pstate drv i p a b c e σ = Some (r, σ').
Proof.
  intros [st Hst] [d Hd] [h Hh].
  assert (i < length (gpuStates σ))%nat as Hi by (eapply lookup_lt_Some, Hst).
  destruct (managed st) eqn:Hm;
    [| rewrite (enter_pstate_unmanaged _ _ _ _ _ _ _ _ Hst Hm); eauto].
  destruct (usingClockControl st) eqn:Hu.
  { rewrite (enter_pstate_override_run _ _ _ _ _ _ _ _ _ Hst Hm Hu Hd).
    destruct (_ =? _); eauto. }
  destruct (drv_SetForcePstate drv (calls σ) h p 0 =? NVAPI_OK) eqn:Hok.
  { apply Z.eqb_eq in Hok.
    rewrite (enter_pstate_native_run _ _ _ _ _ _ _ _ _ Hst Hm Hu Hh Hok).
    eauto. }
  unfold enter_pstate.
  rewrite (bind_eq _ _ _ _ _ (get_state_eq _ _ _ Hst)).
  rewrite Hm, Hu. simpl.
  rewrite (bind_eq _ _ _ _ _ (get_nvapiDevice_eq _ _ _ Hh)).
  unfold NvAPI_GPU_SetForcePstate.
  erewrite bind_eq by reflexivity. rewrite Hok. simpl.
  erewrite bind_eq by reflexivity. simpl.
  destruct (enableClockFallback σ); [| eauto].
  set (σ1 := with_calls _ σ).
  destruct (get_supported_clocks_total i σ1) as (r1 & σ2 & Hq);
    [by exists st | by exists d |].
  pose proof (get_supported_clocks_evolves _ _ _ _ Hq) as Hev.
  rewrite (bind_eq _ _ _ _ _ Hq).
  destruct r1; simpl; [| eauto].
  destruct (ev_state _ _ _ Hev st) as (st2 & Hst2 & _); [done |].
  rewrite (bind_eq _ _ _ _ _ (modify_state_eq _ _ _ _ Hst2)).
  set (σ3 := with_gpuStates _ σ2).
  destruct (set_clocks_total i (p =? PERFORMANCE_STATE_HIGH) a b c e σ3)
    as (r3 & σ4 & Hs).
  { eexists. simpl. apply list_lookup_insert_eq. eapply lookup_lt_Some, Hst2. }
  { exists d. simpl. by rewrite (ev_nvmlDevices _ _ _ Hev). }
  pose proof (set_clocks_evolves _ _ _ _ _ _ _ _ _ Hs) as Hev3.
  rewrite (bind_eq _ _ _ _ _ Hs).
  destruct r3; simpl; [| eauto].
  destruct (ev_state _ _ _ Hev3 (set_usingClockControl true st2))
    as (st4 & Hst4 & _).
  { simpl. apply list_lookup_insert_eq. eapply lookup_lt_Some, Hst2. }
  rewrite (bind_eq _ _ _ _ _ (modify_state_eq _ _ _ _ Hst4)).
  erewrite bind_eq; cycle 1.
  { apply modify_state_eq. simpl. apply list_lookup_insert_eq.
    eapply lookup_lt_Some, Hst4. }
  eauto.
Qed.

(** A successful [enter_pstate] on a managed device leaves the requested
    level in the record and a counter of zero. *)
Lemma enter_pstate_success i p a b c e σ σ' st :
  enter_pstate drv i p a b c e σ = Some (true, σ') →
  gpuStates σ !! i = Some st →
  managed st = true →
  ∃ st', gpuStates σ' !! i = Some st' ∧
         pstateId st' = p ∧ iterations st' = 0 ∧ managed st' = true.
Proof.
  intros H Hst Hm.
  destruct (ev_state _ _ _ (enter_pstate_evolves _ _ _ _ _ _ _ _ _ H) st Hst)
    as (st' & Hst' & Hm' & _).
  exists st'. split; [done |]. rewrite Hm', Hm.
  cut (pstateId st' = p ∧ iterations st' = 0); [tauto |].
  revert H. unfold enter_pstate, NvAPI_GPU_SetForcePstate.
  intros H. minv; lookup_tac; try done;
    match goal with
    | H : negb (managed _) = true |- _ =>
      apply negb_true_iff in H; congruence
    end.
Qed.

(** With a library that accepts every level and clock request,
    [enter_pstate] succeeds. *)
Lemma enter_pstate_accepted i p a b c e σ :
  is_Some (gpuStates σ !! i) → is_Some (nvmlDevices σ !! i) →
  (∃ h, nvapiDevices σ !! i = Some (Some h)) →
  (∀ hist h p f, drv_SetForcePstate drv hist h p f = NVAPI_OK) →
  (∀ hist d, drv_ResetApplicationsClocks drv hist d = NVML_SUCCESS) →
  (∀ hist d m g, drv_SetApplicationsClocks drv hist d m g = NVML_SUCCESS) →
  ∃ σ', enter_pstate drv i p a b c e σ = Some (true, σ').
Proof.
  intros [st Hst] [d Hd] [h Hh] Hnat Hres Hset.
  destruct (managed st) eqn:Hm.
  - destruct (usingClockControl st) eqn:Hu.
    + eexists.
      rewrite (enter_pstate_override_run i p a b c e σ st d Hst Hm Hu Hd).
      cbv zeta.
      assert (clock_reply drv (calls σ) d (p =? PERFORMANCE_STATE_HIGH)
                a b c e st = NVML_SUCCESS) as ->.
      { unfold clock_reply. destruct (resets_to_auto _ _ _); auto. }
      reflexivity.
    + eexists. by rewrite (enter_pstate_native_run i p a b c e σ st h).
  - eexists. by apply enter_pstate_unmanaged with (st := st).
Qed.

End OperationLemmas.

(** * The loops of [run] *)

Lemma others_step_refl i σ : others_step i σ σ.
Proof. split; auto. exists []. by rewrite app_nil_r. Qed.

Lemma others_step_trans i σ1 σ2 σ3 :
  others_step i σ1 σ2 → others_step i σ2 σ3 → others_step i σ1 σ3.
Proof.
  intros [a1 b1 c1 d1 e1 (n1 & f1)] [a2 b2 c2 d2 e2 (n2 & f2)].
  split; try congruence.
  exists (n1 ++ n2). by rewrite f2, f1, app_assoc.
Qed.

Lemma evolves_others i j σ σ' : j ≠ i → evolves j σ σ' → others_step i σ σ'.
Proof.
  intros Hj [a b c d e f g (n & h & k)]. split; auto.
  by exists n.
Qed.

Lemma progresses_refl σ : progresses σ σ.
Proof.
  split; auto.
  - intros i st H. exists st. auto.
  - exists []. split; [by rewrite app_nil_r |]. intros h p f H.
    by apply elem_of_nil in H.
Qed.

Lemma progresses_trans σ1 σ2 σ3 :
  progresses σ1 σ2 → progresses σ2 σ3 → progresses σ1 σ3.
Proof.
  intros [a1 b1 c1 d1 e1 g1 (n1 & h1 & k1)] [a2 b2 c2 d2 e2 g2 (n2 & h2 & k2)].
  split; try congruence.
  - intros i st Hst. destruct (g1 i st Hst) as (st1 & Hst1 & Hm1 & Hu1).
    destruct (g2 i st1 Hst1) as (st2 & Hst2 & Hm2 & Hu2).
    exists st2. repeat split; [done | congruence | auto].
  - exists (n1 ++ n2). split; [rewrite h2, h1; by rewrite app_assoc |].
    intros h p f [Hin|Hin]%elem_of_app; [by eapply k1 |].
    destruct (k2 h p f Hin) as (j & st2 & Hh & Hst2 & Hm2 & Hu2).
    assert (is_Some (gpuStates σ1 !! j)) as [st Hst].
    { apply lookup_lt_is_Some. rewrite <- e1. eapply lookup_lt_Some, Hst2. }
    destruct (g1 j st Hst) as (st1 & Hst1 & Hm1 & Hu1).
    assert (st1 = st2) as -> by congruence.
    exists j, st. repeat split; [congruence | done | congruence |].
    destruct (usingClockControl st); [| done].
    rewrite Hu1 in Hu2; done.
Qed.

Lemma evolves_progresses j σ σ' : evolves j σ σ' → progresses σ σ'.
Proof.
  intros [a b c d e f g (n & h & k)]. split; auto.
  - intros i st Hst. destruct (decide (i = j)) as [->|Hne]; [by apply g |].
    exists st. rewrite f by done. auto.
  - exists n. split; [done |]. intros h' p' f' Hin.
    destruct (k h' p' f' Hin) as (Hh & st & Hst & Hm & Hu). eauto 10.
Qed.

Section LoopLemmas.
Variable drv : Driver.
Variable opts : Options.

Lemma tick_device_evolves i σ r σ' :
  tick_device drv opts i σ = Some (r, σ') → evolves i σ σ'.
Proof.
  unfold tick_device, enter_low, enter_high, nvmlDeviceGetTemperature,
    nvmlDeviceGetUtilizationRates.
  intros H. minv;
    repeat match goal with
    | H : enter_pstate _ _ _ _ _ _ _ _ = Some _ |- _ =>
      apply enter_pstate_evolves in H
    end;
    evolves_tac.
Qed.

Lemma exit_device_evolves i σ r σ' :
  exit_device drv opts i σ = Some (r, σ') → evolves i σ σ'.
Proof.
  unfold exit_device, nvmlDeviceResetApplicationsClocks.
  intros H. minv;
    repeat match goal with
    | H : enter_pstate _ _ _ _ _ _ _ _ = Some _ |- _ =>
      apply enter_pstate_evolves in H
    end;
    evolves_tac.
Qed.

(** A loop whose rounds evolve their own device leaves a device it does
    not visit alone. *)
Lemma for_each_others (body : nat → M bool) l i σ r σ' :
  (∀ j σ r σ', body j σ = Some (r, σ') → evolves j σ σ') →
  i ∉ l →
  for_each l body σ = Some (r, σ') →
  others_step i σ σ'.
Proof.
  intros Hbody. revert σ. induction l as [|j l IH]; intros σ Hi H; simpl in H.
  - minv. apply others_step_refl.
  - apply not_elem_of_cons in Hi as [Hij Hi].
    apply bind_inv in H as (ok & σ1 & Hj & H).
    apply Hbody in Hj. eapply (evolves_others i) in Hj; [| done].
    destruct ok.
    + eapply others_step_trans; [exact Hj | by apply IH].
    + minv. exact Hj.
Qed.

Lemma for_each_progresses (body : nat → M bool) l σ r σ' :
  (∀ j σ r σ', body j σ = Some (r, σ') → evolves j σ σ') →
  for_each l body σ = Some (r, σ') →
  progresses σ σ'.
Proof.
  intros Hbody. revert σ. induction l as [|j l IH]; intros σ H; simpl in H.
  - minv. apply progresses_refl.
  - apply bind_inv in H as (ok & σ1 & Hj & H).
    apply Hbody, evolves_progresses in Hj.
    destruct ok.
    + eapply progresses_trans; [exact Hj | by apply IH].
    + minv. exact Hj.
Qed.

(** A loop that completes has run the round of each of its indices. *)
Lemma for_each_split (body : nat → M bool) l i σ σ' :
  i ∈ l →
  for_each l body σ = Some (true, σ') →
  ∃ l1 l2 σa σb,
    l = l1 ++ i :: l2 ∧
    for_each l1 body σ = Some (true, σa) ∧
    body i σa = Some (true, σb) ∧
    for_each l2 body σb = Some (true, σ').
Proof.
  revert σ. induction l as [|j l IH]; intros σ Hi H.
  - by apply elem_of_nil in Hi.
  - simpl in H. apply bind_inv in H as (ok & σ1 & Hj & H).
    destruct ok; [| minv].
    destruct (decide (i = j)) as [->|Hne].
    + exists [], l, σ, σ1. by repeat split.
    + apply elem_of_cons in Hi as [?|Hi]; [done |].
      destruct (IH σ1 Hi H) as (l1 & l2 & σa & σb & -> & H1 & H2 & H3).
      exists (j :: l1), l2, σa, σb. repeat split; try done.
      simpl. by rewrite (bind_eq _ _ _ _ _ Hj).
Qed.

(** The round of device [i] within a completed pass over the devices
    [0 .. n-1]: it starts from a state that differs from the initial one by
    the work on other devices only, and so does the final state from the
    state it ends in. *)
Lemma for_each_focus (body : nat → M bool) n i σ σ' :
  (∀ j σ r σ', body j σ = Some (r, σ') → evolves j σ σ') →
  (i < n)%nat →
  for_each (seq 0 n) body σ = Some (true, σ') →
  ∃ σa σb,
    others_step i σ σa ∧ body i σa = Some (true, σb) ∧ others_step i σb σ'.
Proof.
  intros Hbody Hi H.
  assert (i ∈ seq 0 n) as Hin by (apply elem_of_seq; lia).
  destruct (for_each_split _ _ _ _ _ Hin H)
    as (l1 & l2 & σa & σb & Hl & H1 & H2 & H3).
  assert (NoDup (l1 ++ i :: l2)) as Hnd by (rewrite <- Hl; apply NoDup_seq).
  apply NoDup_app in Hnd as (_ & Hl1 & Hnd).
  apply NoDup_cons in Hnd as [Hl2 _].
  exists σa, σb. split; [| split; [done |]].
  - eapply for_each_others; [done | | exact H1].
    intros Hc. apply (Hl1 _ Hc). apply elem_of_cons. by left.
  - eapply for_each_others; [done | exact Hl2 | exact H3].
Qed.

(** The round of an idle, cool, managed device that is not at the low
    level. *)
Lemma tick_device_idle i σ σ' st d :
  gpuStates σ !! i = Some st →
  nvmlDevices σ !! i = Some d →
  managed st = true →
  pstateId st ≠ performanceStateLow opts →
  snd (drv_GetTemperature drv (calls σ) d) ≤ temperatureThreshold opts →
  gpu (snd (drv_GetUtilizationRates drv
              (calls σ ++ [CallGetTemperature d]) d)) = 0 →
  tick_device drv opts i σ = Some (true, σ') →
  ∃ st', gpuStates σ' !! i = Some st' ∧
    if iterations st >? iterationsBeforeSwitch opts
    then pstateId st' = wrap32 (performanceStateLow opts) ∧
         iterations st' = 1 ∧ managed st' = true
    else st' = set_iterations (wrap32 (iterations st + 1)) st.
Proof.
  intros Hst Hd Hm Hlow Ht Hu.
  unfold tick_device, enter_low, enter_high, nvmlDeviceGetTemperature,
    nvmlDeviceGetUtilizationRates.
  intros H. minv; simpl in *.
  all: repeat match goal with
    | H1 : ?l !! ?i = Some ?x, H2 : ?l !! ?i = Some ?y |- _ =>
      rewrite H1 in H2; injection H2 as <-
    | H1 : ?f = (_, _), H2 : context [?f] |- _ => rewrite H1 in H2; simpl in H2
    end.
  all: try lia.
  all: try (exfalso; match goal with
    | H : negb (_ =? 0) = true |- _ =>
      apply negb_true_iff, Z.eqb_neq in H; congruence
    | H : negb (_ =? _) = false |- _ =>
      apply negb_false_iff, Z.eqb_eq in H; congruence
    end).
  - match goal with
    | H : negb ?x = false |- _ => destruct x; [| discriminate H]
    end.
    match goal with
    | H : enter_pstate _ _ _ _ _ _ _ _ = Some _ |- _ =>
      destruct (enter_pstate_success _ _ _ _ _ _ _ _ _ _ H Hst Hm)
        as (st1 & Hst1 & Hp1 & Hi1 & Hm1)
    end.
    match goal with
    | H : gpuStates _ !! i = Some ?x |- context [set_iterations _ ?x] =>
      assert (x = st1) as -> by congruence
    end.
    match goal with H : (_ >? _) = true |- _ => rewrite H end.
    eexists. split; [stored_tac |]. simpl. rewrite Hi1. done.
  - eexists. split; [stored_tac |].
    match goal with H : (_ >? _) = false |- _ => by rewrite H end.
Qed.

(** One pass of the monitoring loop, seen from an idle, cool, managed
    device [i] that is not at the low level. *)
Lemma tick_idle i σ σ' st d :
  (i < deviceCount σ)%nat →
  gpuStates σ !! i = Some st →
  nvmlDevices σ !! i = Some d →
  managed st = true →
  pstateId st ≠ performanceStateLow opts →
  (∀ hist, snd (drv_GetTemperature drv hist d) ≤ temperatureThreshold opts) →
  (∀ hist, gpu (snd (drv_GetUtilizationRates drv hist d)) = 0) →
  tick drv opts σ = Some (true, σ') →
  deviceCount σ' = deviceCount σ ∧
  nvmlDevices σ' !! i = Some d ∧
  ∃ st', gpuStates σ' !! i = Some st' ∧
    if iterations st >? iterationsBeforeSwitch opts
    then pstateId st' = wrap32 (performanceStateLow opts) ∧
         iterations st' = 1 ∧ managed st' = true
    else st' = set_iterations (wrap32 (iterations st + 1)) st.
Proof.
  intros Hi Hst Hd Hm Hlow Ht Hu H.
  unfold tick, for_devices in H.
  apply bind_inv in H as (n & σ0 & Hn & H).
  apply get_deviceCount_inv in Hn as [-> ->].
  destruct (for_each_focus _ _ i _ _ tick_device_evolves Hi H)
    as (σa & σb & Ha & Hbody & Hb).
  destruct (tick_device_idle i σa σb st d) as (st' & Hst' & Hcase); auto.
  - by rewrite (os_state _ _ _ Ha).
  - by rewrite (os_nvmlDevices _ _ _ Ha).
  - apply tick_device_evolves in Hbody.
    split; [| split].
    + rewrite (os_deviceCount _ _ _ Hb), (ev_deviceCount _ _ _ Hbody).
      apply (os_deviceCount _ _ _ Ha).
    + rewrite (os_nvmlDevices _ _ _ Hb), (ev_nvmlDevices _ _ _ Hbody),
        (os_nvmlDevices _ _ _ Ha). done.
    + exists st'. split; [| done]. by rewrite (os_state _ _ _ Hb).
Qed.

Lemma main_loop_app n m σ σ' :
  main_loop drv opts (n + m) σ = Some (true, σ') →
  ∃ σ1, main_loop drv opts n σ = Some (true, σ1) ∧
        main_loop drv opts m σ1 = Some (true, σ').
Proof.
  revert σ. induction n as [|n IH]; intros σ H; simpl in *.
  - by exists σ.
  - apply bind_inv in H as (ok & σ1 & Ht & H).
    destruct ok; [| minv].
    destruct (IH _ H) as (σ2 & H1 & H2).
    exists σ2. split; [| done]. by rewrite (bind_eq _ _ _ _ _ Ht).
Qed.

Lemma set_iterations_same (s : gpuState) v :
  v = iterations s → set_iterations v s = s.
Proof. intros ->. by destruct s. Qed.

(** While the counter has not passed the threshold, every pass adds one
    to it and keeps the level. *)
Lemma main_loop_idle_counts i d n : ∀ σ σ' st,
  (i < deviceCount σ)%nat →
  gpuStates σ !! i = Some st →
  nvmlDevices σ !! i = Some d →
  managed st = true →
  pstateId st ≠ performanceStateLow opts →
  (∀ hist, snd (drv_GetTemperature drv hist d) ≤ temperatureThreshold opts) →
  (∀ hist, gpu (snd (drv_GetUtilizationRates drv hist d)) = 0) →
  0 ≤ iterations st →
  iterations st + Z.of_nat n ≤ iterationsBeforeSwitch opts + 1 →
  iterationsBeforeSwitch opts + 1 < 2 ^ 32 →
  main_loop drv opts n σ = Some (true, σ') →
  deviceCount σ' = deviceCount σ ∧
  nvmlDevices σ' !! i = Some d ∧
  gpuStates σ' !! i = Some (set_iterations (iterations st + Z.of_nat n) st).
Proof.
  induction n as [|n IH]; intros σ σ' st Hi Hst Hd Hm Hlow Ht Hu H0 Hn HT H.
  - simpl in H. minv. rewrite set_iterations_same by lia. done.
  - simpl in H. apply bind_inv in H as (ok & σ1 & Htick & H).
    destruct ok; [| minv].
    destruct (tick_idle i σ σ1 st d) as (Hc1 & Hd1 & st1 & Hst1 & Hcase); auto.
    destruct (iterations st >? iterationsBeforeSwitch opts) eqn:Hgt; [lia |].
    subst st1.
    assert (wrap32 (iterations st + 1) = iterations st + 1) as Hw.
    { unfold wrap32. apply Z.mod_small. lia. }
    rewrite Hw in Hst1.
    destruct (IH σ1 σ' _ ltac:(lia) Hst1 Hd1) as (Hc2 & Hd2 & Hst2);
      simpl; auto; try lia.
    split; [congruence |]. split; [done |].
    rewrite Hst2. f_equal. unfold set_iterations. simpl. f_equal. lia.
Qed.

(** The round of a managed device whose temperature reads above the
    threshold: the only sensor read is the temperature, and what follows
    are the calls of [enter_pstate], if any. *)
Lemma tick_device_hot i σ st d h :
  gpuStates σ !! i = Some st →
  managed st = true →
  nvmlDevices σ !! i = Some d →
  nvapiDevices σ !! i = Some (Some h) →
  fst (drv_GetTemperature drv (calls σ) d) = NVML_SUCCESS →
  snd (drv_GetTemperature drv (calls σ) d) > temperatureThreshold opts →
  ∃ r σ' new,
    tick_device drv opts i σ = Some (r, σ') ∧
    calls σ' = calls σ ++ CallGetTemperature d :: new ∧
    Forall (λ c, is_control c = true) new ∧
    (r = true →
     ∃ st', gpuStates σ' !! i = Some st' ∧
       if pstateId st =? performanceStateLow opts
       then st' = st
       else pstateId st' = wrap32 (performanceStateLow opts) ∧
            iterations st' = 0).
Proof.
  intros Hst Hm Hd Hh Hok Hhot.
  destruct (drv_GetTemperature drv (calls σ) d) as [res t] eqn:Ht.
  simpl in Hok, Hhot. subst res.
  unfold tick_device.
  rewrite (bind_eq _ _ _ _ _ (get_nvmlDevice_eq _ _ _ Hd)).
  unfold nvmlDeviceGetTemperature.
  erewrite bind_eq by reflexivity. rewrite Ht. simpl.
  replace (t >? temperatureThreshold opts) with true by lia.
  set (σ1 := with_calls _ σ).
  rewrite (bind_eq _ _ _ _ _ (get_state_eq i σ1 st Hst)).
  destruct (pstateId st =? performanceStateLow opts) eqn:Hlow; simpl.
  - exists true, σ1, []. repeat split; auto. eauto.
  - destruct (enter_pstate_total drv i (wrap32 (performanceStateLow opts))
                (clockFreqMemHigh opts) (clockFreqGpuHigh opts)
                (clockFreqMemLow opts) (clockFreqGpuLow opts) σ1)
      as (r & σ' & Hrun); [by exists st | by exists d | by exists h |].
    destruct (enter_pstate_appends _ _ _ _ _ _ _ _ _ _ Hrun)
      as (new & Hnew & Hall).
    exists r, σ', new. unfold enter_low. split; [done |].
    split; [rewrite Hnew; simpl; by rewrite <- app_assoc |].
    split; [done |].
    intros ->.
    destruct (enter_pstate_success _ _ _ _ _ _ _ _ _ _ Hrun Hst Hm)
      as (st' & Hst' & Hp & Hit & _).
    eauto.
Qed.

Lemma main_loop_progresses n σ r σ' :
  main_loop drv opts n σ = Some (r, σ') → progresses σ σ'.
Proof.
  revert σ. induction n as [|n IH]; intros σ H; simpl in H.
  - minv. apply progresses_refl.
  - apply bind_inv in H as (ok & σ1 & Ht & H).
    assert (progresses σ σ1) as H1.
    { unfold tick, for_devices in Ht.
      apply bind_inv in Ht as (k & σ0 & Hk & Ht).
      apply get_deviceCount_inv in Hk as [-> ->].
      eapply for_each_progresses; [apply tick_device_evolves | exact Ht]. }
    destruct ok.
    + eapply progresses_trans; [exact H1 | by apply IH].
    + minv. exact H1.
Qed.

Lemma normal_exit_progresses σ r σ' :
  normal_exit drv opts σ = Some (r, σ') → progresses σ σ'.
Proof.
  unfold normal_exit, for_devices. intros H.
  apply bind_inv in H as (k & σ0 & Hk & H).
  apply get_deviceCount_inv in Hk as [-> ->].
  eapply for_each_progresses; [apply exit_device_evolves | exact H].
Qed.

Lemma tick_device_true_read_ok i σ σ' d :
  tick_device drv opts i σ = Some (true, σ') →
  nvmlDevices σ !! i = Some d →
  fst (drv_GetTemperature drv (calls σ) d) = NVML_SUCCESS.
Proof.
  intros H Hd. revert H. unfold tick_device.
  rewrite (bind_eq _ _ _ _ _ (get_nvmlDevice_eq _ _ _ Hd)).
  unfold nvmlDeviceGetTemperature. erewrite bind_eq by reflexivity.
  destruct (drv_GetTemperature drv (calls σ) d) as [res t]. simpl.
  unfold NVML_CALL_failed.
  destruct (res =? NVML_SUCCESS) eqn:Hres; simpl.
  - intros _. by apply Z.eqb_eq.
  - intros H. apply ret_inv in H as [H _]. discriminate H.
Qed.

(** A completed pass of the monitoring loop, seen from a managed device
    whose temperature reads above the threshold. *)
Lemma tick_hot i σ σ' st d h :
  (i < deviceCount σ)%nat →
  gpuStates σ !! i = Some st →
  managed st = true →
  nvmlDevices σ !! i = Some d →
  nvapiDevices σ !! i = Some (Some h) →
  (∀ hist, snd (drv_GetTemperature drv hist d) > temperatureThreshold opts) →
  tick drv opts σ = Some (true, σ') →
  ∃ st', gpuStates σ' !! i = Some st' ∧
    if pstateId st =? performanceStateLow opts
    then st' = st
    else pstateId st' = wrap32 (performanceStateLow opts) ∧
         iterations st' = 0.
Proof.
  intros Hi Hst Hm Hd Hh Hhot H.
  unfold tick, for_devices in H.
  apply bind_inv in H as (n & σ0 & Hn & H).
  apply get_deviceCount_inv in Hn as [-> ->].
  destruct (for_each_focus _ _ i _ _ tick_device_evolves Hi H)
    as (σa & σb & Ha & Hbody & Hb).
  assert (gpuStates σa !! i = Some st) as Hsta
    by by rewrite (os_state _ _ _ Ha).
  assert (nvmlDevices σa !! i = Some d) as Hda
    by by rewrite (os_nvmlDevices _ _ _ Ha).
  assert (nvapiDevices σa !! i = Some (Some h)) as Hha
    by by rewrite (os_nvapiDevices _ _ _ Ha).
  destruct (tick_device_hot i σa st d h Hsta Hm Hda Hha)
    as (r & σ'' & new & Hrun & _ & _ & Hpost); [| done |].
  { by eapply tick_device_true_read_ok. }
  rewrite Hbody in Hrun. injection Hrun as <- <-.
  destruct (Hpost eq_refl) as (st' & Hst' & Hcase).
  exists st'. split; [| done]. by rewrite (os_state _ _ _ Hb).
Qed.

(** The round of one device in the exit phase. *)
Lemma exit_device_round i σ st d h :
  gpuStates σ !! i = Some st →
  nvmlDevices σ !! i = Some d →
  nvapiDevices σ !! i = Some (Some h) →
  ∃ r σ' new,
    exit_device drv opts i σ = Some (r, σ') ∧
    calls σ' = calls σ ++ new ∧
    (usingClockControl st = true →
     r = true ∧ new = [CallResetApplicationsClocks d] ∧
     gpuStates σ' = gpuStates σ) ∧
    (usingClockControl st = false → managed st = true →
     ∃ rest, new = CallSetForcePstate h 16 0 :: rest ∧
       (r = true →
        ∃ st', gpuStates σ' !! i = Some st' ∧ pstateId st' = 16) ∧
       (drv_SetForcePstate drv (calls σ) h 16 0 = NVAPI_OK →
        r = true ∧ rest = [])).
Proof.
  intros Hst Hd Hh.
  unfold exit_device.
  rewrite (bind_eq _ _ _ _ _ (get_state_eq _ _ _ Hst)).
  destruct (usingClockControl st) eqn:Hu.
  - rewrite (bind_eq _ _ _ _ _ (get_nvmlDevice_eq _ _ _ Hd)).
    unfold nvmlDeviceResetApplicationsClocks.
    erewrite bind_eq by reflexivity.
    eexists true, _, [_]. split; [reflexivity |].
    split; [reflexivity |]. split; [done |]. done.
  - destruct (enter_pstate_total drv i 16
                (clockFreqMemHigh opts) (clockFreqGpuHigh opts)
                (clockFreqMemLow opts) (clockFreqGpuLow opts) σ)
      as (r & σ' & Hrun); [by exists st | by exists d | by exists h |].
    destruct (managed st) eqn:Hm.
    + destruct (drv_SetForcePstate drv (calls σ) h 16 0 =? NVAPI_OK) eqn:Hok.
      * apply Z.eqb_eq in Hok.
        rewrite (enter_pstate_native_run drv i 16 _ _ _ _ σ st h
                   Hst Hm Hu Hh Hok).
        eexists true, _, [_]. split; [reflexivity |].
        split; [reflexivity |]. split; [done |].
        intros _ _. exists []. split; [done |]. split; [| done].
        intros _. eexists. split;
          [apply update_device_lookup; eapply lookup_lt_Some, Hst | done].
      * apply Z.eqb_neq in Hok.
        assert (∃ rest, calls σ' = calls σ ++ CallSetForcePstate h 16 0 :: rest)
          as [rest Hrest].
        { revert Hrun. unfold enter_pstate.
          rewrite (bind_eq _ _ _ _ _ (get_state_eq _ _ _ Hst)).
          rewrite Hm, Hu. simpl.
          rewrite (bind_eq _ _ _ _ _ (get_nvapiDevice_eq _ _ _ Hh)).
          unfold NvAPI_GPU_SetForcePstate.
          erewrite bind_eq by reflexivity.
          remember (with_calls _ σ) as σ1 eqn:Hσ1. intros Hrun.
          assert (appends (λ c, is_control c = true) σ1 σ') as (n & Hn & _).
          { revert Hrun. intros H. minv;
              repeat match goal with
              | H : set_clocks _ _ _ _ _ _ _ _ = Some _ |- _ =>
                apply set_clocks_appends in H
              | H : get_supported_clocks _ _ _ = Some _ |- _ =>
                apply get_supported_clocks_appends in H
              end;
              appends_tac. }
          exists n. rewrite Hn, Hσ1. simpl. by rewrite <- app_assoc. }
        exists r, σ', (CallSetForcePstate h 16 0 :: rest).
        split; [done |]. split; [done |]. split; [done |].
        intros _ _. exists rest. split; [done |]. split; [| done].
        intros ->.
        destruct (enter_pstate_success _ _ _ _ _ _ _ _ _ _ Hrun Hst Hm)
          as (st' & Hst' & Hp & _).
        eauto.
    + rewrite (enter_pstate_unmanaged drv i 16 _ _ _ _ σ st Hst Hm).
      exists true, σ, []. rewrite app_nil_r. repeat split; done.
Qed.

(** A completed exit phase has run the round of every device. *)
Lemma normal_exit_round i σ σ' st d h :
  (i < deviceCount σ)%nat →
  gpuStates σ !! i = Some st →
  nvmlDevices σ !! i = Some d →
  nvapiDevices σ !! i = Some (Some h) →
  normal_exit drv opts σ = Some (true, σ') →
  ∃ new,
    calls σ' = calls σ ++ new ∧
    (usingClockControl st = true →
     CallResetApplicationsClocks d ∈ new ∧ gpuStates σ' !! i = Some st) ∧
    (usingClockControl st = false → managed st = true →
     CallSetForcePstate h 16 0 ∈ new ∧
     ∃ st', gpuStates σ' !! i = Some st' ∧ pstateId st' = 16).
Proof.
  intros Hi Hst Hd Hh H.
  unfold normal_exit, for_devices in H.
  apply bind_inv in H as (n & σ0 & Hn & H).
  apply get_deviceCount_inv in Hn as [-> ->].
  destruct (for_each_focus _ _ i _ _ exit_device_evolves Hi H)
    as (σa & σb & Ha & Hbody & Hb).
  assert (gpuStates σa !! i = Some st) as Hsta
    by by rewrite (os_state _ _ _ Ha).
  assert (nvmlDevices σa !! i = Some d) as Hda
    by by rewrite (os_nvmlDevices _ _ _ Ha).
  assert (nvapiDevices σa !! i = Some (Some h)) as Hha
    by by rewrite (os_nvapiDevices _ _ _ Ha).
  destruct (exit_device_round i σa st d h Hsta Hda Hha)
    as (r & σ'' & new & Hrun & Hnew & Hover & Hnat).
  rewrite Hbody in Hrun. injection Hrun as <- <-.
  destruct (os_calls _ _ _ Ha) as (n1 & Hn1).
  destruct (os_calls _ _ _ Hb) as (n2 & Hn2).
  exists (n1 ++ new ++ n2). split.
  { rewrite Hn2, Hnew, Hn1. by rewrite <- !app_assoc. }
  split.
  - intros Hu. destruct (Hover Hu) as (_ & -> & Hsame). split.
    + apply elem_of_app. right. apply elem_of_app. left. by left.
    + rewrite (os_state _ _ _ Hb), Hsame. done.
  - intros Hu Hm. destruct (Hnat Hu Hm) as (rest & -> & Hstate & _).
    split.
    + apply elem_of_app. right. apply elem_of_app. left. by left.
    + destruct (Hstate eq_refl) as (st' & Hst' & Hp).
      exists st'. split; [| done]. by rewrite (os_state _ _ _ Hb).
Qed.

(** The round of a device whose temperature reads above the threshold, as
    an equation. *)
Lemma tick_device_hot_run i σ st d :
  gpuStates σ !! i = Some st →
  nvmlDevices σ !! i = Some d →
  fst (drv_GetTemperature drv (calls σ) d) = NVML_SUCCESS →
  snd (drv_GetTemperature drv (calls σ) d) > temperatureThreshold opts →
  tick_device drv opts i σ =
  if pstateId st =? performanceStateLow opts
  then Some (true, with_calls (calls σ ++ [CallGetTemperature d]) σ)
  else enter_low drv opts i (with_calls (calls σ ++ [CallGetTemperature d]) σ).
Proof.
  intros Hst Hd Hok Hhot.
  destruct (drv_GetTemperature drv (calls σ) d) as [res t] eqn:Ht.
  simpl in Hok, Hhot. subst res.
  unfold tick_device.
  rewrite (bind_eq _ _ _ _ _ (get_nvmlDevice_eq _ _ _ Hd)).
  unfold nvmlDeviceGetTemperature.
  erewrite bind_eq by reflexivity. rewrite Ht. simpl.
  replace (t >? temperatureThreshold opts) with true by lia.
  set (σ1 := with_calls _ σ).
  rewrite (bind_eq _ _ _ _ _ (get_state_eq i σ1 st Hst)).
  by destruct (pstateId st =? performanceStateLow opts).
Qed.

(** A loop whose rounds all complete, completes. *)
Lemma for_each_accepted (body : nat → M bool) (Inv : Globals → Prop) l :
  (∀ j σ, j ∈ l → Inv σ → ∃ σ', body j σ = Some (true, σ') ∧ Inv σ') →
  ∀ σ, Inv σ → ∃ σ', for_each l body σ = Some (true, σ') ∧ Inv σ'.
Proof.
  induction l as [|j l IH]; intros Hbody σ HI; cbn [for_each].
  - by exists σ.
  - destruct (Hbody j σ) as (σ1 & Hrun & HI1); [by left | done |].
    rewrite (bind_eq _ _ _ _ _ Hrun).
    apply IH; [| done]. intros k σ2 Hk. apply Hbody. by right.
Qed.

(** With sensors that can be read and a library that accepts every
    request, the round of a device completes. *)
Lemma tick_device_accepted i σ :
  is_Some (gpuStates σ !! i) → is_Some (nvmlDevices σ !! i) →
  (∃ h, nvapiDevices σ !! i = Some (Some h)) →
  (∀ hist d, fst (drv_GetTemperature drv hist d) = NVML_SUCCESS) →
  (∀ hist d, fst (drv_GetUtilizationRates drv hist d) = NVML_SUCCESS) →
  (∀ hist h p f, drv_SetForcePstate drv hist h p f = NVAPI_OK) →
  (∀ hist d, drv_ResetApplicationsClocks drv hist d = NVML_SUCCESS) →
  (∀ hist d m g, drv_SetApplicationsClocks drv hist d m g = NVML_SUCCESS) →
  ∃ σ', tick_device drv opts i σ = Some (true, σ').
Proof.
  intros [st Hst] [d Hd] Hh Htemp Hutil Hnat Hres Hset.
  unfold tick_device.
  rewrite (bind_eq _ _ _ _ _ (get_nvmlDevice_eq _ _ _ Hd)).
  unfold nvmlDeviceGetTemperature.
  erewrite bind_eq by reflexivity.
  pose proof (Htemp (calls σ) d) as Hok.
  destruct (drv_GetTemperature drv (calls σ) d) as [res t].
  simpl in Hok. subst res. simpl.
  set (σ1 := with_calls _ σ).
  assert (∀ p σ2,
            gpuStates σ2 !! i = Some st → nvmlDevices σ2 = nvmlDevices σ →
            nvapiDevices σ2 = nvapiDevices σ →
            ∃ σ', enter_pstate drv i p (clockFreqMemHigh opts)
                    (clockFreqGpuHigh opts) (clockFreqMemLow opts)
                    (clockFreqGpuLow opts) σ2 = Some (true, σ')) as Henter.
  { intros p σ2 Hs2 Hd2 Hh2.
    apply enter_pstate_accepted;
      [by exists st | rewrite Hd2; by exists d | by rewrite Hh2 | done ..]. }
  destruct (t >? temperatureThreshold opts).
  - rewrite (bind_eq _ _ _ _ _ (get_state_eq i σ1 st Hst)).
    destruct (pstateId st =? performanceStateLow opts); simpl.
    + by eexists.
    + apply Henter; done.
  - unfold nvmlDeviceGetUtilizationRates.
    erewrite bind_eq by reflexivity.
    pose proof (Hutil (calls σ1) d) as Hok.
    destruct (drv_GetUtilizationRates drv (calls σ1) d) as [res u].
    simpl in Hok. subst res. simpl.
    set (σ2 := with_calls _ σ1).
    rewrite (bind_eq _ _ _ _ _ (get_state_eq i σ2 st Hst)).
    destruct (gpu u =? 0); simpl.
    + destruct (pstateId st =? performanceStateLow opts); simpl;
        [by eexists |].
      destruct (iterations st >? iterationsBeforeSwitch opts).
      * destruct (Henter (wrap32 (performanceStateLow opts)) σ2)
          as (σ3 & Hrun); [done | done | done |].
        unfold enter_low. rewrite (bind_eq _ _ _ _ _ Hrun). simpl.
        assert (is_Some (gpuStates σ3 !! i)) as [st3 Hst3].
        { apply lookup_lt_is_Some.
          rewrite (ev_length _ _ _ (enter_pstate_evolves _ _ _ _ _ _ _ _ _ _ Hrun)).
          by eapply lookup_lt_Some. }
        erewrite bind_eq by (by apply modify_state_eq). by eexists.
      * erewrite bind_eq by reflexivity. simpl.
        erewrite bind_eq by (by apply modify_state_eq). by eexists.
    + destruct (pstateId st =? performanceStateHigh opts); simpl.
      * erewrite bind_eq by (by apply modify_state_eq). by eexists.
      * apply Henter; done.
Qed.

(** And so does a pass over all devices. *)
Lemma tick_accepted σ :
  (∀ j, (j < deviceCount σ)%nat →
     is_Some (gpuStates σ !! j) ∧ is_Some (nvmlDevices σ !! j) ∧
     ∃ h, nvapiDevices σ !! j = Some (Some h)) →
  (∀ hist d, fst (drv_GetTemperature drv hist d) = NVML_SUCCESS) →
  (∀ hist d, fst (drv_GetUtilizationRates drv hist d) = NVML_SUCCESS) →
  (∀ hist h p f, drv_SetForcePstate drv hist h p f = NVAPI_OK) →
  (∀ hist d, drv_ResetApplicationsClocks drv hist d = NVML_SUCCESS) →
  (∀ hist d m g, drv_SetApplicationsClocks drv hist d m g = NVML_SUCCESS) →
  ∃ σ', tick drv opts σ = Some (true, σ').
Proof.
  intros Hwf Htemp Hutil Hnat Hres Hset.
  unfold tick, for_devices.
  erewrite bind_eq by reflexivity.
  destruct (for_each_accepted (tick_device drv opts)
              (λ σ1, ∀ j, (j < deviceCount σ)%nat →
                 is_Some (gpuStates σ1 !! j) ∧ is_Some (nvmlDevices σ1 !! j) ∧
                 ∃ h, nvapiDevices σ1 !! j = Some (Some h))
              (seq 0 (deviceCount σ))) with (σ := σ) as (σ' & Hrun & _);
    [| done | by exists σ'].
  intros j σ1 Hj HI. apply elem_of_seq in Hj.
  destruct (HI j) as (Hs & Hd & Hh); [lia |].
  destruct (tick_device_accepted j σ1 Hs Hd Hh Htemp Hutil Hnat Hres Hset)
    as (σ2 & Hrun).
  exists σ2. split; [done |].
  pose proof (tick_device_evolves _ _ _ _ Hrun) as Hev.
  intros k Hk. destruct (HI k Hk) as (Hsk & Hdk & Hhk).
  split; [| split].
  - apply lookup_lt_is_Some. rewrite (ev_length _ _ _ Hev).
    by apply lookup_lt_is_Some.
  - by rewrite (ev_nvmlDevices _ _ _ Hev).
  - by rewrite (ev_nvapiDevices _ _ _ Hev).
Qed.

End LoopLemmas.

(** * The control operations *)

(** C9: for a device whose [managed] flag is false, [enter_pstate],
    [set_clocks] and [get_supported_clocks] answer success at once and
    leave the whole global state as it was: every field of the record of
    the device, the records of the other devices, and the log of library
    calls, to which nothing is added. *)
Theorem unmanaged_device_untouched drv i σ st p hp a b c e :
  gpuStates σ !! i = Some st →
  managed st = false →
  enter_pstate drv i p a b c e σ = Some (true, σ) ∧
  set_clocks drv i hp a b c e σ = Some (true, σ) ∧
  get_supported_clocks drv i σ = Some (true, σ).
Proof.
  intros Hst Hm. split; [by eapply enter_pstate_unmanaged |].
  split.
  - unfold set_clocks. mred. rewrite Hst. simpl. by rewrite Hm.
  - unfold get_supported_clocks. mred. rewrite Hst. simpl. by rewrite Hm.
Qed.

Lemma unmanaged_device_untouched_witness :
  let σ := one_device (mkGpuState 3 16 false false 0 0 0 0) in
  enter_pstate (fake_driver 1 50 0) 0 8 0 0 0 0 σ = Some (true, σ) ∧
  set_clocks (fake_driver 1 50 0) 0 true 0 0 0 0 σ = Some (true, σ) ∧
  get_supported_clocks (fake_driver 1 50 0) 0 σ = Some (true, σ).
Proof.
  apply (unmanaged_device_untouched (fake_driver 1 50 0) 0%nat
           (one_device (mkGpuState 3 16 false false 0 0 0 0))
           (mkGpuState 3 16 false false 0 0 0 0)); reflexivity.
Defined.


(** * The monitoring loop *)

(** C1, as the code has it: the round of an idle, cool device that is not
    at the low level first compares the counter left by the earlier rounds
    with the threshold and then adds one to it.  Starting from a counter of
    zero, the device keeps its level through [threshold + 1] passes, the
    counter reading the number of passes, and moves to the low level on
    pass [threshold + 2]; the counter reads one after that pass. *)
Theorem idle_device_switches_low_on_pass_threshold_plus_two
    drv opts i σ st d n σ' :
  (i < deviceCount σ)%nat →
  gpuStates σ !! i = Some st →
  nvmlDevices σ !! i = Some d →
  managed st = true →
  pstateId st ≠ performanceStateLow opts →
  iterations st = 0 →
  0 ≤ iterationsBeforeSwitch opts →
  iterationsBeforeSwitch opts + 1 < 2 ^ 32 →
  (∀ hist, snd (drv_GetTemperature drv hist d) ≤ temperatureThreshold opts) →
  (∀ hist, gpu (snd (drv_GetUtilizationRates drv hist d)) = 0) →
  main_loop drv opts n σ = Some (true, σ') →
  (Z.of_nat n ≤ iterationsBeforeSwitch opts + 1 →
   gpuStates σ' !! i = Some (set_iterations (Z.of_nat n) st)) ∧
  (Z.of_nat n = iterationsBeforeSwitch opts + 2 →
   ∃ st', gpuStates σ' !! i = Some st' ∧
          pstateId st' = wrap32 (performanceStateLow opts) ∧
          iterations st' = 1).
Proof.
  intros Hi Hst Hd Hm Hlow Hit HT0 HT Ht Hu H. split.
  - intros Hn.
    destruct (main_loop_idle_counts drv opts i d n σ σ' st) as (_ & _ & Hs);
      auto; try lia.
    by rewrite Hit in Hs.
  - intros Hn. destruct n as [|n]; [lia |].
    replace (S n) with (n + 1)%nat in H by lia.
    apply main_loop_app in H as (σ1 & H1 & H2).
    destruct (main_loop_idle_counts drv opts i d n σ σ1 st) as (Hc & Hd1 & Hs);
      auto; try lia.
    simpl in H2. apply bind_inv in H2 as (ok & σ2 & Htick & H2).
    destruct ok; [| minv]. apply ret_inv in H2 as [_ Heq].
    rewrite <- Heq in Htick. clear Heq.
    destruct (tick_idle drv opts i σ1 σ' _ d ltac:(lia) Hs Hd1)
      as (_ & _ & st' & Hst' & Hcase); auto.
    simpl in Hcase.
    destruct (_ >? _) eqn:Hgt in Hcase; [| lia].
    exists st'. tauto.
Qed.

(** C3: in the round of a managed device whose sampled temperature exceeds
    the threshold, the utilization is not read, and if the round completes
    the device is at the low level, whatever its level, utilization or
    counter were; the counter is not advanced: it keeps its value if the
    device was at the low level already and is zero after the forced
    change.  The round completes whenever the library does not refuse the
    change: at once, with nothing but the temperature read, when the
    device is at the low level already; with the one level request when
    the library accepts it; and under clock control when the library
    accepts the clock requests.  The rounds of the other devices leave the
    record alone, so that the device is at the low level at the end of
    every completed pass in which its temperature reads above the
    threshold; and with sensors that can be read and a library that accepts
    every request the pass completes.  The low level is taken to fit the
    [unsigned int] parameter of [enter_pstate]. *)
Theorem thermal_ceiling_forces_low drv opts i σ st d h :
  gpuStates σ !! i = Some st →
  managed st = true →
  nvmlDevices σ !! i = Some d →
  nvapiDevices σ !! i = Some (Some h) →
  0 ≤ performanceStateLow opts < 2 ^ 32 →
  fst (drv_GetTemperature drv (calls σ) d) = NVML_SUCCESS →
  snd (drv_GetTemperature drv (calls σ) d) > temperatureThreshold opts →
  (∃ r σ' new,
    tick_device drv opts i σ = Some (r, σ') ∧
    calls σ' = calls σ ++ new ∧
    count_calls is_GetUtilizationRates new = 0%nat ∧
    (r = true →
     ∃ st', gpuStates σ' !! i = Some st' ∧
       pstateId st' = performanceStateLow opts ∧
       iterations st' =
         if pstateId st =? performanceStateLow opts
         then iterations st else 0) ∧
    (pstateId st = performanceStateLow opts →
     r = true ∧
     σ' = with_calls (calls σ ++ [CallGetTemperature d]) σ) ∧
    (pstateId st ≠ performanceStateLow opts →
     usingClockControl st = false →
     drv_SetForcePstate drv (calls σ ++ [CallGetTemperature d]) h
       (performanceStateLow opts) 0 = NVAPI_OK →
     r = true ∧
     σ' = update_device i
            (set_pstateId (performanceStateLow opts) (set_iterations 0 st))
            [CallGetTemperature d;
             CallSetForcePstate h (performanceStateLow opts) 0] σ) ∧
    (pstateId st ≠ performanceStateLow opts →
     usingClockControl st = true →
     (∀ hist, drv_ResetApplicationsClocks drv hist d = NVML_SUCCESS) →
     (∀ hist m g,
        drv_SetApplicationsClocks drv hist d m g = NVML_SUCCESS) →
     r = true)) ∧
  ((i < deviceCount σ)%nat →
   (∀ hist,
      snd (drv_GetTemperature drv hist d) > temperatureThreshold opts) →
   ∀ σ', tick drv opts σ = Some (true, σ') →
   ∃ st', gpuStates σ' !! i = Some st' ∧
          pstateId st' = performanceStateLow opts) ∧
  ((i < deviceCount σ)%nat →
   (∀ hist,
      snd (drv_GetTemperature drv hist d) > temperatureThreshold opts) →
   (∀ j, (j < deviceCount σ)%nat →
      is_Some (gpuStates σ !! j) ∧ is_Some (nvmlDevices σ !! j) ∧
      ∃ hj, nvapiDevices σ !! j = Some (Some hj)) →
   (∀ hist dj, fst (drv_GetTemperature drv hist dj) = NVML_SUCCESS) →
   (∀ hist dj, fst (drv_GetUtilizationRates drv hist dj) = NVML_SUCCESS) →
   (∀ hist hj p f, drv_SetForcePstate drv hist hj p f = NVAPI_OK) →
   (∀ hist dj, drv_ResetApplicationsClocks drv hist dj = NVML_SUCCESS) →
   (∀ hist dj m g,
      drv_SetApplicationsClocks drv hist dj m g = NVML_SUCCESS) →
   ∃ σ' st',
     tick drv opts σ = Some (true, σ') ∧
     gpuStates σ' !! i = Some st' ∧
     pstateId st' = performanceStateLow opts).
Proof.
  intros Hst Hm Hd Hh Hrange Hok Hhot.
  assert (wrap32 (performanceStateLow opts) = performanceStateLow opts) as Hw.
  { unfold wrap32. apply Z.mod_small. lia. }
  assert (∀ σ', tick drv opts σ = Some (true, σ') →
            (i < deviceCount σ)%nat →
            (∀ hist,
               snd (drv_GetTemperature drv hist d) >
               temperatureThreshold opts) →
            ∃ st', gpuStates σ' !! i = Some st' ∧
                   pstateId st' = performanceStateLow opts) as Hpass.
  { intros σ' Htick Hi Hall.
    destruct (tick_hot drv opts i σ σ' st d h Hi Hst Hm Hd Hh Hall Htick)
      as (st' & Hst' & Hcase).
    exists st'. split; [done |].
    destruct (pstateId st =? performanceStateLow opts) eqn:Hlow.
    + subst st'. lia.
    + destruct Hcase as [-> _]. done. }
  split; [| split].
  - destruct (tick_device_hot drv opts i σ st d h Hst Hm Hd Hh Hok Hhot)
      as (r & σ' & new & Hrun & Hcalls & Hall & Hpost).
    pose proof (tick_device_hot_run drv opts i σ st d Hst Hd Hok Hhot) as Heq.
    rewrite Hrun in Heq. unfold enter_low in Heq. rewrite Hw in Heq.
    set (σT := with_calls (calls σ ++ [CallGetTemperature d]) σ) in *.
    exists r, σ', (CallGetTemperature d :: new).
    split; [done |]. split; [done |]. split.
    { unfold count_calls. rewrite filter_cons. case_decide; [done |].
      eapply count_calls_none; [| exact Hall]. by intros []. }
    split.
    { intros Hr. destruct (Hpost Hr) as (st' & Hst' & Hcase).
      exists st'. split; [done |].
      destruct (pstateId st =? performanceStateLow opts) eqn:Hlow.
      + subst st'. split; [lia | done].
      + destruct Hcase as [-> ->]. done. }
    split.
    { intros Hlow. rewrite Hlow, Z.eqb_refl in Heq.
      by injection Heq as -> ->. }
    split.
    { intros Hlow Hu Hacc. apply Z.eqb_neq in Hlow. rewrite Hlow in Heq.
      rewrite (enter_pstate_native_run drv i _ _ _ _ _ σT st h Hst Hm Hu Hh
                 Hacc) in Heq.
      injection Heq as -> ->. split; [done |].
      unfold update_device, σT. simpl. by rewrite <- app_assoc. }
    intros Hlow Hu Hres Hset. apply Z.eqb_neq in Hlow. rewrite Hlow in Heq.
    rewrite (enter_pstate_override_run drv i _ _ _ _ _ σT st d Hst Hm Hu Hd)
      in Heq.
    cbv zeta in Heq.
    assert (∀ hp, clock_reply drv (calls σT) d hp
              (clockFreqMemHigh opts) (clockFreqGpuHigh opts)
              (clockFreqMemLow opts) (clockFreqGpuLow opts) st =
            NVML_SUCCESS) as Hclk.
    { intros hp. unfold clock_reply. destruct (resets_to_auto _ _ _); auto. }
    rewrite Hclk in Heq. by injection Heq as -> _.
  - intros Hi Hall σ' Htick. by apply Hpass.
  - intros Hi Hall Hwf Htemp Hutil Hnat Hres Hset.
    destruct (tick_accepted drv opts σ Hwf Htemp Hutil Hnat Hres Hset)
      as (σ' & Htick).
    destruct (Hpass σ' Htick Hi Hall) as (st' & Hst' & Hlow).
    by exists σ', st'.
Qed.

(** C6, as the code has it: when the thermal ceiling forces a managed
    device that is not at the low level to the low level, the change goes
    through [enter_pstate], which sets the counter to zero. *)
Theorem thermal_forced_low_resets_counter drv opts i σ st d h :
  gpuStates σ !! i = Some st →
  managed st = true →
  pstateId st ≠ performanceStateLow opts →
  nvmlDevices σ !! i = Some d →
  nvapiDevices σ !! i = Some (Some h) →
  fst (drv_GetTemperature drv (calls σ) d) = NVML_SUCCESS →
  snd (drv_GetTemperature drv (calls σ) d) > temperatureThreshold opts →
  ∃ r σ',
    tick_device drv opts i σ = Some (r, σ') ∧
    (r = true →
     ∃ st', gpuStates σ' !! i = Some st' ∧
       pstateId st' = wrap32 (performanceStateLow opts) ∧
       iterations st' = 0).
Proof.
  intros Hst Hm Hlow Hd Hh Hok Hhot.
  destruct (tick_device_hot drv opts i σ st d h Hst Hm Hd Hh Hok Hhot)
    as (r & σ' & new & Hrun & Hcalls & Hall & Hpost).
  exists r, σ'. split; [done |].
  intros Hr. destruct (Hpost Hr) as (st' & Hst' & Hcase).
  apply Z.eqb_neq in Hlow. rewrite Hlow in Hcase. eauto.
Qed.

(** C4: once [usingClockControl] is set in the record of a device, it
    stays set.  A level request for the device, whatever its level and
    clock arguments, answers without calling [NvAPI_GPU_SetForcePstate]:
    it issues the one call of [set_clocks] if the device is managed and
    none otherwise, and leaves the flag set.  Through any number of passes
    of the monitoring loop the flag stays set, and every call of
    [NvAPI_GPU_SetForcePstate] made meanwhile carries the handle of another
    device, one that was not under clock control. *)
Theorem clock_control_is_permanent drv i σ st d :
  gpuStates σ !! i = Some st →
  usingClockControl st = true →
  nvmlDevices σ !! i = Some d →
  (∀ p a b c e,
     ∃ r σ' st' new,
       enter_pstate drv i p a b c e σ = Some (r, σ') ∧
       gpuStates σ' !! i = Some st' ∧
       usingClockControl st' = true ∧
       nvmlDevices σ' = nvmlDevices σ ∧
       calls σ' = calls σ ++ new ∧
       count_calls is_SetForcePstate new = 0%nat ∧
       (new = [] ∨
        new = [clock_call d (p =? PERFORMANCE_STATE_HIGH) a b c e st])) ∧
  (∀ opts n r σ',
     main_loop drv opts n σ = Some (r, σ') →
     ∃ st' new,
       gpuStates σ' !! i = Some st' ∧
       usingClockControl st' = true ∧
       calls σ' = calls σ ++ new ∧
       ∀ h p f, CallSetForcePstate h p f ∈ new →
         ∃ j stj, j ≠ i ∧ nvapiDevices σ !! j = Some (Some h) ∧
                  gpuStates σ !! j = Some stj ∧
                  usingClockControl stj = false).
Proof.
  intros Hst Hu Hd. split.
  - intros p a b c e.
    assert (i < length (gpuStates σ))%nat as Hi
      by (eapply lookup_lt_Some, Hst).
    destruct (managed st) eqn:Hm.
    + pose proof (enter_pstate_override_run drv i p a b c e σ st d
                    Hst Hm Hu Hd) as Hrun.
      simpl in Hrun.
      assert (is_SetForcePstate
                (clock_call d (p =? PERFORMANCE_STATE_HIGH) a b c e st) = false)
        as Hnot.
      { unfold clock_call. by destruct (resets_to_auto _ _ _). }
      destruct (clock_reply _ _ _ _ _ _ _ _ _ =? NVML_SUCCESS).
      * eexists true, _, _, [_]. split; [exact Hrun |].
        split; [by apply update_device_lookup |].
        split; [simpl; unfold clocked; by destruct (resets_to_auto _ _ _) |].
        split; [done |]. split; [done |].
        split; [| by right].
        unfold count_calls. rewrite filter_cons, filter_nil.
        case_decide as Hk; [by rewrite Hnot in Hk | done].
      * eexists false, _, st, [_]. split; [exact Hrun |].
        split; [done |]. split; [done |]. split; [done |]. split; [done |].
        split; [| by right].
        unfold count_calls. rewrite filter_cons, filter_nil.
        case_decide as Hk; [by rewrite Hnot in Hk | done].
    + exists true, σ, st, [].
      split; [by eapply enter_pstate_unmanaged |].
      rewrite app_nil_r. repeat split; auto.
  - intros opts n r σ' H.
    destruct (main_loop_progresses drv opts n σ r σ' H)
      as [_ _ _ _ _ Hstate (new & Hnew & Hnative)].
    destruct (Hstate i st Hst) as (st' & Hst' & _ & Hu').
    exists st', new. split; [done |]. split; [auto |]. split; [done |].
    intros h p f Hin.
    destruct (Hnative h p f Hin) as (j & stj & Hh & Hstj & _ & Huj).
    exists j, stj. split; [| done].
    intros ->. congruence.
Qed.

(** * The exit phase *)

(** C7, as the code has it: in the exit phase a device under clock control
    has its clocks reset to automatic, and no level is requested for it;
    for a managed device that is not under clock control the level 16 is
    requested through [enter_pstate], whatever the configured high level
    is, and when the library accepts the request nothing else is called
    and the record holds level 16.  A completed exit phase has done so for
    every enumerated device. *)
Theorem exit_phase_defaults drv opts i σ st d h :
  gpuStates σ !! i = Some st →
  nvmlDevices σ !! i = Some d →
  nvapiDevices σ !! i = Some (Some h) →
  (∃ r σ' new,
    exit_device drv opts i σ = Some (r, σ') ∧
    calls σ' = calls σ ++ new ∧
    (usingClockControl st = true →
     r = true ∧ new = [CallResetApplicationsClocks d] ∧
     gpuStates σ' = gpuStates σ) ∧
    (usingClockControl st = false → managed st = true →
     ∃ rest, new = CallSetForcePstate h 16 0 :: rest ∧
       (r = true →
        ∃ st', gpuStates σ' !! i = Some st' ∧ pstateId st' = 16) ∧
       (drv_SetForcePstate drv (calls σ) h 16 0 = NVAPI_OK →
        r = true ∧ rest = []))) ∧
  ((i < deviceCount σ)%nat →
   ∀ σ', normal_exit drv opts σ = Some (true, σ') →
   ∃ new,
     calls σ' = calls σ ++ new ∧
     (usingClockControl st = true →
      CallResetApplicationsClocks d ∈ new ∧ gpuStates σ' !! i = Some st) ∧
     (usingClockControl st = false → managed st = true →
      CallSetForcePstate h 16 0 ∈ new ∧
      ∃ st', gpuStates σ' !! i = Some st' ∧ pstateId st' = 16)).
Proof.
  intros Hst Hd Hh. split.
  - by apply exit_device_round.
  - intros Hi σ' H. by eapply normal_exit_round.
Qed.

(** * Sorting the NVAPI handles *)

Lemma find_match_spec x l j0 j :
  find_match x l j0 = Some j →
  (j0 ≤ j)%nat ∧ l !! (j - j0)%nat = Some x ∧
  ∀ k, (k < j - j0)%nat → l !! k ≠ Some x.
Proof.
  revert j0. induction l as [|y l IH]; intros j0 H; simpl in H; [done |].
  destruct (x =? y) eqn:Hxy.
  - injection H as <-. apply Z.eqb_eq in Hxy as ->.
    rewrite Nat.sub_diag. split; [lia |]. split; [done |]. intros k Hk. lia.
  - apply Z.eqb_neq in Hxy.
    destruct (IH _ H) as (Hle & Hlook & Hfirst).
    split; [lia |].
    replace (j - j0)%nat with (S (j - S j0)) by lia.
    split; [done |].
    intros [|k] Hk; simpl; [congruence |]. apply Hfirst. lia.
Qed.

Lemma find_match_None x l j0 : find_match x l j0 = None ↔ x ∉ l.
Proof.
  revert j0. induction l as [|y l IH]; intros j0; simpl.
  - split; [intros _; apply not_elem_of_nil | done].
  - destruct (x =? y) eqn:Hxy.
    + apply Z.eqb_eq in Hxy as ->. split; [done |].
      intros H. exfalso. apply H. by left.
    + apply Z.eqb_neq in Hxy. rewrite IH, not_elem_of_cons. tauto.
Qed.

(** In a list without duplicates the match is the position of the value. *)
Lemma find_match_NoDup x l j :
  NoDup l → l !! j = Some x → find_match x l 0 = Some j.
Proof.
  intros Hnd Hj.
  destruct (find_match x l 0) as [k|] eqn:Hk.
  - destruct (find_match_spec _ _ _ _ Hk) as (_ & Hlook & _).
    rewrite Nat.sub_0_r in Hlook. f_equal. by eapply NoDup_lookup.
  - apply find_match_None in Hk. exfalso. apply Hk.
    by eapply list_elem_of_lookup_2.
Qed.

Lemma match_device_length A B devices sorted i :
  length (match_device A B devices sorted i) = length sorted.
Proof.
  unfold match_device. destruct (matched_index A B i); [| done].
  apply length_insert.
Qed.

Lemma match_device_lookup_ne A B devices sorted i k :
  k ≠ i → match_device A B devices sorted i !! k = sorted !! k.
Proof.
  intros Hk. unfold match_device. destruct (matched_index A B i); [| done].
  by apply list_lookup_insert_ne.
Qed.

(** The outer loop of step 2, from any content [sorted] of the array. *)
Lemma match_loop_lookup A B devices m : ∀ k sorted i,
  (i < length sorted)%nat →
  fold_left (match_device A B devices) (seq k m) sorted !! i =
  if decide (k ≤ i < k + m)%nat
  then match matched_index A B i with
       | Some j => Some (default None (devices !! j))
       | None => sorted !! i
       end
  else sorted !! i.
Proof.
  induction m as [|m IH]; intros k sorted i Hi; simpl.
  - case_decide; [lia | done].
  - rewrite IH by by rewrite match_device_length.
    destruct (decide (i = k)) as [->|Hne].
    + rewrite decide_False by lia. rewrite decide_True by lia.
      unfold match_device. destruct (matched_index A B k); [| done].
      by apply list_lookup_insert_eq.
    + rewrite match_device_lookup_ne by done.
      repeat case_decide; try done; lia.
Qed.

Lemma sortedNvapiDevices_lookup n A B devices i :
  (i < NVAPI_MAX_PHYSICAL_GPUS)%nat →
  sortedNvapiDevices n A B devices !! i =
  Some (if decide (i < n)%nat
        then match matched_index A B i with
             | Some j => default None (devices !! j)
             | None => None
             end
        else None).
Proof.
  intros Hi. unfold sortedNvapiDevices.
  rewrite match_loop_lookup by by rewrite length_replicate.
  rewrite lookup_replicate_2 by done.
  destruct (decide (i < n)%nat).
  - rewrite decide_True by lia. by destruct (matched_index A B i).
  - by rewrite decide_False by lia.
Qed.

Section SortLemmas.
Variable drv : Driver.

(** Step 1 succeeds when every bus id can be read. *)
Lemma read_identifiers_ok l : ∀ σ,
  (∀ i, i ∈ l → is_Some (nvmlDevices σ !! i) ∧
                  ∃ h, nvapiDevices σ !! i = Some (Some h)) →
  (∀ hist d, fst (drv_GetPciInfo drv hist d) = NVML_SUCCESS) →
  (∀ hist h, fst (drv_GetBusId drv hist h) = NVAPI_OK) →
  ∃ A B σ1,
    read_identifiers drv l σ = Some (Some (A, B), σ1) ∧
    length A = length l ∧ length B = length l ∧
    nvapiDevices σ1 = nvapiDevices σ ∧ nvmlDevices σ1 = nvmlDevices σ ∧
    deviceCount σ1 = deviceCount σ ∧ gpuStates σ1 = gpuStates σ ∧
    enableClockFallback σ1 = enableClockFallback σ.
Proof.
  induction l as [|i l IH]; intros σ Hidx Hpci Hbus; simpl.
  - exists [], [], σ. by repeat split.
  - destruct (Hidx i) as ([d Hd] & h & Hh); [by left |].
    rewrite (bind_eq _ _ _ _ _ (get_nvmlDevice_eq _ _ _ Hd)).
    unfold nvmlDeviceGetPciInfo. erewrite bind_eq by reflexivity.
    specialize (Hpci (calls σ) d) as Hp.
    destruct (drv_GetPciInfo drv (calls σ) d) as [res bus]. simpl in Hp.
    subst res. simpl.
    set (σa := with_calls _ σ).
    rewrite (bind_eq _ _ _ _ _ (get_nvapiDevice_eq i σa h Hh)).
    unfold NvAPI_GPU_GetBusId. erewrite bind_eq by reflexivity.
    specialize (Hbus (calls σa) h) as Hb.
    destruct (drv_GetBusId drv (calls σa) h) as [status busId]. simpl in Hb.
    subst status. simpl.
    set (σb := with_calls _ σa).
    destruct (IH σb) as (A & B & σ1 & Hrun & HA & HB & H1 & H2 & H3 & H4 & H5);
      [| done | done |].
    { intros k Hk. apply Hidx. by right. }
    rewrite (bind_eq _ _ _ _ _ Hrun).
    exists (bus :: A), (busId :: B), σ1. simpl.
    repeat split; auto; congruence.
Qed.

(** The block answers [false] exactly when step 1 does: a bus id that
    finds no match in step 2 is no error. *)
Lemma sort_nvapi_handles_run σ ids σ1 :
  read_identifiers drv (seq 0 (deviceCount σ)) σ = Some (ids, σ1) →
  sort_nvapi_handles drv σ =
  Some (match ids with
        | Some (A, B) =>
          (true, with_nvapiDevices
                   (sortedNvapiDevices (deviceCount σ) A B (nvapiDevices σ1))
                   σ1)
        | None => (false, σ1)
        end).
Proof.
  intros H. unfold sort_nvapi_handles.
  erewrite bind_eq by reflexivity.
  rewrite (bind_eq _ _ _ _ _ H).
  by destruct ids as [[A B]|].
Qed.

End SortLemmas.

(** C8: for [n] devices whose bus ids are pairwise distinct and where
    every bus id of NVML occurs among those of NVAPI, step 2 matches the
    indices of the two enumerations one to one: every NVML index [i] is
    matched with an NVAPI index [j] holding the same bus id, distinct
    indices get distinct matches, every NVAPI index is the match of some
    NVML index, and the sorted array holds at [i] the NVAPI handle of index
    [j].  In scenario E (NVML bus ids 3, 1, 2; NVAPI bus ids 1, 2, 3) the
    device 0 gets the NVAPI handle of index 2, the device 1 that of index 0
    and the device 2 that of index 1. *)
Theorem reconciliation_is_a_bijection
    (A B : list Z) (devices : list (option NvPhysicalGpuHandle)) (n : nat) :
  length A = n →
  length B = n →
  (n ≤ NVAPI_MAX_PHYSICAL_GPUS)%nat →
  NoDup A →
  (∀ x, x ∈ A → x ∈ B) →
  (∀ i, (i < n)%nat →
     ∃ j, (j < n)%nat ∧ matched_index A B i = Some j ∧ B !! j = A !! i ∧
          sortedNvapiDevices n A B devices !! i =
            Some (default None (devices !! j))) ∧
  (∀ i1 i2 j, matched_index A B i1 = Some j →
              matched_index A B i2 = Some j → i1 = i2) ∧
  (∀ j, (j < n)%nat → ∃ i, (i < n)%nat ∧ matched_index A B i = Some j) ∧
  ∃ σ', sort_nvapi_handles scenario_E_driver scenario_E = Some (true, σ') ∧
        take 3 (nvapiDevices σ') = [Some 2; Some 0; Some 1].
Proof.
  intros HA HB Hn HndA Hincl.
  assert (A ≡ₚ B) as Hperm.
  { apply submseteq_length_Permutation; [by apply NoDup_submseteq | lia]. }
  assert (NoDup B) as HndB by by rewrite <- Hperm.
  assert (∀ i j, matched_index A B i = Some j →
                 (i < n)%nat ∧ (j < n)%nat ∧ B !! j = A !! i) as Hmatch.
  { intros i j H. unfold matched_index in H.
    destruct (A !! i) as [x|] eqn:Hx; [| done].
    destruct (find_match_spec _ _ _ _ H) as (_ & Hj & _).
    rewrite Nat.sub_0_r in Hj.
    split; [rewrite <- HA; by eapply lookup_lt_Some |].
    split; [rewrite <- HB; by eapply lookup_lt_Some | done]. }
  split; [| split; [| split]].
  - intros i Hi.
    destruct (lookup_lt_is_Some_2 A i) as [x Hx]; [lia |].
    assert (x ∈ B) as HxB by (apply Hincl; by eapply list_elem_of_lookup_2).
    destruct (find_match x B 0) as [j|] eqn:Hj;
      [| by apply find_match_None in Hj].
    assert (matched_index A B i = Some j) as Hm
      by (unfold matched_index; by rewrite Hx).
    destruct (Hmatch _ _ Hm) as (_ & Hjn & Hbj).
    exists j. split; [done |]. split; [done |]. split; [done |].
    rewrite sortedNvapiDevices_lookup by lia.
    rewrite decide_True by done. by rewrite Hm.
  - intros i1 i2 j H1 H2.
    destruct (Hmatch _ _ H1) as (_ & _ & Hb1).
    destruct (Hmatch _ _ H2) as (_ & _ & Hb2).
    destruct (A !! i1) as [x|] eqn:Hx1;
      [| unfold matched_index in H1; by rewrite Hx1 in H1].
    eapply NoDup_lookup; [exact HndA | exact Hx1 | congruence].
  - intros j Hj.
    destruct (lookup_lt_is_Some_2 B j) as [x Hx]; [lia |].
    assert (x ∈ A) as HxA by (rewrite Hperm; by eapply list_elem_of_lookup_2).
    apply list_elem_of_lookup_1 in HxA as [i Hi].
    exists i. split; [rewrite <- HA; by eapply lookup_lt_Some |].
    unfold matched_index. rewrite Hi. by apply find_match_NoDup.
  - eexists. split; [vm_compute; reflexivity | reflexivity].
Qed.

(** Step 2 has no branch for a bus id that is not found.  When every bus
    id can be read, the sorting of the handles reports no error, whether or
    not the bus ids match: for an NVML index whose bus id does not occur
    among the bus ids of NVAPI the inner loop finds nothing, and no handle
    is written for it.  Its slot of the sorted array keeps the indeterminate
    content of the uninitialised local array, which step 3 copies into
    [nvapiDevices]. *)
Lemma sort_passes_over_unmatched drv σ :
  (deviceCount σ ≤ NVAPI_MAX_PHYSICAL_GPUS)%nat →
  (∀ i, (i < deviceCount σ)%nat →
     is_Some (nvmlDevices σ !! i) ∧
     ∃ h, nvapiDevices σ !! i = Some (Some h)) →
  (∀ hist d, fst (drv_GetPciInfo drv hist d) = NVML_SUCCESS) →
  (∀ hist h, fst (drv_GetBusId drv hist h) = NVAPI_OK) →
  ∃ A B σ1 σ',
    read_identifiers drv (seq 0 (deviceCount σ)) σ = Some (Some (A, B), σ1) ∧
    sort_nvapi_handles drv σ = Some (true, σ') ∧
    ∀ i x, A !! i = Some x → x ∉ B →
      matched_index A B i = None ∧ nvapiDevices σ' !! i = Some None.
Proof.
  intros Hn Hidx Hpci Hbus.
  destruct (read_identifiers_ok drv (seq 0 (deviceCount σ)) σ)
    as (A & B & σ1 & Hrun & HA & HB & _); [| done | done |].
  { intros i Hi. apply Hidx. apply elem_of_seq in Hi. lia. }
  rewrite length_seq in HA, HB.
  exists A, B, σ1. eexists. split; [done |].
  split; [by rewrite (sort_nvapi_handles_run drv σ _ _ Hrun) |].
  intros i x Hx HxB.
  assert (matched_index A B i = None) as Hm.
  { unfold matched_index. rewrite Hx. by apply find_match_None. }
  split; [done |]. simpl.
  assert (i < deviceCount σ)%nat as Hi
    by (rewrite <- HA; by eapply lookup_lt_Some).
  rewrite sortedNvapiDevices_lookup by lia.
  rewrite decide_True by done. by rewrite Hm.
Qed.

(** * Choosing the managed devices *)

Lemma mark_ids_run l : ∀ σ,
  Forall (λ id, 0 ≤ id) l →
  (deviceCount σ < length (gpuStates σ))%nat →
  ∃ σ', mark_ids l σ = Some (tt, σ') ∧
    deviceCount σ' = deviceCount σ ∧
    length (gpuStates σ') = length (gpuStates σ) ∧
    ∀ k, ∃ st st',
      (k < length (gpuStates σ))%nat →
      gpuStates σ !! k = Some st ∧ gpuStates σ' !! k = Some st' ∧
      managed st' =
        managed st ||
        bool_decide (Z.of_nat k ∈ l ∧ (k ≤ deviceCount σ)%nat).
Proof.
  induction l as [|id l IH]; intros σ Hpos Hlen; cbn [mark_ids].
  - exists σ. split; [done |]. split; [done |]. split; [done |].
    intros k. destruct (gpuStates σ !! k) as [st|] eqn:Hk.
    + exists st, st. intros _. split; [done |]. split; [done |].
      rewrite bool_decide_eq_false_2; [by rewrite orb_false_r |].
      intros [H _]. by apply elem_of_nil in H.
    + exists zero_state, zero_state. intros Hlt.
      apply lookup_ge_None in Hk. lia.
  - apply Forall_cons in Hpos as [Hid Hpos].
    erewrite bind_eq by reflexivity.
    unfold invalid_id.
    replace (id <? 0) with false by lia. simpl.
    destruct (id >? Z.of_nat (deviceCount σ)) eqn:Hgt.
    + erewrite bind_eq by reflexivity.
      destruct (IH σ Hpos Hlen) as (σ' & Hrun & Hc & Hl & Hk).
      exists σ'. split; [done |]. split; [done |]. split; [done |].
      intros k. destruct (Hk k) as (st & st' & Hst).
      exists st, st'. intros Hlt. destruct (Hst Hlt) as (H1 & H2 & H3).
      split; [done |]. split; [done |]. rewrite H3. f_equal.
      apply bool_decide_ext. rewrite elem_of_cons. split; [tauto |].
      intros [[Heq|?] ?]; [lia | tauto].
    + destruct (lookup_lt_is_Some_2 (gpuStates σ) (Z.to_nat id))
        as [s Hs]; [lia |].
      rewrite (bind_eq _ _ _ _ _ (modify_state_eq _ _ _ _ Hs)).
      set (σ1 := with_gpuStates _ σ).
      destruct (IH σ1 Hpos) as (σ' & Hrun & Hc & Hl & Hk).
      { simpl. by rewrite length_insert. }
      exists σ'. split; [done |]. split; [done |].
      split; [rewrite Hl; simpl; by rewrite length_insert |].
      intros k. destruct (Hk k) as (st1 & st' & Hst).
      destruct (gpuStates σ !! k) as [st|] eqn:Hstk; cycle 1.
      { exists zero_state, zero_state. intros Hlt.
        apply lookup_ge_None in Hstk. lia. }
      exists st, st'. intros Hlt.
      destruct Hst as (H1 & H2 & H3); [simpl; by rewrite length_insert |].
      split; [done |]. split; [done |]. rewrite H3. simpl in *.
      destruct (decide (k = Z.to_nat id)) as [->|Hne].
      * rewrite list_lookup_insert_eq in H1 by (eapply lookup_lt_Some, Hs).
        injection H1 as <-. simpl.
        rewrite bool_decide_eq_true_2; [by rewrite orb_true_r |].
        split; [rewrite Z2Nat.id by lia; by left | lia].
      * rewrite list_lookup_insert_ne in H1 by done.
        assert (st1 = st) as -> by congruence. f_equal.
        apply bool_decide_ext. rewrite elem_of_cons. split; [tauto |].
        intros [[Heq|?] ?]; [| tauto]. subst id.
        rewrite Nat2Z.id in Hne. done.
Qed.

(** C10: with an explicit list of ids, the validity test rejects exactly
    the ids greater than the device count; its [id < 0] disjunct is false
    for every id, ids being unsigned.  An id equal to the device count is
    accepted, and the record [gpuStates[deviceCount]], which belongs to no
    enumerated device, is marked as managed. *)
Theorem id_equal_to_device_count_is_accepted opts σ :
  ids opts ≠ [] →
  Forall (λ id, 0 ≤ id) (ids opts) →
  Z.of_nat (deviceCount σ) ∈ ids opts →
  (deviceCount σ < length (gpuStates σ))%nat →
  (∀ id, 0 ≤ id →
     (id <? 0) = false ∧
     (invalid_id (deviceCount σ) id = true ↔ id > Z.of_nat (deviceCount σ))) ∧
  invalid_id (deviceCount σ) (Z.of_nat (deviceCount σ)) = false ∧
  ∃ σ' st',
    mark_managed opts σ = Some (tt, σ') ∧
    gpuStates σ' !! deviceCount σ = Some st' ∧
    managed st' = true.
Proof.
  intros Hne Hpos Hin Hlen. split; [| split].
  - intros id Hid. unfold invalid_id.
    replace (id <? 0) with false by lia. simpl. split; [done | lia].
  - unfold invalid_id.
    replace (Z.of_nat (deviceCount σ) <? 0) with false by lia. simpl. lia.
  - destruct (mark_ids_run (ids opts) σ Hpos Hlen) as (σ' & Hrun & _ & _ & Hk).
    destruct (Hk (deviceCount σ)) as (st & st' & Hst).
    destruct (Hst Hlen) as (H1 & H2 & H3).
    exists σ', st'. split.
    + unfold mark_managed. destruct (ids opts); [done | exact Hrun].
    + split; [done |]. rewrite H3.
      rewrite bool_decide_eq_true_2; [by rewrite orb_true_r | done].
Qed.

(** * The theorems on the scenarios *)

(** With the default threshold of 30, an idle device at level 16 is still
    at level 16 after pass 31 of the monitoring loop, its counter reading
    31; it is at the low level 8 after pass 32. *)
Lemma idle_device_still_high_after_pass_31 :
  iterationsBeforeSwitch default_options = 30 ∧
  gpuStates (idle_run 31) = [mkGpuState 31 16 true false 0 0 0 0] ∧
  gpuStates (idle_run 32) = [mkGpuState 1 8 true false 0 0 0 0].
Proof. by vm_compute. Qed.

Lemma idle_device_switches_low_on_pass_32 :
  ∃ st', gpuStates (idle_run 32) !! 0%nat = Some st' ∧
         pstateId st' = wrap32 (performanceStateLow default_options) ∧
         iterations st' = 1.
Proof.
  apply (idle_device_switches_low_on_pass_threshold_plus_two
           (fake_driver NVAPI_OK 50 0) default_options 0%nat
           (one_device idle_device) idle_device 200 32 (idle_run 32)).
  - simpl. lia.
  - reflexivity.
  - reflexivity.
  - reflexivity.
  - discriminate.
  - reflexivity.
  - discriminate.
  - reflexivity.
  - intros hist. discriminate.
  - intros hist. reflexivity.
  - vm_compute. reflexivity.
  - reflexivity.
Defined.

(** C2, the failing input: one managed device that NVML reports on bus 5
    and NVAPI on bus 7.  Bus 5 is absent from the bus ids of NVAPI, and yet
    the sorting of the handles answers success: no fatal error is raised
    and the device is passed over in silence.  The slot of the device in
    [nvapiDevices] then holds the indeterminate content of the
    uninitialised local array, and the [INIT] block hands it to
    [NvAPI_GPU_SetForcePstate]: from there on the run has no defined
    behaviour, whatever the number of passes. *)
Theorem unmatched_device_raises_no_error :
  ∃ σ1 σ',
    read_identifiers (fake_driver NVAPI_OK 50 0) [0%nat] mismatched =
      Some (Some ([5], [7]), σ1) ∧
    (5 ∉ [7]) ∧
    sort_nvapi_handles (fake_driver NVAPI_OK 50 0) mismatched =
      Some (true, σ') ∧
    nvapiDevices σ' !! 0%nat = Some None ∧
    init (fake_driver NVAPI_OK 50 0) default_options σ' = None ∧
    ∀ n, run (fake_driver NVAPI_OK 50 0) default_options n mismatched = None.
Proof.
  eexists _, _. split; [by vm_compute |]. split.
  { intros H. apply list_elem_of_singleton in H. discriminate H. }
  split; [by vm_compute |]. split; [by vm_compute |].
  split; [by vm_compute |].
  intros n. unfold run.
  erewrite bind_eq by (vm_compute; reflexivity).
  cbn [negb].
  match goal with
  | |- (init ?d ?o ≫= ?k) ?σ = None =>
    assert (init d o σ = None) as Hinit by (by vm_compute)
  end.
  unfold mbind, M_bind. by rewrite Hinit.
Qed.

Lemma thermal_ceiling_forces_low_witness :
  ∃ σ' st',
    tick_device (fake_driver NVAPI_OK 85 0) default_options 0
      (one_device hot_device) = Some (true, σ') ∧
    calls σ' = [CallGetTemperature 200; CallSetForcePstate 100 8 0] ∧
    gpuStates σ' !! 0%nat = Some st' ∧
    pstateId st' = 8 ∧ iterations st' = 0 ∧
    ∃ σ'' st'',
      tick (fake_driver NVAPI_OK 85 0) default_options
        (one_device hot_device) = Some (true, σ'') ∧
      gpuStates σ'' !! 0%nat = Some st'' ∧
      pstateId st'' = 8.
Proof.
  destruct (thermal_ceiling_forces_low (fake_driver NVAPI_OK 85 0)
              default_options 0%nat (one_device hot_device) hot_device
              200 100)
    as [(r & σ' & new & Hrun & _ & _ & _ & _ & Hnative & _) [_ Hpass]];
    try reflexivity.
  { vm_compute. split; [discriminate | reflexivity]. }
  destruct Hnative as [-> ->];
    [discriminate | reflexivity | reflexivity |].
  eexists _, _. split; [exact Hrun |].
  split; [reflexivity |]. split; [reflexivity |].
  split; [reflexivity |]. split; [reflexivity |].
  apply Hpass.
  - simpl. lia.
  - intros hist. reflexivity.
  - intros [|j] Hj; [| simpl in Hj; lia].
    split; [by eexists |]. split; [by eexists | by eexists].
  - intros hist dj. reflexivity.
  - intros hist dj. reflexivity.
  - intros hist hj p f. reflexivity.
  - intros hist dj. reflexivity.
  - intros hist dj m g. reflexivity.
Defined.

Lemma clock_control_is_permanent_witness :
  ∃ r σ' new,
    enter_pstate (fake_driver 1 50 5) 0 16 0 0 0 0
      (one_device clocked_device) = Some (r, σ') ∧
    calls σ' = new ∧
    count_calls is_SetForcePstate new = 0%nat.
Proof.
  destruct (clock_control_is_permanent (fake_driver 1 50 5) 0%nat
              (one_device clocked_device) clocked_device 200
              eq_refl eq_refl eq_refl) as [Hcall _].
  destruct (Hcall 16 0 0 0 0) as (r & σ' & st' & new & H1 & _ & _ & _ & H2 & H3 & _).
  exists r, σ', new. split; [exact H1 |]. split; [exact H2 | exact H3].
Defined.



(** Scenario A: threshold 80, temperature 85, a managed device at level 16
    with a counter of five.  The round forces the low level, and the
    counter reads zero afterwards, not five. *)
Lemma thermal_forced_low_changes_counter :
  ∃ σ' st',
    temperatureThreshold default_options = 80 ∧
    tick_device (fake_driver NVAPI_OK 85 0) default_options 0
      (one_device hot_device) = Some (true, σ') ∧
    gpuStates σ' !! 0%nat = Some st' ∧
    pstateId st' = performanceStateLow default_options ∧
    iterations hot_device = 5 ∧
    iterations st' = 0 ∧
    iterations st' ≠ iterations hot_device.
Proof. eexists _, _. by vm_compute. Qed.

Lemma thermal_forced_low_resets_counter_witness :
  ∃ r σ',
    tick_device (fake_driver NVAPI_OK 85 0) default_options 0
      (one_device hot_device) = Some (r, σ') ∧
    (r = true →
     ∃ st', gpuStates σ' !! 0%nat = Some st' ∧
       pstateId st' = wrap32 (performanceStateLow default_options) ∧
       iterations st' = 0).
Proof.
  apply (thermal_forced_low_resets_counter (fake_driver NVAPI_OK 85 0)
           default_options 0%nat (one_device hot_device) hot_device 200 100);
    try reflexivity.
  by vm_compute.
Defined.

(** With the high level configured as 0, the exit phase still requests
    level 16 for a managed device that is not under clock control, and the
    record holds 16 afterwards. *)
Lemma exit_phase_ignores_configured_high_level :
  ∃ σ' st',
    performanceStateHigh high_is_P0 = 0 ∧
    exit_device (fake_driver NVAPI_OK 50 0) high_is_P0 0
      (one_device low_device) = Some (true, σ') ∧
    calls σ' = [CallSetForcePstate 100 16 0] ∧
    gpuStates σ' !! 0%nat = Some st' ∧
    pstateId st' = 16 ∧
    pstateId st' ≠ performanceStateHigh high_is_P0.
Proof. eexists _, _. by vm_compute. Qed.

Lemma exit_phase_defaults_witness :
  ∃ r σ' new,
    exit_device (fake_driver NVAPI_OK 50 0) high_is_P0 0
      (one_device low_device) = Some (r, σ') ∧
    calls σ' = new.
Proof.
  destruct (exit_phase_defaults (fake_driver NVAPI_OK 50 0) high_is_P0 0%nat
              (one_device low_device) low_device 200 100
              eq_refl eq_refl eq_refl)
    as [(r & σ' & new & H1 & H2 & _) _].
  exists r, σ', new. split; [exact H1 | exact H2].
Defined.

Lemma reconciliation_is_a_bijection_witness :
  (∀ j, (j < 3)%nat →
     ∃ i, (i < 3)%nat ∧ matched_index [3; 1; 2] [1; 2; 3] i = Some j) ∧
  matched_index [3; 1; 2] [1; 2; 3] 0 = Some 2%nat ∧
  matched_index [3; 1; 2] [1; 2; 3] 1 = Some 0%nat ∧
  matched_index [3; 1; 2] [1; 2; 3] 2 = Some 1%nat.
Proof.
  split; [| by vm_compute].
  apply (reconciliation_is_a_bijection [3; 1; 2] [1; 2; 3]
           [Some 0; Some 1; Some 2] 3).
  - reflexivity.
  - reflexivity.
  - vm_compute. lia.
  - apply (bool_decide_unpack (NoDup [3; 1; 2])). reflexivity.
  - intros x Hx.
    repeat (apply elem_of_cons in Hx as [->|Hx]);
      [ apply (bool_decide_unpack (3 ∈ [1; 2; 3])); reflexivity
      | apply (bool_decide_unpack (1 ∈ [1; 2; 3])); reflexivity
      | apply (bool_decide_unpack (2 ∈ [1; 2; 3])); reflexivity
      | by apply elem_of_nil in Hx ].
Defined.

Lemma id_equal_to_device_count_is_accepted_witness :
  ∃ σ' st',
    mark_managed id_one one_enumerated = Some (tt, σ') ∧
    gpuStates σ' !! deviceCount one_enumerated = Some st' ∧
    managed st' = true.
Proof.
  apply (id_equal_to_device_count_is_accepted id_one one_enumerated).
  - discriminate.
  - repeat constructor. simpl. lia.
  - simpl. by left.
  - vm_compute. lia.
Defined.

(** * Further properties of the control operations *)

(** X1: a successful [get_supported_clocks] on a managed device stores
    true minima: [minMemClock] is one of the memory clocks the library
    reported and no reported memory clock is below it, and [minGpuClock] is
    the same for the core clocks reported for that memory clock; no other
    field of the record changes. *)
Theorem get_supported_clocks_stores_minima drv i σ σ' st d :
  gpuStates σ !! i = Some st →
  managed st = true →
  nvmlDevices σ !! i = Some d →
  get_supported_clocks drv i σ = Some (true, σ') →
  ∃ st',
    gpuStates σ' !! i = Some st' ∧
    st' = set_minGpuClock (minGpuClock st') (set_minMemClock (minMemClock st') st) ∧
    let mems := snd (drv_GetSupportedMemoryClocks drv (calls σ) d) in
    let gpus :=
      snd (drv_GetSupportedGraphicsClocks drv
             (calls σ ++ [CallGetSupportedMemoryClocks d]) d
             (minMemClock st')) in
    minMemClock st' ∈ mems ∧ (∀ x, x ∈ mems → minMemClock st' ≤ x) ∧
    minGpuClock st' ∈ gpus ∧ (∀ x, x ∈ gpus → minGpuClock st' ≤ x).
Proof.
  intros Hst Hm Hd.
  assert (i < length (gpuStates σ))%nat as Hi by (eapply lookup_lt_Some, Hst).
  unfold get_supported_clocks.
  rewrite (bind_eq _ _ _ _ _ (get_state_eq _ _ _ Hst)). rewrite Hm. simpl.
  rewrite (bind_eq _ _ _ _ _ (get_nvmlDevice_eq _ _ _ Hd)).
  unfold nvmlDeviceGetSupportedMemoryClocks.
  erewrite bind_eq by reflexivity.
  destruct (drv_GetSupportedMemoryClocks drv (calls σ) d) as [r1 mems] eqn:Hq1.
  simpl. destruct (r1 =? NVML_SUCCESS); simpl;
    [| intros H; apply ret_inv in H as [H _]; discriminate H].
  destruct mems as [|m ms];
    [intros H; apply ret_inv in H as [H _]; discriminate H |].
  erewrite bind_eq; cycle 1.
  { apply modify_state_eq. exact Hst. }
  unfold nvmlDeviceGetSupportedGraphicsClocks.
  erewrite bind_eq by reflexivity. simpl.
  destruct (drv_GetSupportedGraphicsClocks drv _ d (lowest_clock m ms))
    as [r2 gpus] eqn:Hq2.
  simpl. destruct (r2 =? NVML_SUCCESS); simpl;
    [| intros H; apply ret_inv in H as [H _]; discriminate H].
  destruct gpus as [|g gs];
    [intros H; apply ret_inv in H as [H _]; discriminate H |].
  erewrite bind_eq; cycle 1.
  { apply modify_state_eq. simpl. by apply list_lookup_insert_eq. }
  intros H. apply ret_inv in H as [_ ->]. simpl.
  eexists. split; [apply list_lookup_insert_eq; by rewrite length_insert |].
  simpl. split; [done |]. rewrite Hq2. simpl.
  split; [apply lowest_clock_elem |]. split; [apply lowest_clock_le |].
  split; [apply lowest_clock_elem | apply lowest_clock_le].
Qed.

(** X2: when the memory-clock query of [get_supported_clocks] fails or
    reports no clock, the function answers failure.  The query is the first
    thing it asks of the library, no level or clock operation follows it,
    so that the core clocks are not queried, and nothing but the log
    changes: every record is as before. *)
Theorem get_supported_clocks_memory_query_fails drv i σ st d :
  gpuStates σ !! i = Some st →
  managed st = true →
  nvmlDevices σ !! i = Some d →
  fst (drv_GetSupportedMemoryClocks drv (calls σ) d) ≠ NVML_SUCCESS ∨
  snd (drv_GetSupportedMemoryClocks drv (calls σ) d) = [] →
  ∃ σ' rest,
    get_supported_clocks drv i σ = Some (false, σ') ∧
    σ' = with_calls (calls σ') σ ∧
    calls σ' = calls σ ++ CallGetSupportedMemoryClocks d :: rest ∧
    count_calls is_control rest = 0%nat.
Proof.
  intros Hst Hm Hd Hfail.
  exists (with_calls (calls σ ++ [CallGetSupportedMemoryClocks d]) σ), [].
  split; [| done].
  unfold get_supported_clocks.
  rewrite (bind_eq _ _ _ _ _ (get_state_eq _ _ _ Hst)). rewrite Hm. simpl.
  rewrite (bind_eq _ _ _ _ _ (get_nvmlDevice_eq _ _ _ Hd)).
  unfold nvmlDeviceGetSupportedMemoryClocks.
  erewrite bind_eq by reflexivity.
  destruct (drv_GetSupportedMemoryClocks drv (calls σ) d) as [r1 mems].
  simpl in *. destruct (r1 =? NVML_SUCCESS) eqn:Hr; simpl; [| done].
  destruct Hfail as [Hne| ->]; [| done].
  apply Z.eqb_eq in Hr. done.
Qed.

(** X3: when the memory-clock query succeeds and the core-clock query
    fails or reports no clock, [get_supported_clocks] answers failure, but
    [minMemClock] has been overwritten with the new minimum by then;
    [minGpuClock] and the other fields keep their values. *)
Theorem get_supported_clocks_core_query_fails drv i σ st d m ms :
  gpuStates σ !! i = Some st →
  managed st = true →
  nvmlDevices σ !! i = Some d →
  drv_GetSupportedMemoryClocks drv (calls σ) d = (NVML_SUCCESS, m :: ms) →
  let query := CallGetSupportedGraphicsClocks d (lowest_clock m ms) in
  let reply :=
    drv_GetSupportedGraphicsClocks drv
      (calls σ ++ [CallGetSupportedMemoryClocks d]) d (lowest_clock m ms) in
  fst reply ≠ NVML_SUCCESS ∨ snd reply = [] →
  get_supported_clocks drv i σ =
  Some (false,
        update_device i (set_minMemClock (lowest_clock m ms) st)
          [CallGetSupportedMemoryClocks d; query] σ).
Proof.
  intros Hst Hm Hd Hq1 query reply Hfail. subst query reply.
  unfold get_supported_clocks.
  rewrite (bind_eq _ _ _ _ _ (get_state_eq _ _ _ Hst)). rewrite Hm. simpl.
  rewrite (bind_eq _ _ _ _ _ (get_nvmlDevice_eq _ _ _ Hd)).
  unfold nvmlDeviceGetSupportedMemoryClocks.
  erewrite bind_eq by reflexivity. rewrite Hq1. simpl.
  erewrite bind_eq; cycle 1.
  { apply modify_state_eq. exact Hst. }
  unfold nvmlDeviceGetSupportedGraphicsClocks.
  erewrite bind_eq by reflexivity. simpl.
  destruct (drv_GetSupportedGraphicsClocks drv _ d (lowest_clock m ms))
    as [r2 gpus].
  simpl in *. unfold update_device. rewrite <- app_assoc. simpl.
  destruct (r2 =? NVML_SUCCESS) eqn:Hr; simpl; [| done].
  destruct Hfail as [Hne| ->]; [| done].
  apply Z.eqb_eq in Hr. done.
Qed.

Section MoreOperationLemmas.
Variable drv : Driver.

(** A level request for a managed device that is not under clock control
    starts with the native call. *)
Lemma enter_pstate_native_first_call i p a b c e σ st h r σ' :
  gpuStates σ !! i = Some st →
  managed st = true →
  usingClockControl st = false →
  nvapiDevices σ !! i = Some (Some h) →
  enter_pstate drv i p a b c e σ = Some (r, σ') →
  ∃ rest, calls σ' = calls σ ++ CallSetForcePstate h p 0 :: rest.
Proof.
  intros Hst Hm Hu Hh. unfold enter_pstate.
  rewrite (bind_eq _ _ _ _ _ (get_state_eq _ _ _ Hst)).
  rewrite Hm, Hu. simpl.
  rewrite (bind_eq _ _ _ _ _ (get_nvapiDevice_eq _ _ _ Hh)).
  unfold NvAPI_GPU_SetForcePstate.
  erewrite bind_eq by reflexivity.
  remember (with_calls _ σ) as σ1 eqn:Hσ1. intros Hrun.
  assert (appends (λ c, is_control c = true) σ1 σ') as (n & Hn & _).
  { revert Hrun. intros H. minv;
      repeat match goal with
      | H : set_clocks _ _ _ _ _ _ _ _ = Some _ |- _ =>
        apply set_clocks_appends in H
      | H : get_supported_clocks _ _ _ = Some _ |- _ =>
        apply get_supported_clocks_appends in H
      end;
      appends_tac. }
  exists n. rewrite Hn, Hσ1. simpl. by rewrite <- app_assoc.
Qed.

End MoreOperationLemmas.

(** X4: for a managed device [set_clocks] asks the library for the reset
    to automatic clocks when high performance is requested with both high
    clocks 0, and otherwise for explicit clocks: the high clocks for high
    performance, else the low clocks, the cached minimum taking the place
    of a low clock that is 0.  It answers what the library answered.  A
    refused request leaves the record as it was; an accepted one stores the
    clocks asked for in the two current-clock fields, zero standing for
    automatic clocks.  No other field, record or global changes. *)
Theorem set_clocks_changes_current_clocks_only drv i hp a b c e σ st d :
  gpuStates σ !! i = Some st →
  managed st = true →
  nvmlDevices σ !! i = Some d →
  let auto := hp && (a =? 0) && (b =? 0) in
  let memClock :=
    wrap32 (if hp then a else if c >? 0 then c else minMemClock st) in
  let gpuClock :=
    wrap32 (if hp then b else if e >? 0 then e else minGpuClock st) in
  let request :=
    if auto then CallResetApplicationsClocks d
    else CallSetApplicationsClocks d memClock gpuClock in
  let reply :=
    if auto then drv_ResetApplicationsClocks drv (calls σ) d
    else drv_SetApplicationsClocks drv (calls σ) d memClock gpuClock in
  let accepted := reply =? NVML_SUCCESS in
  set_clocks drv i hp a b c e σ =
  Some (accepted,
        update_device i
          (if accepted
           then set_currentGpuClock (if auto then 0 else gpuClock)
                  (set_currentMemClock (if auto then 0 else memClock) st)
           else st)
          [request] σ).
Proof.
  intros Hst Hm Hd auto memClock gpuClock request reply accepted.
  pose proof (set_clocks_run drv i hp a b c e σ st d Hst Hm Hd) as Hrun.
  cbv zeta in Hrun. rewrite Hrun. clear Hrun.
  unfold clock_reply, clock_call, clocked, chosen_memClock, chosen_gpuClock,
    resets_to_auto.
  fold auto memClock gpuClock.
  subst accepted reply request.
  destruct auto.
  - destruct (_ =? NVML_SUCCESS); [done |].
    unfold update_device, with_calls. by rewrite list_insert_id.
  - destruct (_ =? NVML_SUCCESS); [done |].
    unfold update_device, with_calls. by rewrite list_insert_id.
Qed.

(** X5: with the fallback disabled, a refused level request for a managed
    device that is not under clock control is a failure of [enter_pstate].
    The refused request is the first thing it asks of the library, no level
    or clock operation follows it, so that no clock is queried or set, and
    nothing but the log changes: the device is not put under clock
    control. *)
Theorem enter_pstate_without_fallback_fails drv i p a b c e σ st h :
  gpuStates σ !! i = Some st →
  managed st = true →
  usingClockControl st = false →
  nvapiDevices σ !! i = Some (Some h) →
  enableClockFallback σ = false →
  drv_SetForcePstate drv (calls σ) h p 0 ≠ NVAPI_OK →
  ∃ σ' rest,
    enter_pstate drv i p a b c e σ = Some (false, σ') ∧
    σ' = with_calls (calls σ') σ ∧
    calls σ' = calls σ ++ CallSetForcePstate h p 0 :: rest ∧
    count_calls is_control rest = 0%nat.
Proof.
  intros Hst Hm Hu Hh Hfb Hfail. apply Z.eqb_neq in Hfail.
  exists (with_calls (calls σ ++ [CallSetForcePstate h p 0]) σ), [].
  split; [| done].
  unfold enter_pstate, NvAPI_GPU_SetForcePstate. mred.
  rewrite Hst. simpl. rewrite Hm, Hu. simpl. rewrite Hh. simpl.
  rewrite Hfail. simpl. by rewrite Hfb.
Qed.

(** X6: with the fallback enabled, when the level request is refused and
    the memory clocks cannot be queried either, [enter_pstate] fails and
    the device is not put under clock control: its record is as before, so
    that the next request tries the level request again. *)
Theorem enter_pstate_stays_native_when_query_fails drv i p a b c e σ st h d :
  gpuStates σ !! i = Some st →
  managed st = true →
  usingClockControl st = false →
  nvapiDevices σ !! i = Some (Some h) →
  nvmlDevices σ !! i = Some d →
  enableClockFallback σ = true →
  drv_SetForcePstate drv (calls σ) h p 0 ≠ NVAPI_OK →
  let reply :=
    drv_GetSupportedMemoryClocks drv
      (calls σ ++ [CallSetForcePstate h p 0]) d in
  fst reply ≠ NVML_SUCCESS ∨ snd reply = [] →
  ∃ σ',
    enter_pstate drv i p a b c e σ = Some (false, σ') ∧
    gpuStates σ' = gpuStates σ ∧
    calls σ' =
      calls σ ++ [CallSetForcePstate h p 0; CallGetSupportedMemoryClocks d] ∧
    ∃ r σ'' rest,
      enter_pstate drv i p a b c e σ' = Some (r, σ'') ∧
      calls σ'' = calls σ' ++ CallSetForcePstate h p 0 :: rest.
Proof.
  intros Hst Hm Hu Hh Hd Hfb Hfail reply Hq. subst reply.
  apply Z.eqb_neq in Hfail.
  set (σ' := with_calls
               (calls σ ++
                [CallSetForcePstate h p 0; CallGetSupportedMemoryClocks d]) σ).
  exists σ'. split.
  { unfold enter_pstate, NvAPI_GPU_SetForcePstate.
    rewrite (bind_eq _ _ _ _ _ (get_state_eq _ _ _ Hst)).
    rewrite Hm, Hu. simpl.
    rewrite (bind_eq _ _ _ _ _ (get_nvapiDevice_eq _ _ _ Hh)).
    erewrite bind_eq by reflexivity. rewrite Hfail. simpl.
    erewrite bind_eq by reflexivity. simpl. rewrite Hfb.
    unfold get_supported_clocks, nvmlDeviceGetSupportedMemoryClocks. mred.
    rewrite Hst. simpl. rewrite Hm. simpl. rewrite Hd. simpl.
    destruct (drv_GetSupportedMemoryClocks drv _ d) as [r1 mems].
    simpl in Hq. unfold σ'. rewrite <- app_assoc. simpl.
    destruct (r1 =? NVML_SUCCESS) eqn:Hr; simpl; [| reflexivity].
    destruct Hq as [Hne| ->]; [| reflexivity].
    apply Z.eqb_eq in Hr. done. }
  split; [done |]. split; [done |].
  destruct (enter_pstate_total drv i p a b c e σ') as (r & σ'' & Hrun);
    [by exists st | by exists d | by exists h |].
  destruct (enter_pstate_native_first_call drv i p a b c e σ' st h r σ''
              Hst Hm Hu Hh Hrun) as (rest & Hrest).
  by exists r, σ'', rest.
Qed.

(** X7: with the fallback enabled, when the level request is refused, the
    clocks are queried, and the clock request that follows is refused,
    [enter_pstate] fails with the device already under clock control: the
    flag and the two minima are stored, while the level and the counter of
    the record keep their old values. *)
Theorem enter_pstate_fails_under_clock_control
    drv i p a b c e σ st h d m ms g gs :
  gpuStates σ !! i = Some st →
  managed st = true →
  usingClockControl st = false →
  nvapiDevices σ !! i = Some (Some h) →
  nvmlDevices σ !! i = Some d →
  enableClockFallback σ = true →
  drv_SetForcePstate drv (calls σ) h p 0 ≠ NVAPI_OK →
  let hist1 := calls σ ++ [CallSetForcePstate h p 0] in
  drv_GetSupportedMemoryClocks drv hist1 d = (NVML_SUCCESS, m :: ms) →
  let hist2 := hist1 ++ [CallGetSupportedMemoryClocks d] in
  drv_GetSupportedGraphicsClocks drv hist2 d (lowest_clock m ms) =
    (NVML_SUCCESS, g :: gs) →
  let hist3 :=
    hist2 ++ [CallGetSupportedGraphicsClocks d (lowest_clock m ms)] in
  let st1 :=
    set_usingClockControl true
      (set_minGpuClock (lowest_clock g gs)
         (set_minMemClock (lowest_clock m ms) st)) in
  let hp := p =? PERFORMANCE_STATE_HIGH in
  clock_reply drv hist3 d hp a b c e st1 ≠ NVML_SUCCESS →
  ∃ σ',
    enter_pstate drv i p a b c e σ = Some (false, σ') ∧
    gpuStates σ' !! i = Some st1 ∧
    usingClockControl st1 = true ∧
    pstateId st1 = pstateId st ∧ iterations st1 = iterations st.
Proof.
  intros Hst Hm Hu Hh Hd Hfb Hfail hist1 Hmem hist2 Hgpu hist3 st1 hp Hclk.
  assert (i < length (gpuStates σ))%nat as Hi by (eapply lookup_lt_Some, Hst).
  apply Z.eqb_neq in Hfail. apply Z.eqb_neq in Hclk.
  eexists. split; [| split; [| by repeat split]].
  - unfold enter_pstate.
    rewrite (bind_eq _ _ _ _ _ (get_state_eq _ _ _ Hst)).
    rewrite Hm, Hu. simpl.
    rewrite (bind_eq _ _ _ _ _ (get_nvapiDevice_eq _ _ _ Hh)).
    unfold NvAPI_GPU_SetForcePstate.
    erewrite bind_eq by reflexivity. rewrite Hfail. simpl.
    erewrite bind_eq by reflexivity. simpl. rewrite Hfb.
    erewrite bind_eq; cycle 1.
    { eapply get_supported_clocks_run; simpl; eauto. }
    simpl.
    erewrite bind_eq; cycle 1.
    { apply modify_state_eq. by apply update_device_lookup. }
    erewrite bind_eq; cycle 1.
    { eapply set_clocks_run with (st := st1); simpl; eauto.
      apply list_lookup_insert_eq. by rewrite length_insert. }
    simpl. rewrite <- !app_assoc. simpl.
    change (calls σ ++ [CallSetForcePstate h p 0; CallGetSupportedMemoryClocks d;
              CallGetSupportedGraphicsClocks d (lowest_clock m ms)])
      with (calls σ ++ [CallSetForcePstate h p 0] ++
              [CallGetSupportedMemoryClocks d] ++
              [CallGetSupportedGraphicsClocks d (lowest_clock m ms)]).
    rewrite !app_assoc. fold hist1. fold hist2. fold hist3. fold hp.
    rewrite Hclk. simpl. reflexivity.
  - simpl. rewrite list_insert_insert_eq.
    by apply list_lookup_insert_eq.
Qed.

(** X8: under clock control the clocks depend on the requested level only
    through its being 16 or not.  Two requests for levels other than 16,
    the configured high level among them when it is not 16, issue the same
    call: the low clocks, or the cached minima where a low clock is 0. *)
Theorem clock_control_treats_only_16_as_high drv i p q a b c e σ st d :
  gpuStates σ !! i = Some st →
  managed st = true →
  usingClockControl st = true →
  nvmlDevices σ !! i = Some d →
  p ≠ PERFORMANCE_STATE_HIGH →
  q ≠ PERFORMANCE_STATE_HIGH →
  let low_call :=
    CallSetApplicationsClocks d
      (wrap32 (if c >? 0 then c else minMemClock st))
      (wrap32 (if e >? 0 then e else minGpuClock st)) in
  ∃ r1 σ1 r2 σ2,
    enter_pstate drv i p a b c e σ = Some (r1, σ1) ∧
    enter_pstate drv i q a b c e σ = Some (r2, σ2) ∧
    calls σ1 = calls σ ++ [low_call] ∧
    calls σ2 = calls σ ++ [low_call].
Proof.
  intros Hst Hm Hu Hd Hp Hq low_call. subst low_call.
  pose proof (enter_pstate_override_run drv i p a b c e σ st d Hst Hm Hu Hd)
    as H1.
  pose proof (enter_pstate_override_run drv i q a b c e σ st d Hst Hm Hu Hd)
    as H2.
  simpl in H1, H2.
  apply Z.eqb_neq in Hp, Hq. rewrite Hp in H1. rewrite Hq in H2.
  eexists _, _, _, _. split; [exact H1 |]. split; [exact H2 |].
  unfold clock_call, resets_to_auto, chosen_memClock, chosen_gpuClock. simpl.
  split.
  - destruct (clock_reply drv (calls σ) d false a b c e st =? NVML_SUCCESS);
      reflexivity.
  - destruct (clock_reply drv (calls σ) d false a b c e st =? NVML_SUCCESS);
      reflexivity.
Qed.

(** X9: [enter_pstate] does not skip a request for the level the record
    already holds: for a managed device every request reaches the library,
    with the native call when the device is not under clock control and
    with the clock request when it is. *)
Theorem enter_pstate_always_calls_the_library drv i p a b c e σ st h d :
  gpuStates σ !! i = Some st →
  managed st = true →
  nvapiDevices σ !! i = Some (Some h) →
  nvmlDevices σ !! i = Some d →
  ∃ r σ' rest,
    enter_pstate drv i p a b c e σ = Some (r, σ') ∧
    calls σ' =
      calls σ ++
      (if usingClockControl st
       then clock_call d (p =? PERFORMANCE_STATE_HIGH) a b c e st
       else CallSetForcePstate h p 0) :: rest.
Proof.
  intros Hst Hm Hh Hd.
  destruct (enter_pstate_total drv i p a b c e σ) as (r & σ' & Hrun);
    [by exists st | by exists d | by exists h |].
  exists r, σ'.
  destruct (usingClockControl st) eqn:Hu.
  - pose proof (enter_pstate_override_run drv i p a b c e σ st d Hst Hm Hu Hd)
      as H1.
    simpl in H1. rewrite H1 in Hrun. injection Hrun as <- <-.
    exists []. split; [done |].
    by destruct (clock_reply drv (calls σ) d _ a b c e st =? NVML_SUCCESS).
  - destruct (enter_pstate_native_first_call drv i p a b c e σ st h r σ'
                Hst Hm Hu Hh Hrun) as (rest & Hrest).
    by exists rest.
Qed.

(** * Further properties of the monitoring loop *)

Section MoreLoopLemmas.
Variable drv : Driver.
Variable opts : Options.

(** The round of an idle, cool device at the low level changes no
    record. *)
Lemma tick_device_idle_low i σ σ' st d :
  gpuStates σ !! i = Some st →
  nvmlDevices σ !! i = Some d →
  pstateId st = performanceStateLow opts →
  snd (drv_GetTemperature drv (calls σ) d) ≤ temperatureThreshold opts →
  gpu (snd (drv_GetUtilizationRates drv
              (calls σ ++ [CallGetTemperature d]) d)) = 0 →
  tick_device drv opts i σ = Some (true, σ') →
  gpuStates σ' = gpuStates σ ∧
  calls σ' = calls σ ++ [CallGetTemperature d; CallGetUtilizationRates d].
Proof.
  intros Hst Hd Hlow Ht Hu.
  unfold tick_device.
  rewrite (bind_eq _ _ _ _ _ (get_nvmlDevice_eq _ _ _ Hd)).
  unfold nvmlDeviceGetTemperature. erewrite bind_eq by reflexivity.
  destruct (drv_GetTemperature drv (calls σ) d) as [res t]. simpl in *.
  destruct (NVML_CALL_failed res); simpl;
    [intros H; apply ret_inv in H as [H _]; discriminate H |].
  replace (t >? temperatureThreshold opts) with false by lia.
  unfold nvmlDeviceGetUtilizationRates. erewrite bind_eq by reflexivity.
  simpl.
  destruct (drv_GetUtilizationRates drv _ d) as [res2 u]. simpl in *.
  destruct (NVML_CALL_failed res2); simpl;
    [intros H; apply ret_inv in H as [H _]; discriminate H |].
  erewrite bind_eq by (apply get_state_eq; exact Hst).
  rewrite Hu, Hlow. simpl. rewrite Z.eqb_refl. simpl.
  intros H. apply ret_inv in H as [_ ->]. simpl.
  by rewrite <- app_assoc.
Qed.

Lemma tick_idle_low i σ σ' st d :
  (i < deviceCount σ)%nat →
  gpuStates σ !! i = Some st →
  nvmlDevices σ !! i = Some d →
  pstateId st = performanceStateLow opts →
  (∀ hist, snd (drv_GetTemperature drv hist d) ≤ temperatureThreshold opts) →
  (∀ hist, gpu (snd (drv_GetUtilizationRates drv hist d)) = 0) →
  tick drv opts σ = Some (true, σ') →
  deviceCount σ' = deviceCount σ ∧
  nvmlDevices σ' !! i = Some d ∧
  gpuStates σ' !! i = Some st.
Proof.
  intros Hi Hst Hd Hlow Ht Hu H.
  unfold tick, for_devices in H.
  apply bind_inv in H as (n & σ0 & Hn & H).
  apply get_deviceCount_inv in Hn as [-> ->].
  destruct (for_each_focus _ _ i _ _ (tick_device_evolves drv opts) Hi H)
    as (σa & σb & Ha & Hbody & Hb).
  destruct (tick_device_idle_low i σa σb st d) as (Hsame & _); auto.
  - by rewrite (os_state _ _ _ Ha).
  - by rewrite (os_nvmlDevices _ _ _ Ha).
  - apply tick_device_evolves in Hbody.
    split; [| split].
    + rewrite (os_deviceCount _ _ _ Hb), (ev_deviceCount _ _ _ Hbody).
      apply (os_deviceCount _ _ _ Ha).
    + rewrite (os_nvmlDevices _ _ _ Hb), (ev_nvmlDevices _ _ _ Hbody),
        (os_nvmlDevices _ _ _ Ha). done.
    + rewrite (os_state _ _ _ Hb), Hsame, (os_state _ _ _ Ha). done.
Qed.

(** A loop over the indices stops at the first round that fails. *)
Lemma for_each_stops (body : nat → M bool) l1 i l2 σ σa σb :
  for_each l1 body σ = Some (true, σa) →
  body i σa = Some (false, σb) →
  for_each (l1 ++ i :: l2) body σ = Some (false, σb).
Proof.
  revert σ. induction l1 as [|j l1 IH]; intros σ H1 Hi; simpl in *.
  - apply ret_inv in H1 as [_ ->]. by rewrite (bind_eq _ _ _ _ _ Hi).
  - apply bind_inv in H1 as (ok & σ1 & Hj & H1).
    rewrite (bind_eq _ _ _ _ _ Hj).
    destruct ok; [by apply IH |].
    apply ret_inv in H1 as [H1 _]. discriminate H1.
Qed.

End MoreLoopLemmas.

(** X10: a busy sample under the thermal ceiling ends the idle streak of
    a managed device: when the round completes, the device is at the high
    level with a counter of zero.  If it was at the high level already,
    the round always completes and calls nothing but the two sensor reads.
    The high level is taken to fit the [unsigned int] parameter of
    [enter_pstate]. *)
Theorem busy_sample_resets_hysteresis drv opts i σ st d h t u :
  gpuStates σ !! i = Some st →
  managed st = true →
  nvmlDevices σ !! i = Some d →
  nvapiDevices σ !! i = Some (Some h) →
  0 ≤ performanceStateHigh opts < 2 ^ 32 →
  drv_GetTemperature drv (calls σ) d = (NVML_SUCCESS, t) →
  t ≤ temperatureThreshold opts →
  drv_GetUtilizationRates drv (calls σ ++ [CallGetTemperature d]) d =
    (NVML_SUCCESS, u) →
  gpu u ≠ 0 →
  ∃ r σ',
    tick_device drv opts i σ = Some (r, σ') ∧
    (r = true →
     ∃ st', gpuStates σ' !! i = Some st' ∧
            pstateId st' = performanceStateHigh opts ∧ iterations st' = 0) ∧
    (pstateId st = performanceStateHigh opts →
     r = true ∧
     σ' = update_device i (set_iterations 0 st)
            [CallGetTemperature d; CallGetUtilizationRates d] σ).
Proof.
  intros Hst Hm Hd Hh Hrange Ht Hcool Hu Hbusy.
  assert (i < length (gpuStates σ))%nat as Hi by (eapply lookup_lt_Some, Hst).
  assert (wrap32 (performanceStateHigh opts) = performanceStateHigh opts)
    as Hw by (unfold wrap32; apply Z.mod_small; lia).
  unfold tick_device.
  rewrite (bind_eq _ _ _ _ _ (get_nvmlDevice_eq _ _ _ Hd)).
  unfold nvmlDeviceGetTemperature. erewrite bind_eq by reflexivity.
  rewrite Ht. simpl.
  replace (t >? temperatureThreshold opts) with false by lia.
  unfold nvmlDeviceGetUtilizationRates. erewrite bind_eq by reflexivity.
  simpl. rewrite Hu. simpl.
  set (σ2 := with_calls _ (with_calls _ σ)).
  rewrite (bind_eq _ _ _ _ _ (get_state_eq i σ2 st Hst)).
  apply Z.eqb_neq in Hbusy. rewrite Hbusy. simpl.
  destruct (pstateId st =? performanceStateHigh opts) eqn:Hhigh; simpl.
  - erewrite bind_eq by (apply modify_state_eq; exact Hst).
    eexists true, _. split; [reflexivity |]. split.
    + intros _. eexists. split; [simpl; by apply list_lookup_insert_eq |].
      simpl. apply Z.eqb_eq in Hhigh. done.
    + intros _. split; [done |].
      unfold update_device, σ2. simpl. by rewrite <- app_assoc.
  - destruct (enter_pstate_total drv i (wrap32 (performanceStateHigh opts))
                (clockFreqMemHigh opts) (clockFreqGpuHigh opts)
                (clockFreqMemLow opts) (clockFreqGpuLow opts) σ2)
      as (r & σ' & Hrun); [by exists st | by exists d | by exists h |].
    exists r, σ'. unfold enter_high. split; [done |]. split.
    + intros ->.
      destruct (enter_pstate_success _ _ _ _ _ _ _ _ _ _ Hrun Hst Hm)
        as (st' & Hst' & Hp & Hit & _).
      exists st'. rewrite Hw in Hp. done.
    + intros Heq. apply Z.eqb_neq in Hhigh. done.
Qed.

(** X11: a device at the low level that stays idle and under the thermal
    ceiling is left alone: after any number of completed passes of the
    monitoring loop its record is the one it started with. *)
Theorem idle_low_device_is_left_alone drv opts n : ∀ i σ σ' st d,
  (i < deviceCount σ)%nat →
  gpuStates σ !! i = Some st →
  nvmlDevices σ !! i = Some d →
  pstateId st = performanceStateLow opts →
  (∀ hist, snd (drv_GetTemperature drv hist d) ≤ temperatureThreshold opts) →
  (∀ hist, gpu (snd (drv_GetUtilizationRates drv hist d)) = 0) →
  main_loop drv opts n σ = Some (true, σ') →
  gpuStates σ' !! i = Some st.
Proof.
  induction n as [|n IH]; intros i σ σ' st d Hi Hst Hd Hlow Ht Hu H.
  - simpl in H. apply ret_inv in H as [_ ->]. done.
  - simpl in H. apply bind_inv in H as (ok & σ1 & Htick & H).
    destruct ok; [| apply ret_inv in H as [H _]; discriminate H].
    destruct (tick_idle_low drv opts i σ σ1 st d) as (Hc & Hd1 & Hst1); auto.
    apply (IH i σ1 σ' st d); auto. lia.
Qed.

(** X12: a failed temperature read ends the monitoring loop at once.
    When the rounds of the devices before [i] complete and the temperature
    of device [i] cannot be read, the loop answers failure in the state the
    failed read leaves: no record is changed by the round, the utilization
    is not read, and no device after [i] is visited. *)
Theorem failed_temperature_read_ends_the_loop drv opts i n σ σa d :
  (i < deviceCount σ)%nat →
  for_each (seq 0 i) (tick_device drv opts) σ = Some (true, σa) →
  nvmlDevices σa !! i = Some d →
  fst (drv_GetTemperature drv (calls σa) d) ≠ NVML_SUCCESS →
  main_loop drv opts (S n) σ =
  Some (false, with_calls (calls σa ++ [CallGetTemperature d]) σa).
Proof.
  intros Hi Hbefore Hd Hfail. simpl.
  cut (tick drv opts σ =
       Some (false, with_calls (calls σa ++ [CallGetTemperature d]) σa)).
  { intros Htick. by rewrite (bind_eq _ _ _ _ _ Htick). }
  unfold tick, for_devices.
  erewrite bind_eq by reflexivity.
  replace (deviceCount σ) with (i + S (deviceCount σ - S i))%nat by lia.
  rewrite seq_app. simpl.
  eapply for_each_stops; [exact Hbefore |].
  unfold tick_device.
  rewrite (bind_eq _ _ _ _ _ (get_nvmlDevice_eq _ _ _ Hd)).
  unfold nvmlDeviceGetTemperature. erewrite bind_eq by reflexivity.
  destruct (drv_GetTemperature drv (calls σa) d) as [res t]. simpl in *.
  unfold NVML_CALL_failed. apply Z.eqb_neq in Hfail. by rewrite Hfail.
Qed.

(** X13: the monitoring loop polls every enumerated device, the unmanaged
    ones as well, but it never controls an unmanaged one: the round of an
    unmanaged device starts with the temperature read, calls no level or
    clock operation, and changes at most the counter of the record. *)
Theorem unmanaged_device_is_polled_not_controlled drv opts i σ st d :
  gpuStates σ !! i = Some st →
  managed st = false →
  nvmlDevices σ !! i = Some d →
  ∃ r σ' new st',
    tick_device drv opts i σ = Some (r, σ') ∧
    calls σ' = calls σ ++ CallGetTemperature d :: new ∧
    count_calls is_control new = 0%nat ∧
    gpuStates σ' = <[i := st']> (gpuStates σ) ∧
    st' = set_iterations (iterations st') st.
Proof.
  intros Hst Hm Hd.
  assert (i < length (gpuStates σ))%nat as Hi by (eapply lookup_lt_Some, Hst).
  assert (st = set_iterations (iterations st) st) as Hsame by by destruct st.
  assert (∀ p a b c e (σ0 : Globals),
            gpuStates σ0 = gpuStates σ →
            enter_pstate drv i p a b c e σ0 = Some (true, σ0)) as Hnoop.
  { intros p a b c e σ0 Hg. eapply enter_pstate_unmanaged; [| exact Hm].
    by rewrite Hg. }
  unfold tick_device.
  rewrite (bind_eq _ _ _ _ _ (get_nvmlDevice_eq _ _ _ Hd)).
  unfold nvmlDeviceGetTemperature. erewrite bind_eq by reflexivity.
  destruct (drv_GetTemperature drv (calls σ) d) as [res t]. simpl.
  set (σ1 := with_calls _ σ).
  destruct (NVML_CALL_failed res); simpl.
  { exists false, σ1, [], st. split; [done |]. split; [done |].
    split; [done |]. split; [by rewrite list_insert_id | done]. }
  destruct (t >? temperatureThreshold opts).
  { rewrite (bind_eq _ _ _ _ _ (get_state_eq i σ1 st Hst)).
    exists true, σ1, [], st.
    split.
    - destruct (negb (pstateId st =? performanceStateLow opts)); [| done].
      unfold enter_low. by apply Hnoop.
    - split; [done |]. split; [done |].
      split; [by rewrite list_insert_id | done]. }
  unfold nvmlDeviceGetUtilizationRates. erewrite bind_eq by reflexivity.
  destruct (drv_GetUtilizationRates drv (calls σ1) d) as [res2 u]. simpl.
  set (σ2 := with_calls _ σ1).
  destruct (NVML_CALL_failed res2); simpl.
  { exists false, σ2, [CallGetUtilizationRates d], st. split; [done |].
    split; [simpl; by rewrite <- app_assoc |].
    split; [done |]. split; [by rewrite list_insert_id | done]. }
  rewrite (bind_eq _ _ _ _ _ (get_state_eq i σ2 st Hst)).
  destruct (negb (gpu u =? 0)).
  - destruct (negb (pstateId st =? performanceStateHigh opts)).
    + exists true, σ2, [CallGetUtilizationRates d], st.
      split; [unfold enter_high; by apply Hnoop |].
      split; [simpl; by rewrite <- app_assoc |].
      split; [done |]. split; [by rewrite list_insert_id | done].
    + erewrite bind_eq by (apply modify_state_eq; exact Hst).
      eexists true, _, [CallGetUtilizationRates d], _.
      split; [reflexivity |].
      split; [simpl; by rewrite <- app_assoc |].
      split; [done |]. split; [reflexivity | done].
  - destruct (negb (pstateId st =? performanceStateLow opts)).
    + erewrite bind_eq; cycle 1.
      { instantiate (1 := σ2). instantiate (1 := true).
        destruct (iterations st >? iterationsBeforeSwitch opts); [| done].
        unfold enter_low. by apply Hnoop. }
      simpl.
      erewrite bind_eq by (apply modify_state_eq; exact Hst).
      eexists true, _, [CallGetUtilizationRates d], _.
      split; [reflexivity |].
      split; [simpl; by rewrite <- app_assoc |].
      split; [done |]. split; [reflexivity | done].
    + exists true, σ2, [CallGetUtilizationRates d], st.
      split; [done |].
      split; [simpl; by rewrite <- app_assoc |].
      split; [done |]. split; [by rewrite list_insert_id | done].
Qed.

(** X14: a threshold of [2^32 - 1] or more can never be exceeded by the
    32-bit counter, which wraps around to zero: a managed device that is
    not at the low level and stays idle and under the thermal ceiling then
    keeps its level through any number of completed passes. *)
Theorem huge_threshold_never_switches drv opts n : ∀ i σ σ' st d,
  (i < deviceCount σ)%nat →
  gpuStates σ !! i = Some st →
  nvmlDevices σ !! i = Some d →
  managed st = true →
  pstateId st ≠ performanceStateLow opts →
  0 ≤ iterations st < 2 ^ 32 →
  2 ^ 32 - 1 ≤ iterationsBeforeSwitch opts →
  (∀ hist, snd (drv_GetTemperature drv hist d) ≤ temperatureThreshold opts) →
  (∀ hist, gpu (snd (drv_GetUtilizationRates drv hist d)) = 0) →
  main_loop drv opts n σ = Some (true, σ') →
  ∃ st', gpuStates σ' !! i = Some st' ∧
         st' = set_iterations (iterations st') st ∧
         iterations st' = (iterations st + Z.of_nat n) mod 2 ^ 32.
Proof.
  induction n as [|n IH];
    intros i σ σ' st d Hi Hst Hd Hm Hlow Hit HT Ht Hu H.
  - simpl in H. apply ret_inv in H as [_ ->]. exists st.
    split; [done |]. split; [by destruct st |].
    rewrite Z.add_0_r. symmetry. apply Z.mod_small. lia.
  - simpl in H. apply bind_inv in H as (ok & σ1 & Htick & H).
    destruct ok; [| apply ret_inv in H as [H _]; discriminate H].
    destruct (tick_idle drv opts i σ σ1 st d) as (Hc1 & Hd1 & st1 & Hst1 & Hcase);
      auto.
    destruct (iterations st >? iterationsBeforeSwitch opts) eqn:Hgt; [lia |].
    subst st1.
    destruct (IH i σ1 σ' _ d ltac:(lia) Hst1 Hd1) as (st' & Hst' & Hsame & Hval);
      simpl; auto.
    { unfold wrap32. apply Z.mod_pos_bound. lia. }
    exists st'. split; [done |]. split.
    + rewrite Hsame. by destruct st.
    + rewrite Hval. simpl. unfold wrap32.
      rewrite Zplus_mod_idemp_l. f_equal. lia.
Qed.

(** * Further properties of the start of [run] *)

Section MoreInitLemmas.
Variable drv : Driver.
Variable opts : Options.

(** An operation that answers has found the record of its device. *)
Lemma enter_pstate_is_Some i p a b c e σ r σ' :
  enter_pstate drv i p a b c e σ = Some (r, σ') →
  is_Some (gpuStates σ !! i).
Proof.
  unfold enter_pstate. intros H.
  apply bind_inv in H as (s & σ1 & Hs & _).
  apply get_state_inv in Hs as [_ Hs]. by exists s.
Qed.

(** Unmanaged devices are passed over by the listing of the managed
    devices. *)
Lemma list_managed_none l : ∀ k σ,
  (∀ i, i ∈ l → ∃ st, gpuStates σ !! i = Some st ∧ managed st = false) →
  list_managed drv l k σ = Some (Some k, σ).
Proof.
  induction l as [|i l IH]; intros k σ Hall; simpl; [done |].
  destruct (Hall i) as (st & Hst & Hm); [by left |].
  rewrite (bind_eq _ _ _ _ _ (get_state_eq _ _ _ Hst)). rewrite Hm.
  apply IH. intros j Hj. apply Hall. by right.
Qed.

(** Marking the listed ids: the records of the listed indices up to the
    device count get their flag, and nothing else changes. *)
Lemma mark_ids_marks l : ∀ σ,
  Forall (λ id, 0 ≤ id) l →
  (deviceCount σ < length (gpuStates σ))%nat →
  ∃ σ', mark_ids l σ = Some (tt, σ') ∧
    σ' = with_gpuStates (gpuStates σ') σ ∧
    length (gpuStates σ') = length (gpuStates σ) ∧
    ∀ k st, gpuStates σ !! k = Some st →
      gpuStates σ' !! k =
      Some (if bool_decide (Z.of_nat k ∈ l ∧ (k ≤ deviceCount σ)%nat)
            then set_managed true st else st).
Proof.
  induction l as [|id l IH]; intros σ Hpos Hlen; cbn [mark_ids].
  - exists σ. split; [done |]. split; [by destruct σ |]. split; [done |].
    intros k st Hk. rewrite bool_decide_eq_false_2; [done |].
    intros [H _]. by apply elem_of_nil in H.
  - apply Forall_cons in Hpos as [Hid Hpos].
    erewrite bind_eq by reflexivity.
    unfold invalid_id.
    replace (id <? 0) with false by lia. simpl.
    destruct (id >? Z.of_nat (deviceCount σ)) eqn:Hgt.
    + erewrite bind_eq by reflexivity.
      destruct (IH σ Hpos Hlen) as (σ' & Hrun & Hσ' & Hl & Hk).
      exists σ'. split; [done |]. split; [done |]. split; [done |].
      intros k st Hst. rewrite (Hk k st Hst). f_equal.
      erewrite bool_decide_ext; [reflexivity |].
      rewrite elem_of_cons. split; [tauto |].
      intros [[Heq|?] ?]; [lia | tauto].
    + destruct (lookup_lt_is_Some_2 (gpuStates σ) (Z.to_nat id))
        as [s Hs]; [lia |].
      rewrite (bind_eq _ _ _ _ _ (modify_state_eq _ _ _ _ Hs)).
      set (σ1 := with_gpuStates _ σ).
      destruct (IH σ1 Hpos) as (σ' & Hrun & Hσ' & Hl & Hk).
      { simpl. by rewrite length_insert. }
      exists σ'. split; [done |].
      split; [rewrite Hσ'; by destruct σ |].
      split; [rewrite Hl; simpl; by rewrite length_insert |].
      intros k st Hst. simpl in Hk.
      destruct (decide (k = Z.to_nat id)) as [->|Hne].
      * assert (s = st) as -> by congruence.
        rewrite (Hk (Z.to_nat id) (set_managed true st))
          by (apply list_lookup_insert_eq; eapply lookup_lt_Some, Hs).
        rewrite (bool_decide_eq_true_2
                   (Z.of_nat (Z.to_nat id) ∈ id :: l ∧ _));
          [| split; [rewrite Z2Nat.id by lia; by left | lia]].
        by destruct (bool_decide _).
      * rewrite (Hk k st) by by rewrite list_lookup_insert_ne.
        f_equal. erewrite bool_decide_ext; [reflexivity |].
        rewrite elem_of_cons. split; [tauto |].
        intros [[Heq|?] ?]; [| tauto]. subst id.
        rewrite Nat2Z.id in Hne. done.
Qed.

(** Marking every enumerated device. *)
Lemma mark_all_marks l : ∀ σ,
  (∀ i, i ∈ l → (i < length (gpuStates σ))%nat) →
  ∃ σ',
    for_each l (λ i, modify_state i (set_managed true);; mret true) σ =
      Some (true, σ') ∧
    σ' = with_gpuStates (gpuStates σ') σ ∧
    length (gpuStates σ') = length (gpuStates σ) ∧
    ∀ k st, gpuStates σ !! k = Some st →
      gpuStates σ' !! k =
      Some (if bool_decide (k ∈ l) then set_managed true st else st).
Proof.
  induction l as [|i l IH]; intros σ Hin; cbn [for_each].
  - exists σ. split; [done |]. split; [by destruct σ |]. split; [done |].
    intros k st Hk. rewrite bool_decide_eq_false_2; [done |].
    apply not_elem_of_nil.
  - destruct (lookup_lt_is_Some_2 (gpuStates σ) i) as [s Hs];
      [apply Hin; by left |].
    erewrite bind_eq; cycle 1.
    { erewrite bind_eq by (apply modify_state_eq; exact Hs). reflexivity. }
    set (σ1 := with_gpuStates _ σ).
    destruct (IH σ1) as (σ' & Hrun & Hσ' & Hl & Hk).
    { intros j Hj. simpl. rewrite length_insert. apply Hin. by right. }
    exists σ'. split; [done |].
    split; [rewrite Hσ'; by destruct σ |].
    split; [rewrite Hl; simpl; by rewrite length_insert |].
    intros k st Hst. simpl in Hk.
    destruct (decide (k = i)) as [->|Hne].
    + assert (s = st) as -> by congruence.
      rewrite (Hk i (set_managed true st))
        by (apply list_lookup_insert_eq; eapply lookup_lt_Some, Hs).
      rewrite (bool_decide_eq_true_2 (i ∈ i :: l)) by by left.
      by destruct (bool_decide _).
    + rewrite (Hk k st) by by rewrite list_lookup_insert_ne.
      f_equal. erewrite bool_decide_ext; [reflexivity |].
      rewrite elem_of_cons. split; [tauto |]. intros [?|?]; [done | tauto].
Qed.

End MoreInitLemmas.

(** X15: when the [INIT] block completes, every managed device among the
    enumerated ones is at the low level with a counter of zero, so that
    the monitoring loop starts every managed device from the low level. *)
Theorem init_leaves_managed_devices_low drv opts σ σ' i st' :
  init drv opts σ = Some (true, σ') →
  (i < deviceCount σ')%nat →
  gpuStates σ' !! i = Some st' →
  managed st' = true →
  pstateId st' = wrap32 (performanceStateLow opts) ∧ iterations st' = 0.
Proof.
  intros H Hi Hst' Hm. unfold init in H.
  apply bind_inv in H as (u & σ1 & _ & H).
  apply bind_inv in H as (n & σ1' & Hn & H).
  apply get_deviceCount_inv in Hn as [-> ->].
  apply bind_inv in H as (k & σ2 & _ & H).
  destruct k as [k|]; [| apply ret_inv in H as [H _]; discriminate H].
  destruct (k =? 0); [apply ret_inv in H as [H _]; discriminate H |].
  unfold for_devices in H.
  apply bind_inv in H as (n & σ2' & Hn & H).
  apply get_deviceCount_inv in Hn as [-> ->].
  assert (∀ j σ r σ', enter_low drv opts j σ = Some (r, σ') → evolves j σ σ')
    as Hbody by (intros j σ0 r σ0'; apply enter_pstate_evolves).
  pose proof (for_each_progresses _ _ _ _ _ Hbody H) as Hpg.
  rewrite (pg_deviceCount _ _ Hpg) in Hi.
  destruct (for_each_focus _ _ i _ _ Hbody Hi H)
    as (σa & σb & Ha & Hround & Hb).
  destruct (enter_pstate_is_Some _ _ _ _ _ _ _ _ _ _ Hround) as [sa Hsa].
  destruct (ev_state _ _ _ (Hbody _ _ _ _ Hround) sa Hsa)
    as (sb & Hsb & Hmb & _).
  rewrite (os_state _ _ _ Hb), Hsb in Hst'. injection Hst' as ->.
  rewrite Hm in Hmb.
  destruct (enter_pstate_success _ _ _ _ _ _ _ _ _ _ Hround Hsa (eq_sym Hmb))
    as (st'' & Hst'' & Hp & Hit & _).
  assert (st'' = st') as -> by congruence. done.
Qed.

(** X16: an id list that names no enumerated device makes the [INIT]
    block fail.  When every listed id is the device count or more, the
    ids equal to the device count pass the validity test, but no record
    below the device count is marked: the block answers failure without a
    single library call. *)
Theorem init_fails_without_managed_device drv opts σ :
  ids opts ≠ [] →
  Forall (λ id, Z.of_nat (deviceCount σ) ≤ id) (ids opts) →
  (deviceCount σ < length (gpuStates σ))%nat →
  (∀ i st, gpuStates σ !! i = Some st → managed st = false) →
  ∃ σ', init drv opts σ = Some (false, σ') ∧ calls σ' = calls σ.
Proof.
  intros Hne Hids Hlen Hun.
  destruct (mark_ids_marks (ids opts) σ) as (σ1 & Hrun & Hσ1 & Hl & Hk);
    [eapply Forall_impl; [exact Hids | simpl; lia] | done |].
  exists σ1. split; [| rewrite Hσ1; done].
  unfold init.
  erewrite bind_eq; cycle 1.
  { unfold mark_managed. destruct (ids opts); [done | exact Hrun]. }
  erewrite bind_eq by reflexivity.
  erewrite bind_eq; cycle 1.
  { apply list_managed_none. intros i Hi. apply elem_of_seq in Hi.
    assert (deviceCount σ1 = deviceCount σ) as Hc by (by rewrite Hσ1).
    destruct (lookup_lt_is_Some_2 (gpuStates σ) i) as [st Hst]; [lia |].
    exists st. split; [| by eapply Hun].
    rewrite (Hk i st Hst). rewrite bool_decide_eq_false_2; [done |].
    intros [Hin _]. rewrite Forall_forall in Hids.
    specialize (Hids _ Hin). simpl in Hids. lia. }
  done.
Qed.

(** X17: without an id list every enumerated device is marked as managed,
    and the records from the device count on are left as they are. *)
Theorem mark_managed_marks_all_without_ids opts σ :
  ids opts = [] →
  (deviceCount σ ≤ length (gpuStates σ))%nat →
  ∃ σ',
    mark_managed opts σ = Some (tt, σ') ∧
    calls σ' = calls σ ∧
    ∀ k st, gpuStates σ !! k = Some st →
      gpuStates σ' !! k =
      Some (if decide (k < deviceCount σ)%nat
            then set_managed true st else st).
Proof.
  intros Hids Hlen.
  destruct (mark_all_marks (seq 0 (deviceCount σ)) σ)
    as (σ' & Hrun & Hσ' & _ & Hk).
  { intros i Hi. apply elem_of_seq in Hi. lia. }
  exists σ'. split; [| split].
  - unfold mark_managed. rewrite Hids. unfold for_devices.
    erewrite bind_eq; cycle 1.
    { erewrite bind_eq by reflexivity. exact Hrun. }
    done.
  - by rewrite Hσ'.
  - intros k st Hst. rewrite (Hk k st Hst). f_equal.
    destruct (decide (k < deviceCount σ)%nat) as [Hlt|Hge].
    + rewrite bool_decide_eq_true_2; [done |]. apply elem_of_seq. lia.
    + rewrite bool_decide_eq_false_2; [done |]. rewrite elem_of_seq. lia.
Qed.

(** X18: with an id list, the marked records are exactly those whose index
    is listed and is at most the device count.  Ids above the device count
    are passed over, a repeated id marks once, no flag is cleared, and no
    other field, record or global changes. *)
Theorem mark_managed_marks_listed_ids opts σ :
  ids opts ≠ [] →
  Forall (λ id, 0 ≤ id) (ids opts) →
  (deviceCount σ < length (gpuStates σ))%nat →
  ∃ σ',
    mark_managed opts σ = Some (tt, σ') ∧
    σ' = with_gpuStates (gpuStates σ') σ ∧
    ∀ k st, gpuStates σ !! k = Some st →
      gpuStates σ' !! k =
      Some (if bool_decide (Z.of_nat k ∈ ids opts ∧ (k ≤ deviceCount σ)%nat)
            then set_managed true st else st).
Proof.
  intros Hne Hpos Hlen.
  destruct (mark_ids_marks (ids opts) σ Hpos Hlen) as (σ' & Hrun & Hσ' & _ & Hk).
  exists σ'. split; [| done].
  unfold mark_managed. destruct (ids opts); [done | exact Hrun].
Qed.

(** * Further properties of the sorting of the handles *)

Section MoreSortLemmas.
Variable drv : Driver.

Lemma read_identifiers_only_logs l : ∀ σ r σ1,
  read_identifiers drv l σ = Some (r, σ1) →
  σ1 = with_calls (calls σ1) σ ∧
  (r = None → ends_with_failed_read drv (calls σ1)).
Proof.
  induction l as [|i l IH]; intros σ r σ1 H; simpl in H.
  - apply ret_inv in H as [-> ->]. split; [by destruct σ | done].
  - apply bind_inv in H as (d & σa & Hd & H).
    apply get_nvmlDevice_inv in Hd as [-> Hd].
    unfold nvmlDeviceGetPciInfo in H.
    apply bind_inv in H as (rp & σb & Hp & H).
    apply invoke_inv in Hp as [-> ->].
    destruct (drv_GetPciInfo drv (calls σ) d) as [res bus] eqn:Hpci.
    unfold NVML_CALL_failed in H.
    destruct (res =? NVML_SUCCESS) eqn:Hres; simpl in H; cycle 1.
    { apply ret_inv in H as [-> ->]. split; [done |]. intros _.
      exists (calls σ), (CallGetPciInfo d). split; [done |]. left.
      exists d. split; [done |]. rewrite Hpci. simpl.
      by apply Z.eqb_neq. }
    apply bind_inv in H as (h & σc & Hh & H).
    apply get_nvapiDevice_inv in Hh as [-> Hh].
    unfold NvAPI_GPU_GetBusId in H.
    apply bind_inv in H as (rb & σd & Hb & H).
    apply invoke_inv in Hb as [-> ->].
    simpl in H.
    destruct (drv_GetBusId drv (calls σ ++ [CallGetPciInfo d]) h)
      as [status busId] eqn:Hbus.
    unfold NVAPI_CALL_failed in H.
    destruct (status =? NVAPI_OK) eqn:Hst; simpl in H; cycle 1.
    { apply ret_inv in H as [-> ->]. split; [done |]. intros _.
      exists (calls σ ++ [CallGetPciInfo d]), (CallGetBusId h).
      split; [done |]. right.
      exists h. split; [done |]. rewrite Hbus. simpl.
      by apply Z.eqb_neq. }
    apply bind_inv in H as (rest & σe & Hrest & H).
    apply ret_inv in H as [-> ->].
    destruct (IH _ _ _ Hrest) as (Hσ & Hnone).
    split; [rewrite Hσ; done |].
    intros Hr. apply Hnone. by destruct rest as [[? ?]|].
Qed.

(** With bus ids that do not change over time, step 1 reads the bus id of
    every device of both libraries. *)
Lemma read_identifiers_values (busA busB : Z → Z) l : ∀ σ,
  (∀ i, i ∈ l → is_Some (nvmlDevices σ !! i) ∧
                  ∃ h, nvapiDevices σ !! i = Some (Some h)) →
  (∀ hist d, drv_GetPciInfo drv hist d = (NVML_SUCCESS, busA d)) →
  (∀ hist h, drv_GetBusId drv hist h = (NVAPI_OK, busB h)) →
  ∃ A B σ1,
    read_identifiers drv l σ = Some (Some (A, B), σ1) ∧
    σ1 = with_calls (calls σ1) σ ∧
    length A = length l ∧ length B = length l ∧
    ∀ k i, l !! k = Some i →
      ∃ d h, nvmlDevices σ !! i = Some d ∧
             nvapiDevices σ !! i = Some (Some h) ∧
             A !! k = Some (busA d) ∧ B !! k = Some (busB h).
Proof.
  induction l as [|i l IH]; intros σ Hidx Hpci Hbus; simpl.
  - exists [], [], σ. split; [done |]. split; [by destruct σ |].
    split; [done |]. split; [done |]. intros k i Hk. done.
  - destruct (Hidx i) as ([d Hd] & h & Hh); [by left |].
    rewrite (bind_eq _ _ _ _ _ (get_nvmlDevice_eq _ _ _ Hd)).
    unfold nvmlDeviceGetPciInfo. erewrite bind_eq by reflexivity.
    rewrite Hpci. simpl.
    set (σa := with_calls _ σ).
    rewrite (bind_eq _ _ _ _ _ (get_nvapiDevice_eq i σa h Hh)).
    unfold NvAPI_GPU_GetBusId. erewrite bind_eq by reflexivity.
    rewrite Hbus. simpl.
    set (σb := with_calls _ σa).
    destruct (IH σb) as (A & B & σ1 & Hrun & Hσ1 & HA & HB & Hval);
      [| done | done |].
    { intros k Hk. apply Hidx. by right. }
    rewrite (bind_eq _ _ _ _ _ Hrun).
    exists (busA d :: A), (busB h :: B), σ1. simpl.
    split; [done |]. split; [rewrite Hσ1; done |].
    split; [by rewrite HA |]. split; [by rewrite HB |].
    intros [|k] j Hk; simpl in Hk.
    + injection Hk as <-. by exists d, h.
    + apply (Hval k j Hk).
Qed.

End MoreSortLemmas.

(** X19: the sorting of the handles fails only on a failed bus-id read,
    and at once: the log then ends with the read that failed, no read
    follows it, and nothing but the log has changed, the handle array in
    particular. *)
Theorem failed_sort_changes_nothing drv σ σ' :
  sort_nvapi_handles drv σ = Some (false, σ') →
  σ' = with_calls (calls σ') σ ∧
  ends_with_failed_read drv (calls σ').
Proof.
  unfold sort_nvapi_handles. intros H.
  apply bind_inv in H as (n & σ0 & Hn & H).
  apply get_deviceCount_inv in Hn as [-> ->].
  apply bind_inv in H as (r & σ1 & Hr & H).
  destruct (read_identifiers_only_logs drv _ _ _ _ Hr) as (Hσ1 & Hnone).
  destruct r as [[A B]|].
  - apply bind_inv in H as (dv & σ2 & _ & H).
    apply bind_inv in H as (u & σ3 & _ & H).
    apply ret_inv in H as [H _]. discriminate H.
  - apply ret_inv in H as [_ ->]. split; [done | by apply Hnone].
Qed.

(** X20: the sorting pairs the handles by bus id.  With bus ids that do
    not change over time, the block completes, leaves the NVML handles in
    place, and for every index whose NVML bus id is the bus id of some
    enumerated NVAPI handle, the NVAPI handle stored at that index
    afterwards is an enumerated one with the bus id of the NVML handle of
    the index. *)
Theorem sorted_handles_share_bus_ids drv σ (busA busB : Z → Z) :
  (deviceCount σ ≤ NVAPI_MAX_PHYSICAL_GPUS)%nat →
  (∀ i, (i < deviceCount σ)%nat →
     is_Some (nvmlDevices σ !! i) ∧
     ∃ h, nvapiDevices σ !! i = Some (Some h)) →
  (∀ hist d, drv_GetPciInfo drv hist d = (NVML_SUCCESS, busA d)) →
  (∀ hist h, drv_GetBusId drv hist h = (NVAPI_OK, busB h)) →
  ∃ σ',
    sort_nvapi_handles drv σ = Some (true, σ') ∧
    nvmlDevices σ' = nvmlDevices σ ∧
    gpuStates σ' = gpuStates σ ∧
    ∀ i d j hj,
      nvmlDevices σ !! i = Some d →
      (i < deviceCount σ)%nat → (j < deviceCount σ)%nat →
      nvapiDevices σ !! j = Some (Some hj) →
      busB hj = busA d →
      ∃ j' h', (j' < deviceCount σ)%nat ∧
               nvapiDevices σ !! j' = Some (Some h') ∧
               nvapiDevices σ' !! i = Some (Some h') ∧
               busB h' = busA d.
Proof.
  intros Hn Hidx Hpci Hbus.
  destruct (read_identifiers_values drv busA busB (seq 0 (deviceCount σ)) σ)
    as (A & B & σ1 & Hrun & Hσ1 & HA & HB & Hval); [| done | done |].
  { intros i Hi. apply Hidx. apply elem_of_seq in Hi. lia. }
  rewrite length_seq in HA, HB.
  eexists. split; [by rewrite (sort_nvapi_handles_run drv σ _ _ Hrun) |].
  rewrite Hσ1. simpl. split; [done |]. split; [done |].
  intros i d j hj Hd Hi Hj Hhj Heq.
  destruct (Hval i i) as (d0 & h0 & Hd0 & _ & HAi & _);
    [apply lookup_seq; lia |].
  assert (d0 = d) as -> by congruence.
  destruct (Hval j j) as (_ & hj0 & _ & Hhj0 & _ & HBj);
    [apply lookup_seq; lia |].
  assert (hj0 = hj) as -> by congruence.
  assert (busA d ∈ B) as Hin.
  { rewrite <- Heq. by eapply list_elem_of_lookup_2. }
  destruct (find_match (busA d) B 0) as [j'|] eqn:Hfind;
    [| by apply find_match_None in Hfind].
  destruct (find_match_spec _ _ _ _ Hfind) as (_ & HBj' & _).
  rewrite Nat.sub_0_r in HBj'.
  assert (j' < deviceCount σ)%nat as Hj'
    by (rewrite <- HB; by eapply lookup_lt_Some).
  destruct (Hval j' j') as (_ & h' & _ & Hh' & _ & HBh');
    [apply lookup_seq; lia |].
  exists j', h'. split; [done |]. split; [done |].
  split; [| congruence].
  rewrite sortedNvapiDevices_lookup by lia.
  rewrite decide_True by done.
  unfold matched_index. rewrite HAi, Hfind.
  f_equal. change (default None (nvapiDevices σ !! j') = Some h').
  by rewrite Hh'.
Qed.

(** X21: sorting handles that are sorted already changes none of them.
    With bus ids that do not change over time and are pairwise distinct
    among the NVML handles, each of them being the bus id of an enumerated
    NVAPI handle, the first run of the block leaves a determinate handle at
    every index below the device count, and a second run of the block
    leaves the same handle there.  (The entries from the device count on
    are copied from the uninitialised local array by either run, and
    nothing is said about them.) *)
Theorem sorting_twice_changes_nothing drv σ (busA busB : Z → Z) :
  (deviceCount σ ≤ NVAPI_MAX_PHYSICAL_GPUS)%nat →
  (∀ i, (i < deviceCount σ)%nat →
     ∃ d h, nvmlDevices σ !! i = Some d ∧
            nvapiDevices σ !! i = Some (Some h)) →
  (∀ hist d, drv_GetPciInfo drv hist d = (NVML_SUCCESS, busA d)) →
  (∀ hist h, drv_GetBusId drv hist h = (NVAPI_OK, busB h)) →
  (∀ i1 i2 d1 d2,
     (i1 < deviceCount σ)%nat → (i2 < deviceCount σ)%nat →
     nvmlDevices σ !! i1 = Some d1 → nvmlDevices σ !! i2 = Some d2 →
     busA d1 = busA d2 → i1 = i2) →
  (∀ i d, (i < deviceCount σ)%nat → nvmlDevices σ !! i = Some d →
     ∃ j hj, (j < deviceCount σ)%nat ∧
             nvapiDevices σ !! j = Some (Some hj) ∧ busB hj = busA d) →
  ∃ σ1 σ2,
    sort_nvapi_handles drv σ = Some (true, σ1) ∧
    sort_nvapi_handles drv σ1 = Some (true, σ2) ∧
    ∀ i, (i < deviceCount σ)%nat →
      ∃ h', nvapiDevices σ1 !! i = Some (Some h') ∧
            nvapiDevices σ2 !! i = Some (Some h').
Proof.
  intros Hn Hidx Hpci Hbus Hinj Hsurj.
  set (n := deviceCount σ) in *.
  destruct (read_identifiers_values drv busA busB (seq 0 n) σ)
    as (A & B & σa & Hrun & Hσa & HA & HB & Hval); [| done | done |].
  { intros i Hi. apply elem_of_seq in Hi.
    destruct (Hidx i) as (d & h & Hd & Hh); [lia |]. split; eauto. }
  rewrite length_seq in HA, HB.
  pose proof (sort_nvapi_handles_run drv σ _ _ Hrun) as Hsort1.
  simpl in Hsort1. fold n in Hsort1.
  set (S1 := sortedNvapiDevices n A B (nvapiDevices σa)) in *.
  set (σ1 := with_nvapiDevices S1 σa) in *.
  assert (nvapiDevices σa = nvapiDevices σ) as Hna by (by rewrite Hσa).
  assert (nvmlDevices σ1 = nvmlDevices σ) as Hnv by (simpl; by rewrite Hσa).
  assert (deviceCount σ1 = n) as Hc1 by (simpl; by rewrite Hσa).
  (* the first n entries of the sorted array *)
  assert (∀ i d, (i < n)%nat → nvmlDevices σ !! i = Some d →
            A !! i = Some (busA d) ∧
            ∃ h', S1 !! i = Some (Some h') ∧ busB h' = busA d) as Hfirst.
  { intros i d Hi Hd.
    destruct (Hval i i) as (d0 & h0 & Hd0 & _ & HAi & _);
      [apply lookup_seq; lia |].
    assert (d0 = d) as -> by congruence.
    split; [done |].
    destruct (Hsurj i d Hi Hd) as (j & hj & Hj & Hhj & Heq).
    destruct (Hval j j) as (_ & hj0 & _ & Hhj0 & _ & HBj);
      [apply lookup_seq; lia |].
    assert (hj0 = hj) as -> by congruence.
    assert (busA d ∈ B) as Hin
      by (rewrite <- Heq; by eapply list_elem_of_lookup_2).
    destruct (find_match (busA d) B 0) as [j'|] eqn:Hfind;
      [| by apply find_match_None in Hfind].
    destruct (find_match_spec _ _ _ _ Hfind) as (_ & HBj' & _).
    rewrite Nat.sub_0_r in HBj'.
    assert (j' < n)%nat as Hj' by (rewrite <- HB; by eapply lookup_lt_Some).
    destruct (Hval j' j') as (_ & h' & _ & Hh' & _ & HBh');
      [apply lookup_seq; lia |].
    exists h'. split; [| congruence].
    unfold S1. rewrite sortedNvapiDevices_lookup by lia.
    rewrite decide_True by done.
    unfold matched_index. rewrite HAi, Hfind. f_equal.
    rewrite Hna. change (default None (nvapiDevices σ !! j') = Some h').
    by rewrite Hh'. }
  assert (NoDup A) as HndA.
  { apply NoDup_alt. intros i1 i2 x H1 H2.
    assert (i1 < n)%nat as Hi1 by (rewrite <- HA; by eapply lookup_lt_Some).
    assert (i2 < n)%nat as Hi2 by (rewrite <- HA; by eapply lookup_lt_Some).
    destruct (Hidx i1 Hi1) as (d1 & _ & Hd1 & _).
    destruct (Hidx i2 Hi2) as (d2 & _ & Hd2 & _).
    destruct (Hfirst i1 d1 Hi1 Hd1) as (HA1 & _).
    destruct (Hfirst i2 d2 Hi2 Hd2) as (HA2 & _).
    eapply Hinj; eauto. congruence. }
  (* the second run *)
  destruct (read_identifiers_values drv busA busB (seq 0 n) σ1)
    as (A2 & B2 & σb & Hrun2 & Hσb & HA2 & HB2 & Hval2); [| done | done |].
  { intros i Hi. apply elem_of_seq in Hi.
    destruct (Hidx i) as (d & h & Hd & Hh); [lia |].
    destruct (Hfirst i d ltac:(lia) Hd) as (_ & h' & Hh' & _).
    split; [rewrite Hnv; eauto | exists h'; exact Hh']. }
  rewrite length_seq in HA2, HB2.
  assert (A2 = A ∧ B2 = A) as [-> ->].
  { split; apply list_eq; intros i.
    - destruct (decide (i < n)%nat) as [Hi|Hi].
      + destruct (Hval2 i i) as (d & h & Hd & _ & HAi & _);
          [apply lookup_seq; lia |].
        rewrite Hnv in Hd.
        destruct (Hfirst i d Hi Hd) as (HAi' & _). congruence.
      + rewrite !lookup_ge_None_2 by lia. done.
    - destruct (decide (i < n)%nat) as [Hi|Hi].
      + destruct (Hval2 i i) as (d & h & Hd & Hh & _ & HBi);
          [apply lookup_seq; lia |].
        rewrite Hnv in Hd.
        destruct (Hfirst i d Hi Hd) as (HAi' & h' & Hh' & Heq).
        simpl in Hh.
        assert (h = h') as -> by congruence. congruence.
      + rewrite !lookup_ge_None_2 by lia. done. }
  assert (read_identifiers drv (seq 0 (deviceCount σ1)) σ1 =
          Some (Some (A, A), σb)) as Hrun2' by (by rewrite Hc1).
  pose proof (sort_nvapi_handles_run drv σ1 _ _ Hrun2') as Hsort2.
  rewrite Hc1 in Hsort2.
  exists σ1. eexists. split; [exact Hsort1 |]. split; [exact Hsort2 |].
  intros i Hin.
  destruct (Hidx i Hin) as (d & _ & Hd & _).
  destruct (Hfirst i d Hin Hd) as (HAi & h' & Hh' & _).
  exists h'. split; [exact Hh' |].
  simpl. rewrite Hσb. simpl. fold S1.
  rewrite sortedNvapiDevices_lookup by lia.
  rewrite decide_True by done.
  unfold matched_index. rewrite HAi.
  rewrite (find_match_NoDup _ _ _ HndA HAi).
  f_equal. change (default None (S1 !! i) = Some h'). by rewrite Hh'.
Qed.


(** * The loader of the NVAPI library *)

Section LoaderLemmas.
Variable sys : Nvapi.System.
Variable plat : Nvapi.Platform.

Lemma load_if_missing_loaded name s :
  Nvapi.lib s ≠ Nvapi.NULL → Nvapi.load_if_missing sys name s = s.
Proof.
  intros Hlib. unfold Nvapi.load_if_missing.
  by destruct (Z.eqb_spec (Nvapi.lib s) Nvapi.NULL).
Qed.

Lemma load_if_missing_pointers name s :
  Nvapi.pointers (Nvapi.load_if_missing sys name s) = Nvapi.pointers s.
Proof.
  unfold Nvapi.load_if_missing.
  by destruct (Z.eqb_spec (Nvapi.lib s) Nvapi.NULL).
Qed.

Lemma load_if_missing_trace name s :
  ∃ new, Nvapi.trace (Nvapi.load_if_missing sys name s) =
         Nvapi.trace s ++ new ∧
         Forall (λ c, Nvapi.is_SysLoad c = true) new.
Proof.
  unfold Nvapi.load_if_missing.
  destruct (Z.eqb_spec (Nvapi.lib s) Nvapi.NULL).
  - exists [Nvapi.SysLoad name]. split; [done |]. by repeat constructor.
  - exists []. split; [by rewrite app_nil_r | constructor].
Qed.

(** What [NvAPI_Initialize] does once [lib] is set. *)
Lemma initialize_loaded s :
  Nvapi.lib s ≠ Nvapi.NULL →
  ∃ rest,
    Nvapi.trace (Nvapi.NvAPI_Initialize sys plat s).2 =
      Nvapi.trace s ++
      Nvapi.SysSymbol (Nvapi.lib s) Nvapi.QUERY_INTERFACE :: rest ∧
    Nvapi.lib (Nvapi.NvAPI_Initialize sys plat s).2 = Nvapi.lib s ∧
    ∀ name, Nvapi.SysLoad name ∉ rest.
Proof.
  intros Hlib. unfold Nvapi.NvAPI_Initialize.
  rewrite !(load_if_missing_loaded _ s Hlib).
  destruct (Z.eqb_spec (Nvapi.lib s) Nvapi.NULL) as [|_]; [done |].
  cbn [Nvapi.lib Nvapi.record Nvapi.trace].
  destruct (_ =? Nvapi.NULL).
  - eexists. split; [simpl; by rewrite <- app_assoc |]. split; [done |].
    intros name Hin. apply list_elem_of_singleton in Hin. discriminate.
  - match goal with
    | |- context [if ?c then _ else _] => destruct c
    end.
    + eexists. split; [simpl; rewrite <- !app_assoc; reflexivity |].
      split; [done |]. intros name Hin. simpl in Hin.
      repeat (apply elem_of_cons in Hin as [Hin|Hin]; [discriminate |]).
      by apply elem_of_nil in Hin.
    + eexists. split; [simpl; rewrite <- !app_assoc; reflexivity |].
      split; [done |]. intros name Hin. simpl in Hin.
      repeat (apply elem_of_cons in Hin as [Hin|Hin]; [discriminate |]).
      by apply elem_of_nil in Hin.
Qed.

(** What a successful [NvAPI_Unload] leaves behind. *)
Lemma unload_run s :
  Nvapi._NvAPI_Unload s ≠ Nvapi.NULL →
  Nvapi.lib s ≠ Nvapi.NULL →
  Nvapi.sys_Unload sys (Nvapi.trace s) (Nvapi._NvAPI_Unload s) = NVAPI_OK →
  Nvapi.NvAPI_Unload sys s =
    (NVAPI_OK,
     Nvapi.mkStatics (Nvapi.lib s) Nvapi.NULL (Nvapi._NvAPI_GPU_GetBusId s)
       Nvapi.NULL Nvapi.NULL Nvapi.NULL Nvapi.NULL
       (Nvapi.trace s ++ [Nvapi.SysUnload (Nvapi._NvAPI_Unload s);
                          Nvapi.SysFree (Nvapi.lib s)])).
Proof.
  intros Hp Hlib Hok. unfold Nvapi.NvAPI_Unload.
  destruct (Z.eqb_spec (Nvapi._NvAPI_Unload s) Nvapi.NULL) as [|_]; [done |].
  rewrite Hok. simpl.
  destruct (Z.eqb_spec (Nvapi.lib s) Nvapi.NULL) as [|_]; [done |].
  simpl. unfold Nvapi.record. simpl. by rewrite <- app_assoc.
Qed.

(** X22: on a machine where no library can be loaded, [NvAPI_Initialize]
    started without a library tries the two names of the platform in their
    order, writes one line to [stderr] and answers
    [NVAPI_LIBRARY_NOT_FOUND]; it looks up no symbol, and [lib] and the six
    pointers are as before. *)
Theorem initialize_without_library s :
  Nvapi.lib s = Nvapi.NULL →
  (∀ hist name, Nvapi.sys_load sys hist name = Nvapi.NULL) →
  ∃ s',
    Nvapi.NvAPI_Initialize sys plat s =
      (Nvapi.NVAPI_LIBRARY_NOT_FOUND, s') ∧
    Nvapi.lib s' = Nvapi.NULL ∧
    Nvapi.pointers s' = Nvapi.pointers s ∧
    Nvapi.trace s' =
      Nvapi.trace s ++
      [Nvapi.SysLoad (Nvapi.library_names plat).1;
       Nvapi.SysLoad (Nvapi.library_names plat).2;
       Nvapi.SysStderr Nvapi.LOAD_FAILED].
Proof.
  intros Hlib Hload. unfold Nvapi.NvAPI_Initialize, Nvapi.load_if_missing.
  rewrite Hlib. simpl. rewrite !Hload. simpl.
  eexists. split; [reflexivity |]. simpl.
  split; [done |]. split; [done |]. by rewrite <- !app_assoc.
Qed.

(** X23: [NvAPI_Initialize] loads the library only while [lib] is null.
    Called with [lib] set, it keeps that handle, and the first thing it
    asks of the system is the address of [nvapi_QueryInterface] in it; no
    library is loaded by the call. *)
Theorem initialize_does_not_load_twice s :
  Nvapi.lib s ≠ Nvapi.NULL →
  ∃ rest,
    Nvapi.trace (Nvapi.NvAPI_Initialize sys plat s).2 =
      Nvapi.trace s ++
      Nvapi.SysSymbol (Nvapi.lib s) Nvapi.QUERY_INTERFACE :: rest ∧
    Nvapi.lib (Nvapi.NvAPI_Initialize sys plat s).2 = Nvapi.lib s ∧
    ∀ name, Nvapi.SysLoad name ∉ rest.
Proof. apply initialize_loaded. Qed.

(** X24: a successful [NvAPI_Unload] calls the vendor's unload routine,
    frees the library, and sets five of the six pointers to null: the
    pointer [_NvAPI_GPU_GetBusId] keeps its value, and so does [lib]. *)
Theorem unload_clears_five_pointers s :
  Nvapi._NvAPI_Unload s ≠ Nvapi.NULL →
  Nvapi.lib s ≠ Nvapi.NULL →
  Nvapi.sys_Unload sys (Nvapi.trace s) (Nvapi._NvAPI_Unload s) = NVAPI_OK →
  ∃ s',
    Nvapi.NvAPI_Unload sys s = (NVAPI_OK, s') ∧
    Nvapi.pointers s' =
      [Nvapi.NULL; Nvapi._NvAPI_GPU_GetBusId s; Nvapi.NULL; Nvapi.NULL;
       Nvapi.NULL; Nvapi.NULL] ∧
    Nvapi.lib s' = Nvapi.lib s ∧
    Nvapi.trace s' =
      Nvapi.trace s ++ [Nvapi.SysUnload (Nvapi._NvAPI_Unload s);
                        Nvapi.SysFree (Nvapi.lib s)].
Proof.
  intros Hp Hlib Hok. rewrite (unload_run s Hp Hlib Hok).
  eexists. split; [reflexivity |]. done.
Qed.

(** X25: after a successful [NvAPI_Unload] the wrappers
    [NvAPI_EnumPhysicalGPUs], [NvAPI_GPU_SetForcePstate] and
    [NvAPI_GetErrorMessage] answer [NVAPI_API_NOT_INITIALIZED] without
    calling anything, whereas [NvAPI_GPU_GetBusId] still calls through the
    pointer resolved before the library was freed. *)
Theorem bus_id_wrapper_survives_unload s h p f nr :
  Nvapi._NvAPI_Unload s ≠ Nvapi.NULL →
  Nvapi.lib s ≠ Nvapi.NULL →
  Nvapi.sys_Unload sys (Nvapi.trace s) (Nvapi._NvAPI_Unload s) = NVAPI_OK →
  Nvapi._NvAPI_GPU_GetBusId s ≠ Nvapi.NULL →
  let s' := (Nvapi.NvAPI_Unload sys s).2 in
  Nvapi.NvAPI_EnumPhysicalGPUs sys s' =
    (Nvapi.NVAPI_API_NOT_INITIALIZED, None, s') ∧
  Nvapi.NvAPI_GPU_SetForcePstate sys h p f s' =
    (Nvapi.NVAPI_API_NOT_INITIALIZED, s') ∧
  Nvapi.NvAPI_GetErrorMessage sys nr s' =
    (Nvapi.NVAPI_API_NOT_INITIALIZED, None, s') ∧
  Nvapi.trace (Nvapi.NvAPI_GPU_GetBusId sys h s').2 =
    Nvapi.trace s' ++ [Nvapi.SysGetBusId (Nvapi._NvAPI_GPU_GetBusId s) h].
Proof.
  intros Hp Hlib Hok Hbus s'. subst s'.
  rewrite (unload_run s Hp Hlib Hok). cbn [snd].
  split; [done |]. split; [done |]. split; [done |].
  unfold Nvapi.NvAPI_GPU_GetBusId. cbn [Nvapi._NvAPI_GPU_GetBusId].
  destruct (Z.eqb_spec (Nvapi._NvAPI_GPU_GetBusId s) Nvapi.NULL) as [|_];
    [done |].
  by destruct (Nvapi.sys_GetBusId _ _ _ _).
Qed.

(** X26: a second [NvAPI_Unload] after a successful one is refused: it
    answers [NVAPI_API_NOT_INITIALIZED], calls nothing (the library is not
    freed a second time) and changes nothing. *)
Theorem second_unload_is_refused s :
  Nvapi._NvAPI_Unload s ≠ Nvapi.NULL →
  Nvapi.lib s ≠ Nvapi.NULL →
  Nvapi.sys_Unload sys (Nvapi.trace s) (Nvapi._NvAPI_Unload s) = NVAPI_OK →
  Nvapi.NvAPI_Unload sys (Nvapi.NvAPI_Unload sys s).2 =
    (Nvapi.NVAPI_API_NOT_INITIALIZED, (Nvapi.NvAPI_Unload sys s).2).
Proof.
  intros Hp Hlib Hok. rewrite (unload_run s Hp Hlib Hok). done.
Qed.

(** X27: an [NvAPI_Unload] that answers anything but [NVAPI_OK] frees
    nothing and leaves [lib] and the six pointers as they were. *)
Theorem failed_unload_frees_nothing s :
  (Nvapi.NvAPI_Unload sys s).1 ≠ NVAPI_OK →
  Nvapi.lib (Nvapi.NvAPI_Unload sys s).2 = Nvapi.lib s ∧
  Nvapi.pointers (Nvapi.NvAPI_Unload sys s).2 = Nvapi.pointers s ∧
  ∃ new, Nvapi.trace (Nvapi.NvAPI_Unload sys s).2 = Nvapi.trace s ++ new ∧
         ∀ l, Nvapi.SysFree l ∉ new.
Proof.
  unfold Nvapi.NvAPI_Unload.
  destruct (Z.eqb_spec (Nvapi._NvAPI_Unload s) Nvapi.NULL) as [|_].
  - intros _. split; [done |]. split; [done |].
    exists []. split; [by rewrite app_nil_r |]. intros l Hin.
    by apply elem_of_nil in Hin.
  - destruct (Z.eqb_spec
                (Nvapi.sys_Unload sys (Nvapi.trace s) (Nvapi._NvAPI_Unload s))
                NVAPI_OK) as [Hok|Hbad].
    + intros Hne. exfalso. apply Hne.
      by destruct (negb _).
    + intros _. split; [done |]. split; [done |].
      eexists. split; [reflexivity |]. intros l Hin.
      apply list_elem_of_singleton in Hin. discriminate.
Qed.

(** X28: [NvAPI_Initialize] after a successful [NvAPI_Unload] loads no
    library: [lib] still holds the handle that was freed, and the next
    request to the system after the [SysFree] is the lookup of
    [nvapi_QueryInterface] in that handle. *)
Theorem initialize_after_unload_reuses_freed_handle s :
  Nvapi._NvAPI_Unload s ≠ Nvapi.NULL →
  Nvapi.lib s ≠ Nvapi.NULL →
  Nvapi.sys_Unload sys (Nvapi.trace s) (Nvapi._NvAPI_Unload s) = NVAPI_OK →
  ∃ rest,
    Nvapi.trace
      (Nvapi.NvAPI_Initialize sys plat (Nvapi.NvAPI_Unload sys s).2).2 =
      Nvapi.trace s ++
      [Nvapi.SysUnload (Nvapi._NvAPI_Unload s);
       Nvapi.SysFree (Nvapi.lib s);
       Nvapi.SysSymbol (Nvapi.lib s) Nvapi.QUERY_INTERFACE] ++ rest ∧
    ∀ name, Nvapi.SysLoad name ∉ rest.
Proof.
  intros Hp Hlib Hok. rewrite (unload_run s Hp Hlib Hok). cbn [snd].
  match goal with
  | |- context [Nvapi.NvAPI_Initialize sys plat ?s1] =>
    destruct (initialize_loaded s1) as (rest & Htr & _ & Hno); [done |]
  end.
  exists rest. split; [| done].
  rewrite Htr. simpl. by rewrite <- app_assoc.
Qed.

(** X29: when the library does not export [nvapi_QueryInterface],
    [NvAPI_Initialize] answers [NVAPI_LIBRARY_NOT_FOUND] and leaves the six
    pointers as they were; it resolves no interface and frees nothing, so a
    library it has loaded stays loaded. *)
Theorem initialize_without_query_interface s :
  (∀ hist l name, Nvapi.sys_symbol sys hist l name = Nvapi.NULL) →
  (Nvapi.NvAPI_Initialize sys plat s).1 = Nvapi.NVAPI_LIBRARY_NOT_FOUND ∧
  Nvapi.pointers (Nvapi.NvAPI_Initialize sys plat s).2 = Nvapi.pointers s ∧
  ∃ new,
    Nvapi.trace (Nvapi.NvAPI_Initialize sys plat s).2 =
      Nvapi.trace s ++ new ∧
    ∀ c, c ∈ new →
      match c with
      | Nvapi.SysLoad _ | Nvapi.SysSymbol _ _ | Nvapi.SysStderr _ => True
      | _ => False
      end.
Proof.
  intros Hsym. unfold Nvapi.NvAPI_Initialize.
  set (s1 := Nvapi.load_if_missing sys _ s).
  set (s2 := Nvapi.load_if_missing sys _ s1).
  assert (Nvapi.pointers s2 = Nvapi.pointers s) as Hptr
    by (unfold s2, s1; by rewrite !load_if_missing_pointers).
  destruct (load_if_missing_trace (Nvapi.library_names plat).1 s)
    as (n1 & Ht1 & Hl1).
  destruct (load_if_missing_trace (Nvapi.library_names plat).2 s1)
    as (n2 & Ht2 & Hl2).
  fold s1 in Ht1. fold s2 in Ht2.
  assert (∀ c, c ∈ n1 ++ n2 → Nvapi.is_SysLoad c = true) as Hloads.
  { intros c Hin. apply elem_of_app in Hin as [Hin|Hin].
    - by eapply (proj1 (Forall_forall _ _) Hl1).
    - by eapply (proj1 (Forall_forall _ _) Hl2). }
  destruct (Nvapi.lib s2 =? Nvapi.NULL).
  - split; [done |]. split; [done |].
    eexists. split.
    { simpl. rewrite Ht2, Ht1, <- !app_assoc. reflexivity. }
    intros c Hin. rewrite app_assoc in Hin.
    apply elem_of_app in Hin as [Hin|Hin].
    + apply Hloads in Hin. by destruct c.
    + apply list_elem_of_singleton in Hin. by subst c.
  - rewrite Hsym. simpl.
    split; [done |]. split; [done |].
    eexists. split.
    { rewrite Ht2, Ht1, <- !app_assoc. reflexivity. }
    intros c Hin. rewrite app_assoc in Hin.
    apply elem_of_app in Hin as [Hin|Hin].
    + apply Hloads in Hin. by destruct c.
    + apply elem_of_cons in Hin as [->|Hin]; [done |].
      apply list_elem_of_singleton in Hin. by subst c.
Qed.

End LoaderLemmas.

(** * The end of [run] *)

(** X30: the code from the label [cleanup] to the [return] always
    terminates, within three passes over the label.  Each library that was
    initialised is asked exactly once to shut down, NVAPI first, and NVML
    also when the unloading of NVAPI has failed; the answer is true when an
    error had occurred before or one of the two requests fails. *)
Theorem cleanup_terminates td fuel f :
  (3 ≤ fuel)%nat →
  let unloaded :=
    requests f ++ (if nvapiInitialized f then [CallUnload] else []) in
  cleanup td fuel f =
    Some (errorOccurred f
          || (nvapiInitialized f
              && NVAPI_CALL_failed (td_Unload td (requests f)))
          || (nvmlInitialized f
              && NVML_CALL_failed (td_Shutdown td unloaded)),
          unloaded ++ (if nvmlInitialized f then [CallShutdown] else [])).
Proof.
  intros Hfuel.
  destruct fuel as [|[|[|fuel]]]; [lia | lia | lia |].
  destruct f as [[] [] e r]; cbn -[NVAPI_CALL_failed NVML_CALL_failed];
    rewrite ?app_nil_r;
    repeat match goal with
    | |- context [NVAPI_CALL_failed ?x] =>
      destruct (NVAPI_CALL_failed x); cbn -[NVML_CALL_failed]
    | |- context [NVML_CALL_failed ?x] => destruct (NVML_CALL_failed x); cbn
    end;
    rewrite ?app_nil_r, <- ?app_assoc, ?orb_true_r, ?orb_false_r; done.
Qed.


(** * The further properties on the scenarios *)

Lemma get_supported_clocks_stores_minima_witness :
  ∃ σ',
    get_supported_clocks (fake_driver NVAPI_OK 50 0) 0
      (one_device idle_device) = Some (true, σ') ∧
    ∃ st',
      gpuStates σ' !! 0%nat = Some st' ∧
      st' = set_minGpuClock (minGpuClock st')
              (set_minMemClock (minMemClock st') idle_device) ∧
      minMemClock st' ∈ [810; 405; 5001] ∧
      (∀ x, x ∈ [810; 405; 5001] → minMemClock st' ≤ x) ∧
      minGpuClock st' ∈ [1500; 210; 300] ∧
      (∀ x, x ∈ [1500; 210; 300] → minGpuClock st' ≤ x).
Proof.
  eexists. split; [vm_compute; reflexivity |].
  apply (get_supported_clocks_stores_minima (fake_driver NVAPI_OK 50 0)
           0%nat (one_device idle_device) _ idle_device 200).
  - reflexivity.
  - reflexivity.
  - reflexivity.
  - reflexivity.
Defined.

Lemma get_supported_clocks_memory_query_fails_witness :
  ∃ σ' rest,
    get_supported_clocks (scripted_driver NVAPI_OK 1 0 0 0 [] [] 50 0) 0
      (one_device idle_device) = Some (false, σ') ∧
    σ' = with_calls (calls σ') (one_device idle_device) ∧
    calls σ' =
      calls (one_device idle_device) ++
      CallGetSupportedMemoryClocks 200 :: rest ∧
    count_calls is_control rest = 0%nat.
Proof.
  apply (get_supported_clocks_memory_query_fails
           (scripted_driver NVAPI_OK 1 0 0 0 [] [] 50 0) 0%nat
           (one_device idle_device) idle_device 200).
  - reflexivity.
  - reflexivity.
  - reflexivity.
  - left. simpl. discriminate.
Defined.

Lemma get_supported_clocks_core_query_fails_witness :
  get_supported_clocks
    (scripted_driver NVAPI_OK 0 1 0 0 [810; 405] [] 50 0) 0
    (one_device idle_device) =
  Some (false,
        update_device 0 (set_minMemClock 405 idle_device)
          [CallGetSupportedMemoryClocks 200;
           CallGetSupportedGraphicsClocks 200 405]
          (one_device idle_device)).
Proof.
  apply (get_supported_clocks_core_query_fails
           (scripted_driver NVAPI_OK 0 1 0 0 [810; 405] [] 50 0) 0%nat
           (one_device idle_device) idle_device 200 810 [405]).
  - reflexivity.
  - reflexivity.
  - reflexivity.
  - reflexivity.
  - left. simpl. discriminate.
Defined.

Lemma set_clocks_changes_current_clocks_only_witness :
  set_clocks (fake_driver NVAPI_OK 50 0) 0 false 0 0 0 0
    (one_device (mkGpuState 3 16 true true 405 210 0 0)) =
  Some (true,
        update_device 0 (mkGpuState 3 16 true true 405 210 405 210)
          [CallSetApplicationsClocks 200 405 210]
          (one_device (mkGpuState 3 16 true true 405 210 0 0))).
Proof.
  apply (set_clocks_changes_current_clocks_only (fake_driver NVAPI_OK 50 0)
           0%nat false 0 0 0 0
           (one_device (mkGpuState 3 16 true true 405 210 0 0))
           (mkGpuState 3 16 true true 405 210 0 0) 200).
  - reflexivity.
  - reflexivity.
  - reflexivity.
Defined.

Lemma enter_pstate_without_fallback_fails_witness :
  ∃ σ' rest,
    enter_pstate (fake_driver 1 50 0) 0 8 0 0 0 0
      (one_device_no_fallback idle_device) = Some (false, σ') ∧
    σ' = with_calls (calls σ') (one_device_no_fallback idle_device) ∧
    calls σ' =
      calls (one_device_no_fallback idle_device) ++
      CallSetForcePstate 100 8 0 :: rest ∧
    count_calls is_control rest = 0%nat.
Proof.
  apply (enter_pstate_without_fallback_fails (fake_driver 1 50 0) 0%nat
           8 0 0 0 0 (one_device_no_fallback idle_device) idle_device 100).
  - reflexivity.
  - reflexivity.
  - reflexivity.
  - reflexivity.
  - reflexivity.
  - simpl. discriminate.
Defined.

Lemma enter_pstate_stays_native_when_query_fails_witness :
  ∃ σ',
    enter_pstate (scripted_driver 1 1 0 0 0 [] [] 50 0) 0 8 0 0 0 0
      (one_device idle_device) = Some (false, σ') ∧
    gpuStates σ' = gpuStates (one_device idle_device) ∧
    calls σ' =
      calls (one_device idle_device) ++
      [CallSetForcePstate 100 8 0; CallGetSupportedMemoryClocks 200] ∧
    ∃ r σ'' rest,
      enter_pstate (scripted_driver 1 1 0 0 0 [] [] 50 0) 0 8 0 0 0 0 σ' =
        Some (r, σ'') ∧
      calls σ'' = calls σ' ++ CallSetForcePstate 100 8 0 :: rest.
Proof.
  apply (enter_pstate_stays_native_when_query_fails
           (scripted_driver 1 1 0 0 0 [] [] 50 0) 0%nat 8 0 0 0 0
           (one_device idle_device) idle_device 100 200).
  - reflexivity.
  - reflexivity.
  - reflexivity.
  - reflexivity.
  - reflexivity.
  - reflexivity.
  - simpl. discriminate.
  - left. simpl. discriminate.
Defined.

Lemma enter_pstate_fails_under_clock_control_witness :
  ∃ σ',
    enter_pstate
      (scripted_driver 1 0 0 0 1 [810; 405] [1500; 210] 50 0) 0 8 0 0 0 0
      (one_device idle_device) = Some (false, σ') ∧
    gpuStates σ' !! 0%nat =
      Some (set_usingClockControl true
              (set_minGpuClock 210 (set_minMemClock 405 idle_device))) ∧
    usingClockControl
      (set_usingClockControl true
         (set_minGpuClock 210 (set_minMemClock 405 idle_device))) = true ∧
    pstateId
      (set_usingClockControl true
         (set_minGpuClock 210 (set_minMemClock 405 idle_device))) =
      pstateId idle_device ∧
    iterations
      (set_usingClockControl true
         (set_minGpuClock 210 (set_minMemClock 405 idle_device))) =
      iterations idle_device.
Proof.
  apply (enter_pstate_fails_under_clock_control
           (scripted_driver 1 0 0 0 1 [810; 405] [1500; 210] 50 0) 0%nat
           8 0 0 0 0 (one_device idle_device) idle_device 100 200
           810 [405] 1500 [210]).
  - reflexivity.
  - reflexivity.
  - reflexivity.
  - reflexivity.
  - reflexivity.
  - reflexivity.
  - simpl. discriminate.
  - reflexivity.
  - reflexivity.
  - vm_compute. discriminate.
Defined.

Lemma clock_control_treats_only_16_as_high_witness :
  ∃ r1 σ1 r2 σ2,
    enter_pstate (fake_driver NVAPI_OK 50 0) 0 8 0 0 0 0
      (one_device clocked_device) = Some (r1, σ1) ∧
    enter_pstate (fake_driver NVAPI_OK 50 0) 0 0 0 0 0 0
      (one_device clocked_device) = Some (r2, σ2) ∧
    calls σ1 =
      calls (one_device clocked_device) ++
      [CallSetApplicationsClocks 200
         (wrap32 (if 0 >? 0 then 0 else minMemClock clocked_device))
         (wrap32 (if 0 >? 0 then 0 else minGpuClock clocked_device))] ∧
    calls σ2 =
      calls (one_device clocked_device) ++
      [CallSetApplicationsClocks 200
         (wrap32 (if 0 >? 0 then 0 else minMemClock clocked_device))
         (wrap32 (if 0 >? 0 then 0 else minGpuClock clocked_device))].
Proof.
  apply (clock_control_treats_only_16_as_high (fake_driver NVAPI_OK 50 0)
           0%nat 8 0 0 0 0 0 (one_device clocked_device) clocked_device 200).
  - reflexivity.
  - reflexivity.
  - reflexivity.
  - reflexivity.
  - discriminate.
  - discriminate.
Defined.

Lemma enter_pstate_always_calls_the_library_witness :
  ∃ r σ' rest,
    enter_pstate (fake_driver NVAPI_OK 50 0) 0 16 0 0 0 0
      (one_device idle_device) = Some (r, σ') ∧
    calls σ' =
      calls (one_device idle_device) ++ CallSetForcePstate 100 16 0 :: rest.
Proof.
  apply (enter_pstate_always_calls_the_library (fake_driver NVAPI_OK 50 0)
           0%nat 16 0 0 0 0 (one_device idle_device) idle_device 100 200).
  - reflexivity.
  - reflexivity.
  - reflexivity.
  - reflexivity.
Defined.

Lemma busy_sample_resets_hysteresis_witness :
  ∃ r σ',
    tick_device (fake_driver NVAPI_OK 50 90) default_options 0
      (one_device hot_device) = Some (r, σ') ∧
    (r = true →
     ∃ st', gpuStates σ' !! 0%nat = Some st' ∧
            pstateId st' = performanceStateHigh default_options ∧
            iterations st' = 0) ∧
    (pstateId hot_device = performanceStateHigh default_options →
     r = true ∧
     σ' = update_device 0 (set_iterations 0 hot_device)
            [CallGetTemperature 200; CallGetUtilizationRates 200]
            (one_device hot_device)).
Proof.
  apply (busy_sample_resets_hysteresis (fake_driver NVAPI_OK 50 90)
           default_options 0%nat (one_device hot_device) hot_device 200 100
           50 (mkUtilization 90 0)).
  - reflexivity.
  - reflexivity.
  - reflexivity.
  - reflexivity.
  - vm_compute. split; [discriminate | reflexivity].
  - reflexivity.
  - vm_compute. discriminate.
  - reflexivity.
  - simpl. discriminate.
Defined.

Lemma idle_low_device_is_left_alone_witness :
  ∃ σ',
    main_loop (fake_driver NVAPI_OK 50 0) default_options 3
      (one_device low_device) = Some (true, σ') ∧
    gpuStates σ' !! 0%nat = Some low_device.
Proof.
  eexists. split; [vm_compute; reflexivity |].
  apply (idle_low_device_is_left_alone (fake_driver NVAPI_OK 50 0)
           default_options 3 0%nat (one_device low_device) _ low_device 200).
  - simpl. lia.
  - reflexivity.
  - reflexivity.
  - reflexivity.
  - intros hist. vm_compute. discriminate.
  - intros hist. reflexivity.
  - reflexivity.
Defined.

Lemma failed_temperature_read_ends_the_loop_witness :
  main_loop deaf_driver default_options 1 (one_device idle_device) =
  Some (false,
        with_calls (calls (one_device idle_device) ++ [CallGetTemperature 200])
          (one_device idle_device)).
Proof.
  apply (failed_temperature_read_ends_the_loop deaf_driver default_options
           0%nat 0%nat (one_device idle_device) (one_device idle_device) 200).
  - simpl. lia.
  - reflexivity.
  - reflexivity.
  - simpl. discriminate.
Defined.

Lemma unmanaged_device_is_polled_not_controlled_witness :
  ∃ r σ' new st',
    tick_device (fake_driver NVAPI_OK 50 0) default_options 0
      (one_device zero_state) = Some (r, σ') ∧
    calls σ' = calls (one_device zero_state) ++ CallGetTemperature 200 :: new ∧
    count_calls is_control new = 0%nat ∧
    gpuStates σ' = <[0%nat := st']> (gpuStates (one_device zero_state)) ∧
    st' = set_iterations (iterations st') zero_state.
Proof.
  apply (unmanaged_device_is_polled_not_controlled
           (fake_driver NVAPI_OK 50 0) default_options 0%nat
           (one_device zero_state) zero_state 200).
  - reflexivity.
  - reflexivity.
  - reflexivity.
Defined.

Lemma huge_threshold_never_switches_witness :
  ∃ σ',
    main_loop (fake_driver NVAPI_OK 50 0) never_switch 2
      (one_device idle_device) = Some (true, σ') ∧
    ∃ st', gpuStates σ' !! 0%nat = Some st' ∧
           st' = set_iterations (iterations st') idle_device ∧
           iterations st' = (iterations idle_device + Z.of_nat 2) mod 2 ^ 32.
Proof.
  eexists. split; [vm_compute; reflexivity |].
  apply (huge_threshold_never_switches (fake_driver NVAPI_OK 50 0)
           never_switch 2 0%nat (one_device idle_device) _ idle_device 200).
  - simpl. lia.
  - reflexivity.
  - reflexivity.
  - reflexivity.
  - simpl. discriminate.
  - vm_compute. split; [discriminate | reflexivity].
  - vm_compute. discriminate.
  - intros hist. vm_compute. discriminate.
  - intros hist. reflexivity.
  - reflexivity.
Defined.

Lemma init_leaves_managed_devices_low_witness :
  ∃ σ' st',
    init (fake_driver NVAPI_OK 50 0) default_options one_enumerated =
      Some (true, σ') ∧
    gpuStates σ' !! 0%nat = Some st' ∧
    pstateId st' = wrap32 (performanceStateLow default_options) ∧
    iterations st' = 0.
Proof.
  eexists. eexists. split; [vm_compute; reflexivity |].
  split; [reflexivity |].
  eapply (init_leaves_managed_devices_low (fake_driver NVAPI_OK 50 0)
            default_options one_enumerated _ 0%nat _).
  - vm_compute. reflexivity.
  - simpl. lia.
  - reflexivity.
  - reflexivity.
Defined.

Lemma init_fails_without_managed_device_witness :
  ∃ σ',
    init (fake_driver NVAPI_OK 50 0) id_one one_enumerated =
      Some (false, σ') ∧
    calls σ' = calls one_enumerated.
Proof.
  apply (init_fails_without_managed_device (fake_driver NVAPI_OK 50 0)
           id_one one_enumerated).
  - discriminate.
  - repeat constructor. simpl. lia.
  - vm_compute. lia.
  - intros i st Hst. apply lookup_replicate in Hst as [-> _]. reflexivity.
Defined.

Lemma mark_managed_marks_all_without_ids_witness :
  ∃ σ',
    mark_managed default_options one_enumerated = Some (tt, σ') ∧
    calls σ' = calls one_enumerated ∧
    ∀ k st, gpuStates one_enumerated !! k = Some st →
      gpuStates σ' !! k =
      Some (if decide (k < deviceCount one_enumerated)%nat
            then set_managed true st else st).
Proof.
  apply (mark_managed_marks_all_without_ids default_options one_enumerated).
  - reflexivity.
  - vm_compute. lia.
Defined.

Lemma mark_managed_marks_listed_ids_witness :
  ∃ σ',
    mark_managed id_one one_enumerated = Some (tt, σ') ∧
    σ' = with_gpuStates (gpuStates σ') one_enumerated ∧
    ∀ k st, gpuStates one_enumerated !! k = Some st →
      gpuStates σ' !! k =
      Some (if bool_decide (Z.of_nat k ∈ ids id_one ∧
                            (k ≤ deviceCount one_enumerated)%nat)
            then set_managed true st else st).
Proof.
  apply (mark_managed_marks_listed_ids id_one one_enumerated).
  - discriminate.
  - repeat constructor. simpl. lia.
  - vm_compute. lia.
Defined.

Lemma failed_sort_changes_nothing_witness :
  ∃ σ',
    sort_nvapi_handles deaf_driver (one_device idle_device) =
      Some (false, σ') ∧
    σ' = with_calls (calls σ') (one_device idle_device) ∧
    ends_with_failed_read deaf_driver (calls σ').
Proof.
  eexists. split; [vm_compute; reflexivity |].
  apply (failed_sort_changes_nothing deaf_driver (one_device idle_device)).
  reflexivity.
Defined.

Lemma sorted_handles_share_bus_ids_witness :
  ∃ σ',
    sort_nvapi_handles scenario_E_driver scenario_E = Some (true, σ') ∧
    nvmlDevices σ' = nvmlDevices scenario_E ∧
    gpuStates σ' = gpuStates scenario_E ∧
    ∀ i d j hj,
      nvmlDevices scenario_E !! i = Some d →
      (i < deviceCount scenario_E)%nat → (j < deviceCount scenario_E)%nat →
      nvapiDevices scenario_E !! j = Some (Some hj) →
      hj + 1 = d →
      ∃ j' h', (j' < deviceCount scenario_E)%nat ∧
               nvapiDevices scenario_E !! j' = Some (Some h') ∧
               nvapiDevices σ' !! i = Some (Some h') ∧
               h' + 1 = d.
Proof.
  apply (sorted_handles_share_bus_ids scenario_E_driver scenario_E
           (λ d, d) (λ h, h + 1)).
  - vm_compute. lia.
  - intros i Hi. simpl in Hi.
    destruct i as [|[|[|i]]]; [| | | lia]; split; eauto.
  - reflexivity.
  - reflexivity.
Defined.

Lemma sorting_twice_changes_nothing_witness :
  ∃ σ1 σ2,
    sort_nvapi_handles scenario_E_driver scenario_E = Some (true, σ1) ∧
    sort_nvapi_handles scenario_E_driver σ1 = Some (true, σ2) ∧
    ∀ i, (i < deviceCount scenario_E)%nat →
      ∃ h', nvapiDevices σ1 !! i = Some (Some h') ∧
            nvapiDevices σ2 !! i = Some (Some h').
Proof.
  apply (sorting_twice_changes_nothing scenario_E_driver scenario_E
           (λ d, d) (λ h, h + 1)).
  - vm_compute. lia.
  - intros i Hi. simpl in Hi.
    destruct i as [|[|[|i]]]; [| | | lia]; eauto.
  - reflexivity.
  - reflexivity.
  - intros i1 i2 d1 d2 H1 H2 Hd1 Hd2 Heq. simpl in H1, H2.
    destruct i1 as [|[|[|i1]]]; [| | | lia];
      destruct i2 as [|[|[|i2]]]; try lia;
      simpl in Hd1, Hd2; injection Hd1 as <-; injection Hd2 as <-;
      first [reflexivity | discriminate].
  - intros i d Hi Hd. simpl in Hi.
    destruct i as [|[|[|i]]]; [| | | lia];
      simpl in Hd; injection Hd as <-.
    + exists 2%nat, 2. simpl. split; [lia | split; reflexivity].
    + exists 0%nat, 0. simpl. split; [lia | split; reflexivity].
    + exists 1%nat, 1. simpl. split; [lia | split; reflexivity].
Defined.

Lemma initialize_without_library_witness :
  ∃ s',
    Nvapi.NvAPI_Initialize Nvapi.bare_system Nvapi.Linux
      Nvapi.initial_statics = (Nvapi.NVAPI_LIBRARY_NOT_FOUND, s') ∧
    Nvapi.lib s' = Nvapi.NULL ∧
    Nvapi.pointers s' = Nvapi.pointers Nvapi.initial_statics ∧
    Nvapi.trace s' =
      Nvapi.trace Nvapi.initial_statics ++
      [Nvapi.SysLoad (Nvapi.library_names Nvapi.Linux).1;
       Nvapi.SysLoad (Nvapi.library_names Nvapi.Linux).2;
       Nvapi.SysStderr Nvapi.LOAD_FAILED].
Proof.
  apply (initialize_without_library Nvapi.bare_system Nvapi.Linux
           Nvapi.initial_statics).
  - reflexivity.
  - reflexivity.
Defined.

Lemma initialize_does_not_load_twice_witness :
  ∃ rest,
    Nvapi.trace (Nvapi.NvAPI_Initialize Nvapi.plain_system Nvapi.Linux
                   Nvapi.loaded_statics).2 =
      Nvapi.trace Nvapi.loaded_statics ++
      Nvapi.SysSymbol (Nvapi.lib Nvapi.loaded_statics)
        Nvapi.QUERY_INTERFACE :: rest ∧
    Nvapi.lib (Nvapi.NvAPI_Initialize Nvapi.plain_system Nvapi.Linux
                 Nvapi.loaded_statics).2 = Nvapi.lib Nvapi.loaded_statics ∧
    ∀ name, Nvapi.SysLoad name ∉ rest.
Proof.
  apply (initialize_does_not_load_twice Nvapi.plain_system Nvapi.Linux
           Nvapi.loaded_statics).
  vm_compute. discriminate.
Defined.

Lemma unload_clears_five_pointers_witness :
  ∃ s',
    Nvapi.NvAPI_Unload Nvapi.plain_system Nvapi.loaded_statics =
      (NVAPI_OK, s') ∧
    Nvapi.pointers s' =
      [Nvapi.NULL; Nvapi._NvAPI_GPU_GetBusId Nvapi.loaded_statics;
       Nvapi.NULL; Nvapi.NULL; Nvapi.NULL; Nvapi.NULL] ∧
    Nvapi.lib s' = Nvapi.lib Nvapi.loaded_statics ∧
    Nvapi.trace s' =
      Nvapi.trace Nvapi.loaded_statics ++
      [Nvapi.SysUnload (Nvapi._NvAPI_Unload Nvapi.loaded_statics);
       Nvapi.SysFree (Nvapi.lib Nvapi.loaded_statics)].
Proof.
  apply (unload_clears_five_pointers Nvapi.plain_system
           Nvapi.loaded_statics).
  - vm_compute. discriminate.
  - vm_compute. discriminate.
  - reflexivity.
Defined.

Lemma bus_id_wrapper_survives_unload_witness :
  Nvapi.NvAPI_EnumPhysicalGPUs Nvapi.plain_system
    (Nvapi.NvAPI_Unload Nvapi.plain_system Nvapi.loaded_statics).2 =
    (Nvapi.NVAPI_API_NOT_INITIALIZED, None,
     (Nvapi.NvAPI_Unload Nvapi.plain_system Nvapi.loaded_statics).2) ∧
  Nvapi.NvAPI_GPU_SetForcePstate Nvapi.plain_system 100 8 0
    (Nvapi.NvAPI_Unload Nvapi.plain_system Nvapi.loaded_statics).2 =
    (Nvapi.NVAPI_API_NOT_INITIALIZED,
     (Nvapi.NvAPI_Unload Nvapi.plain_system Nvapi.loaded_statics).2) ∧
  Nvapi.NvAPI_GetErrorMessage Nvapi.plain_system (-1)
    (Nvapi.NvAPI_Unload Nvapi.plain_system Nvapi.loaded_statics).2 =
    (Nvapi.NVAPI_API_NOT_INITIALIZED, None,
     (Nvapi.NvAPI_Unload Nvapi.plain_system Nvapi.loaded_statics).2) ∧
  Nvapi.trace
    (Nvapi.NvAPI_GPU_GetBusId Nvapi.plain_system 100
       (Nvapi.NvAPI_Unload Nvapi.plain_system Nvapi.loaded_statics).2).2 =
    Nvapi.trace
      (Nvapi.NvAPI_Unload Nvapi.plain_system Nvapi.loaded_statics).2 ++
    [Nvapi.SysGetBusId (Nvapi._NvAPI_GPU_GetBusId Nvapi.loaded_statics) 100].
Proof.
  apply (bus_id_wrapper_survives_unload Nvapi.plain_system
           Nvapi.loaded_statics 100 8 0 (-1)).
  - vm_compute. discriminate.
  - vm_compute. discriminate.
  - reflexivity.
  - vm_compute. discriminate.
Defined.

Lemma second_unload_is_refused_witness :
  Nvapi.NvAPI_Unload Nvapi.plain_system
    (Nvapi.NvAPI_Unload Nvapi.plain_system Nvapi.loaded_statics).2 =
  (Nvapi.NVAPI_API_NOT_INITIALIZED,
   (Nvapi.NvAPI_Unload Nvapi.plain_system Nvapi.loaded_statics).2).
Proof.
  apply (second_unload_is_refused Nvapi.plain_system Nvapi.loaded_statics).
  - vm_compute. discriminate.
  - vm_compute. discriminate.
  - reflexivity.
Defined.

Lemma failed_unload_frees_nothing_witness :
  Nvapi.lib (Nvapi.NvAPI_Unload Nvapi.stuck_system Nvapi.loaded_statics).2 =
    Nvapi.lib Nvapi.loaded_statics ∧
  Nvapi.pointers
    (Nvapi.NvAPI_Unload Nvapi.stuck_system Nvapi.loaded_statics).2 =
    Nvapi.pointers Nvapi.loaded_statics ∧
  ∃ new,
    Nvapi.trace
      (Nvapi.NvAPI_Unload Nvapi.stuck_system Nvapi.loaded_statics).2 =
      Nvapi.trace Nvapi.loaded_statics ++ new ∧
    ∀ l, Nvapi.SysFree l ∉ new.
Proof.
  apply (failed_unload_frees_nothing Nvapi.stuck_system Nvapi.loaded_statics).
  vm_compute. discriminate.
Defined.

Lemma initialize_after_unload_reuses_freed_handle_witness :
  ∃ rest,
    Nvapi.trace
      (Nvapi.NvAPI_Initialize Nvapi.plain_system Nvapi.Linux
         (Nvapi.NvAPI_Unload Nvapi.plain_system Nvapi.loaded_statics).2).2 =
      Nvapi.trace Nvapi.loaded_statics ++
      [Nvapi.SysUnload (Nvapi._NvAPI_Unload Nvapi.loaded_statics);
       Nvapi.SysFree (Nvapi.lib Nvapi.loaded_statics);
       Nvapi.SysSymbol (Nvapi.lib Nvapi.loaded_statics)
         Nvapi.QUERY_INTERFACE] ++ rest ∧
    ∀ name, Nvapi.SysLoad name ∉ rest.
Proof.
  apply (initialize_after_unload_reuses_freed_handle Nvapi.plain_system
           Nvapi.Linux Nvapi.loaded_statics).
  - vm_compute. discriminate.
  - vm_compute. discriminate.
  - reflexivity.
Defined.

Lemma initialize_without_query_interface_witness :
  (Nvapi.NvAPI_Initialize Nvapi.stripped_system Nvapi.Win32
     Nvapi.initial_statics).1 = Nvapi.NVAPI_LIBRARY_NOT_FOUND ∧
  Nvapi.pointers
    (Nvapi.NvAPI_Initialize Nvapi.stripped_system Nvapi.Win32
       Nvapi.initial_statics).2 = Nvapi.pointers Nvapi.initial_statics ∧
  ∃ new,
    Nvapi.trace
      (Nvapi.NvAPI_Initialize Nvapi.stripped_system Nvapi.Win32
         Nvapi.initial_statics).2 =
      Nvapi.trace Nvapi.initial_statics ++ new ∧
    ∀ c, c ∈ new →
      match c with
      | Nvapi.SysLoad _ | Nvapi.SysSymbol _ _ | Nvapi.SysStderr _ => True
      | _ => False
      end.
Proof.
  apply (initialize_without_query_interface Nvapi.stripped_system
           Nvapi.Win32 Nvapi.initial_statics).
  reflexivity.
Defined.

Lemma cleanup_terminates_witness :
  cleanup (mkTeardown (λ _, 1) (λ _, NVML_SUCCESS)) 3
    (mkFlags true true false []) =
  Some (true, [CallUnload; CallShutdown]).
Proof.
  apply (cleanup_terminates (mkTeardown (λ _, 1) (λ _, NVML_SUCCESS)) 3
           (mkFlags true true false [])).
  lia.
Defined.
